(** * Shape inference of the convolutional and core layers

    A shallow embedding of the shape and parameter inference code of
    [keras/layers/convolutional.py] and [keras/layers/core.py]:
    the [build] and [compute_output_shape] methods of the convolution
    family, of the up-sampling, zero-padding and cropping layers, and of
    [Reshape] and [Flatten], together with the constructors the stated
    properties depend on.

    Python tuples are lists, Python integers are [Z], [None] inside a
    shape is [None : option Z], a raised exception is a [Raise] result,
    and the attributes a method assigns on [self] are threaded through a
    small state-and-exception monad. *)

From Stdlib Require Import ZArith List String Ascii Bool Lia.
From stdpp Require Import base list strings.

Local Open Scope string_scope.
Local Open Scope list_scope.
Local Open Scope Z_scope.

(** ** Exceptions and fallible results *)

(** The Python exceptions the modelled methods raise. [OutsideInt64] is
    not one of them: it marks the point where a value that does not fit a
    signed 64-bit integer reaches numpy. numpy then leaves its 64-bit
    integers for another type of number (unsigned, floating point or
    Python objects, depending on the other values and on its version),
    with results and errors of its own that are not followed here. A
    statement about a computation through numpy carries the hypotheses
    that keep it inside 64 bits, where this outcome does not occur. *)
Inductive exn : Type :=
| ValueError
| TypeError
| IndexError
| OutsideInt64.

Inductive result (A : Type) : Type :=
| Ok (a : A)
| Raise (e : exn).

Arguments Ok {A} a.
Arguments Raise {A} e.

Definition rbind {A B : Type} (m : result A) (k : A -> result B) : result B :=
  match m with
  | Ok a => k a
  | Raise e => Raise e
  end.

Declare Scope result_scope.
Delimit Scope result_scope with result.
Notation "x <- m ;; k" := (rbind m (fun x => k))
  (at level 100, m at next level, right associativity) : result_scope.
Local Open Scope result_scope.

Definition is_ok {A : Type} (r : result A) : bool :=
  match r with
  | Ok _ => true
  | Raise _ => false
  end.

(** Monadic map, left to right: the first exception wins. *)
Fixpoint rmap {A B : Type} (f : A -> result B) (l : list A) : result (list B) :=
  match l with
  | [] => Ok []
  | x :: l' => y <- f x ;; ys <- rmap f l' ;; Ok (y :: ys)
  end.

(** ** Python sequences *)

(** A dimension of a shape tuple: an integer, or [None] when unknown. *)
Definition dim : Type := option Z.

(** [t[i]] for a non-negative literal index. *)
Definition item {A : Type} (t : list A) (i : nat) : result A :=
  match t !! i with
  | Some x => Ok x
  | None => Raise IndexError
  end.

(** [t[i]] for any integer index: a negative index counts from the end. *)
Definition py_index {A : Type} (t : list A) (i : Z) : result A :=
  let n := Z.of_nat (length t) in
  let j := if i <? 0 then n + i else i in
  if (0 <=? j) && (j <? n) then item t (Z.to_nat j) else Raise IndexError.

(** [t[k:]] *)
Definition slice_from {A : Type} (k : nat) (t : list A) : list A := drop k t.

(** [t[1:-1]] *)
Definition slice_inner {A : Type} (t : list A) : list A :=
  drop 1 (take (length t - 1) t).

(** [sum(t)] *)
Definition py_sum (t : list Z) : Z := fold_left Z.add t 0.

(** [list(range(a, a + n))] *)
Definition py_range (a n : nat) : list nat := seq a n.

(** ** Configuration values *)

Inductive data_format_t : Type :=
| channels_first
| channels_last.

Inductive padding_t : Type :=
| valid
| same
| causal.

(** An argument that is either one integer or a sequence of integers, as
    accepted for [kernel_size], [strides], [dilation_rate] and so on. *)
Inductive int_or_seq : Type :=
| PyInt (z : Z)
| PySeq (l : list Z).

(** ** Helpers of [conv_utils], [generic_utils] and the backend *)

Definition ascii_lower (c : ascii) : ascii :=
  let n := nat_of_ascii c in
  if ((65 <=? n) && (n <=? 90))%nat then ascii_of_nat (n + 32) else c.

(** [s.lower()] *)
Fixpoint lower (s : string) : string :=
  match s with
  | EmptyString => EmptyString
  | String c s' => String (ascii_lower c) (lower s')
  end.

Module conv_utils.

(** Modelled from the spec: [conv_utils.normalize_tuple] is not part of
    the sources at hand. A single integer is broadcast to [n] entries; a
    sequence must have exactly [n] entries (all of them are integers
    here by typing), otherwise the call fails with a configuration
    error, which the layers raise as [ValueError]. *)
Definition normalize_tuple (value : int_or_seq) (n : nat) : result (list Z) :=
  match value with
  | PyInt z => Ok (replicate n z)
  | PySeq l => if (length l =? n)%nat then Ok l else Raise ValueError
  end.

(** Modelled from the spec: [conv_utils.normalize_padding] is not part
    of the sources at hand. It maps the strings valid, same and causal,
    compared without regard to case, to the padding mode and fails on
    anything else. *)
Definition normalize_padding (value : string) : result padding_t :=
  let p := lower value in
  if String.eqb p "valid" then Ok valid
  else if String.eqb p "same" then Ok same
  else if String.eqb p "causal" then Ok causal
  else Raise ValueError.

(** The dilated kernel extent shared by both calculators. *)
Definition dilated_kernel (kernel_size dilation : Z) : Z :=
  kernel_size + (kernel_size - 1) * (dilation - 1).

(** Modelled from the spec: [conv_utils.conv_output_length] is not part
    of the sources at hand. An unknown input size stays unknown; VALID
    gives [floor ((input - dilated_kernel) / stride) + 1], SAME and
    CAUSAL give [ceil (input / stride)], and the result is clamped to
    be non-negative. *)
Definition conv_output_length
    (input_size : dim) (kernel_size : Z) (padding : padding_t)
    (stride dilation : Z) : dim :=
  match input_size with
  | None => None
  | Some n =>
      let dk := dilated_kernel kernel_size dilation in
      let output :=
        match padding with
        | valid => (n - dk) / stride + 1
        | same | causal => - ((- n) / stride)
        end in
      Some (Z.max 0 output)
  end.

(** Modelled from the spec: [conv_utils.deconv_length] is not part of
    the sources at hand. An unknown input size stays unknown. Without
    an output padding, VALID gives
    [input * stride + max (dilated_kernel - stride) 0] and SAME gives
    [input * stride]; with one, the result is
    [(input - 1) * stride + dilated_kernel - 2 * pad + output_padding]
    with [pad = 0] for VALID and [pad = dilated_kernel / 2] for SAME.
    The spec gives no rule of its own for CAUSAL, which its glossary
    describes as SAME with the padding on one side; it is treated as
    SAME. *)
Definition deconv_length
    (input_size : dim) (stride kernel_size : Z) (padding : padding_t)
    (output_padding : option Z) (dilation : Z) : dim :=
  match input_size with
  | None => None
  | Some n =>
      let dk := dilated_kernel kernel_size dilation in
      match output_padding with
      | None =>
          match padding with
          | valid => Some (n * stride + Z.max (dk - stride) 0)
          | same | causal => Some (n * stride)
          end
      | Some op =>
          let pad :=
            match padding with
            | valid => 0
            | same | causal => dk / 2
            end in
          Some ((n - 1) * stride + dk - 2 * pad + op)
      end
  end.

End conv_utils.

(** Modelled from the spec: [generic_utils.transpose_shape] is not part
    of the sources at hand. Its argument is in the canonical order
    (batch, spatial..., channel); for the channel-first layout the
    channel entry moves to position 1, right after the entries that come
    before the first spatial axis, and the spatial entries follow; for
    the channel-last layout the order is left as it is. *)
Definition transpose_shape {A : Type}
    (shape : list A) (target_format : data_format_t)
    (spatial_axes : list nat) : result (list A) :=
  match target_format with
  | channels_first =>
      first_axis <- item spatial_axes 0 ;;
      channel <- py_index shape (-1) ;;
      spatial <- rmap (item shape) spatial_axes ;;
      Ok (take first_axis shape ++ [channel] ++ spatial)
  | channels_last => Ok shape
  end.

(** Modelled from the spec: [K.normalize_data_format] is not part of the
    sources at hand. It maps the strings channels_first and channels_last
    to the layout, falls back to the process-wide default layout when the
    argument is unset, and fails on anything else. *)
Definition normalize_data_format
    (image_data_format : data_format_t) (value : option string)
    : result data_format_t :=
  match value with
  | None => Ok image_data_format
  | Some s =>
      if String.eqb s "channels_first" then Ok channels_first
      else if String.eqb s "channels_last" then Ok channels_last
      else Raise ValueError
  end.

(** ** Layer instances: the attributes that [build] assigns *)

(** A parameter of a layer, as requested from the backend. *)
Record weight : Type := Weight { w_name : string; w_shape : list Z }.

Record InputSpec : Type := MkInputSpec { ndim : nat; axes : list (Z * Z) }.

(** The mutable part of a layer instance. [weights] lists the parameters
    allocated so far, in allocation order; an attribute that has not been
    assigned, or holds [None], is [None]. *)
Record layer_state : Type := LayerState {
  weights : list weight;
  kernel : option weight;
  depthwise_kernel : option weight;
  pointwise_kernel : option weight;
  bias : option weight;
  input_spec : InputSpec;
  built : bool
}.

(** The state a constructor leaves behind: nothing allocated, not built,
    [input_spec = InputSpec(ndim=rank + 2)]. *)
Definition unbuilt (rank : nat) : layer_state :=
  {| weights := []; kernel := None; depthwise_kernel := None;
     pointwise_kernel := None; bias := None;
     input_spec := MkInputSpec (rank + 2) []; built := false |}.

(** Methods that assign attributes: a state transformer that also says
    whether the method returned or raised. What was assigned before an
    exception stays assigned. *)
Definition M (A : Type) : Type := layer_state -> result A * layer_state.

Definition sret {A : Type} (a : A) : M A := fun st => (Ok a, st).

Definition sraise {A : Type} (e : exn) : M A := fun st => (Raise e, st).

Definition sbind {A B : Type} (m : M A) (k : A -> M B) : M B :=
  fun st =>
    match m st with
    | (Ok a, st') => k a st'
    | (Raise e, st') => (Raise e, st')
    end.

Definition lift {A : Type} (r : result A) : M A := fun st => (r, st).

Declare Scope layer_scope.
Delimit Scope layer_scope with layer.
Notation "x <- m ;; k" := (sbind m (fun x => k))
  (at level 100, m at next level, right associativity) : layer_scope.

Definition set_kernel (w : option weight) : M unit := fun st =>
  (Ok tt, {| weights := weights st; kernel := w;
             depthwise_kernel := depthwise_kernel st;
             pointwise_kernel := pointwise_kernel st; bias := bias st;
             input_spec := input_spec st; built := built st |}).

Definition set_depthwise_kernel (w : option weight) : M unit := fun st =>
  (Ok tt, {| weights := weights st; kernel := kernel st;
             depthwise_kernel := w;
             pointwise_kernel := pointwise_kernel st; bias := bias st;
             input_spec := input_spec st; built := built st |}).

Definition set_pointwise_kernel (w : option weight) : M unit := fun st =>
  (Ok tt, {| weights := weights st; kernel := kernel st;
             depthwise_kernel := depthwise_kernel st;
             pointwise_kernel := w; bias := bias st;
             input_spec := input_spec st; built := built st |}).

Definition set_bias (w : option weight) : M unit := fun st =>
  (Ok tt, {| weights := weights st; kernel := kernel st;
             depthwise_kernel := depthwise_kernel st;
             pointwise_kernel := pointwise_kernel st; bias := w;
             input_spec := input_spec st; built := built st |}).

Definition set_input_spec (s : InputSpec) : M unit := fun st =>
  (Ok tt, {| weights := weights st; kernel := kernel st;
             depthwise_kernel := depthwise_kernel st;
             pointwise_kernel := pointwise_kernel st; bias := bias st;
             input_spec := s; built := built st |}).

Definition set_built (b : bool) : M unit := fun st =>
  (Ok tt, {| weights := weights st; kernel := kernel st;
             depthwise_kernel := depthwise_kernel st;
             pointwise_kernel := pointwise_kernel st; bias := bias st;
             input_spec := input_spec st; built := b |}).

(** Modelled from the spec: [Layer.add_weight] is not part of the sources
    at hand. It is the one side effect of [build]: it asks the backend
    for a parameter of the given shape and name, which thereby belongs to
    the layer, and returns it. Initializer, regularizer and constraint do
    not bear on shapes and are left out. *)
Definition add_weight (shape : list Z) (name : string) : M weight := fun st =>
  let w := Weight name shape in
  (Ok w, {| weights := weights st ++ [w]; kernel := kernel st;
            depthwise_kernel := depthwise_kernel st;
            pointwise_kernel := pointwise_kernel st; bias := bias st;
            input_spec := input_spec st; built := built st |}).

(** [a, b = t] and [a, b, c = t]: unpacking a tuple of the wrong length is
    a [ValueError]. *)
Definition unpack2 {A : Type} (t : list A) : result (A * A) :=
  match t with
  | [a; b] => Ok (a, b)
  | _ => Raise ValueError
  end.

Definition unpack3 {A : Type} (t : list A) : result (A * A * A) :=
  match t with
  | [a; b; c] => Ok (a, b, c)
  | _ => Raise ValueError
  end.

(** [t[i] = x] on a list. *)
Definition setitem {A : Type} (t : list A) (i : nat) (x : A)
    : result (list A) :=
  if (i <? length t)%nat then Ok (<[i := x]> t) else Raise IndexError.

(** [d * m] where [d] comes out of a shape: [None * m] is a [TypeError]. *)
Definition mul_dim (d : dim) (m : Z) : result Z :=
  match d with
  | Some v => Ok (v * m)
  | None => Raise TypeError
  end.

(** Loops that update their state and may raise. *)
Fixpoint rfold {A S : Type} (f : S -> A -> result S) (l : list A) (s : S)
    : result S :=
  match l with
  | [] => Ok s
  | x :: l' => s' <- f s x ;; rfold f l' s'
  end.

(** ** The convolution family *)

(** The configuration [_Conv.__init__] stores on the instance. *)
Record _Conv : Type := Mk_Conv {
  rank : nat;
  filters : Z;
  kernel_size : list Z;
  strides : list Z;
  padding : padding_t;
  data_format : data_format_t;
  dilation_rate : list Z;
  use_bias : bool
}.

Definition with_data_format (self : _Conv) (df : data_format_t) : _Conv :=
  {| rank := rank self; filters := filters self;
     kernel_size := kernel_size self; strides := strides self;
     padding := padding self; data_format := df;
     dilation_rate := dilation_rate self; use_bias := use_bias self |}.

(** [Conv2DTranspose] and [Conv3DTranspose] add [output_padding]. *)
Record ConvTranspose : Type := MkConvTranspose {
  conv : _Conv;
  output_padding : option (list Z)
}.

(** [_SeparableConv] adds [depth_multiplier]. *)
Record SeparableConv : Type := MkSeparableConv {
  sep_conv : _Conv;
  sep_depth_multiplier : Z
}.

(** [DepthwiseConv2D] passes [filters=None] to [Conv2D.__init__] and never
    reads it again; the record keeps what its methods read. *)
Record DepthwiseConv2D : Type := MkDepthwiseConv2D {
  dw_kernel_size : list Z;
  dw_strides : list Z;
  dw_padding : padding_t;
  depth_multiplier : Z;
  dw_data_format : data_format_t;
  dw_dilation_rate : list Z;
  dw_use_bias : bool
}.

Definition dw_with_data_format (self : DepthwiseConv2D) (df : data_format_t)
    : DepthwiseConv2D :=
  {| dw_kernel_size := dw_kernel_size self; dw_strides := dw_strides self;
     dw_padding := dw_padding self; depth_multiplier := depth_multiplier self;
     dw_data_format := df; dw_dilation_rate := dw_dilation_rate self;
     dw_use_bias := dw_use_bias self |}.

(** The loop of [Conv2DTranspose.__init__] and [Conv3DTranspose.__init__]
    over [zip(self.strides, self.output_padding)]. *)
Fixpoint check_output_padding (pairs : list (Z * Z)) : result unit :=
  match pairs with
  | [] => Ok tt
  | (stride, out_pad) :: rest =>
      if out_pad >=? stride then Raise ValueError
      else check_output_padding rest
  end.

Section Layers.

(** The two length calculators of [conv_utils] and the process-wide
    default layout are what the layers are given. *)
Variable conv_output_length : dim -> Z -> padding_t -> Z -> Z -> dim.
Variable deconv_length : dim -> Z -> Z -> padding_t -> option Z -> Z -> dim.
Variable image_data_format : data_format_t.

(** *** Constructors *)

Definition _Conv_init (rank : nat) (filters : Z)
    (kernel_size strides : int_or_seq) (padding : string)
    (data_format : option string) (dilation_rate : int_or_seq)
    (use_bias : bool) : result _Conv :=
  ks <- conv_utils.normalize_tuple kernel_size rank ;;
  st <- conv_utils.normalize_tuple strides rank ;;
  p <- conv_utils.normalize_padding padding ;;
  df <- normalize_data_format image_data_format data_format ;;
  dr <- conv_utils.normalize_tuple dilation_rate rank ;;
  Ok (Mk_Conv rank filters ks st p df dr use_bias).

Definition Conv2D_init : Z -> int_or_seq -> int_or_seq -> string ->
    option string -> int_or_seq -> bool -> result _Conv :=
  _Conv_init 2.

Definition Conv3D_init : Z -> int_or_seq -> int_or_seq -> string ->
    option string -> int_or_seq -> bool -> result _Conv :=
  _Conv_init 3.

Definition Conv2DTranspose_init (filters : Z)
    (kernel_size_arg strides_arg : int_or_seq) (padding : string)
    (output_padding_arg : option int_or_seq) (data_format : option string)
    (dilation_rate : int_or_seq) (use_bias : bool) : result ConvTranspose :=
  self <- Conv2D_init filters kernel_size_arg strides_arg padding
                      data_format dilation_rate use_bias ;;
  match output_padding_arg with
  | None => Ok (MkConvTranspose self None)
  | Some op =>
      op' <- conv_utils.normalize_tuple op 2 ;;
      _ <- check_output_padding (zip (strides self) op') ;;
      Ok (MkConvTranspose self (Some op'))
  end.

(** [Conv3DTranspose.__init__] has no [dilation_rate] argument: the
    default [(1, 1, 1)] of [Conv3D.__init__] applies. *)
Definition Conv3DTranspose_init (filters : Z)
    (kernel_size_arg strides_arg : int_or_seq) (padding : string)
    (output_padding_arg : option int_or_seq) (data_format : option string)
    (use_bias : bool) : result ConvTranspose :=
  self <- Conv3D_init filters kernel_size_arg strides_arg padding
                      data_format (PySeq [1; 1; 1]) use_bias ;;
  match output_padding_arg with
  | None => Ok (MkConvTranspose self None)
  | Some op =>
      op' <- conv_utils.normalize_tuple op 3 ;;
      _ <- check_output_padding (zip (strides self) op') ;;
      Ok (MkConvTranspose self (Some op'))
  end.

(** *** [build] *)

Definition channel_axis_of (df : data_format_t) : Z :=
  match df with
  | channels_first => 1
  | channels_last => -1
  end.

(** The tail shared by the [build] methods of [_Conv] and of the
    transposed layers: the bias, the input spec and the [built] flag. *)
Definition finish_build (use_bias : bool) (bias_shape : list Z)
    (spec : InputSpec) : M unit :=
  (_ <- (if use_bias
         then (b <- add_weight bias_shape "bias" ;; set_bias (Some b))
         else set_bias None) ;;
   _ <- set_input_spec spec ;;
   set_built true)%layer.

Definition _Conv_build (self : _Conv) (input_shape : list dim) : M unit :=
  (let channel_axis := channel_axis_of (data_format self) in
   c <- lift (py_index input_shape channel_axis) ;;
   match c with
   | None => sraise ValueError
   | Some input_dim =>
       let kernel_shape := kernel_size self ++ [input_dim; filters self] in
       k <- add_weight kernel_shape "kernel" ;;
       _ <- set_kernel (Some k) ;;
       finish_build (use_bias self) [filters self]
         (MkInputSpec (rank self + 2) [(channel_axis, input_dim)])
   end)%layer.

(** [Conv2DTranspose.build] ([n = 4]) and [Conv3DTranspose.build]
    ([n = 5]) are the same text up to the literal rank. *)
Definition ConvTranspose_build (n : nat) (self : ConvTranspose)
    (input_shape : list dim) : M unit :=
  (if negb (length input_shape =? n)%nat then sraise ValueError
   else
     let channel_axis := channel_axis_of (data_format (conv self)) in
     c <- lift (py_index input_shape channel_axis) ;;
     match c with
     | None => sraise ValueError
     | Some input_dim =>
         let kernel_shape :=
           kernel_size (conv self) ++ [filters (conv self); input_dim] in
         k <- add_weight kernel_shape "kernel" ;;
         _ <- set_kernel (Some k) ;;
         finish_build (use_bias (conv self)) [filters (conv self)]
           (MkInputSpec n [(channel_axis, input_dim)])
     end)%layer.

Definition Conv2DTranspose_build : ConvTranspose -> list dim -> M unit :=
  ConvTranspose_build 4.

Definition Conv3DTranspose_build : ConvTranspose -> list dim -> M unit :=
  ConvTranspose_build 5.

Definition _SeparableConv_build (self : SeparableConv)
    (input_shape : list dim) : M unit :=
  (let c0 := sep_conv self in
   if (length input_shape <? rank c0 + 2)%nat then sraise ValueError
   else
     let channel_axis := channel_axis_of (data_format c0) in
     c <- lift (py_index input_shape channel_axis) ;;
     match c with
     | None => sraise ValueError
     | Some input_dim =>
         let depthwise_kernel_shape :=
           kernel_size c0 ++ [input_dim; sep_depth_multiplier self] in
         let pointwise_kernel_shape :=
           replicate (rank c0) 1
           ++ [sep_depth_multiplier self * input_dim; filters c0] in
         dk <- add_weight depthwise_kernel_shape "depthwise_kernel" ;;
         _ <- set_depthwise_kernel (Some dk) ;;
         pk <- add_weight pointwise_kernel_shape "pointwise_kernel" ;;
         _ <- set_pointwise_kernel (Some pk) ;;
         finish_build (use_bias c0) [filters c0]
           (MkInputSpec (rank c0 + 2) [(channel_axis, input_dim)])
     end)%layer.

Definition DepthwiseConv2D_build (self : DepthwiseConv2D)
    (input_shape : list dim) : M unit :=
  (if (length input_shape <? 4)%nat then sraise ValueError
   else
     let channel_axis :=
       match dw_data_format self with
       | channels_first => 1
       | channels_last => 3
       end in
     c <- lift (py_index input_shape channel_axis) ;;
     match c with
     | None => sraise ValueError
     | Some input_dim =>
         k0 <- lift (item (dw_kernel_size self) 0) ;;
         k1 <- lift (item (dw_kernel_size self) 1) ;;
         let depthwise_kernel_shape :=
           [k0; k1; input_dim; depth_multiplier self] in
         dk <- add_weight depthwise_kernel_shape "depthwise_kernel" ;;
         _ <- set_depthwise_kernel (Some dk) ;;
         finish_build (dw_use_bias self)
           [input_dim * depth_multiplier self]
           (MkInputSpec 4 [(channel_axis, input_dim)])
     end)%layer.

(** *** [compute_output_shape] *)

(** The loop [for i in range(len(space))] of [_Conv] and of
    [DepthwiseConv2D], which collects [new_space]. *)
Definition conv_new_space (space : list dim) (kernel_size strides : list Z)
    (padding : padding_t) (dilation_rate : list Z) : result (list dim) :=
  rmap (fun i =>
          s <- item space i ;;
          k <- item kernel_size i ;;
          st <- item strides i ;;
          d <- item dilation_rate i ;;
          Ok (conv_output_length s k padding st d))
       (py_range 0 (length space)).

Definition _Conv_compute_output_shape (self : _Conv)
    (input_shape : list dim) : result (list dim) :=
  let space :=
    match data_format self with
    | channels_last => slice_inner input_shape
    | channels_first => slice_from 2 input_shape
    end in
  new_space <- conv_new_space space (kernel_size self) (strides self)
                 (padding self) (dilation_rate self) ;;
  batch <- item input_shape 0 ;;
  match data_format self with
  | channels_last => Ok ([batch] ++ new_space ++ [Some (filters self)])
  | channels_first => Ok ([batch; Some (filters self)] ++ new_space)
  end.

Definition Conv2DTranspose_compute_output_shape (self : ConvTranspose)
    (input_shape : list dim) : result (list dim) :=
  let output_shape := input_shape in
  let '(c_axis, h_axis, w_axis) :=
    match data_format (conv self) with
    | channels_first => (1, 2, 3)%nat
    | channels_last => (3, 1, 2)%nat
    end in
  kernel_hw <- unpack2 (kernel_size (conv self)) ;;
  let '(kernel_h, kernel_w) := kernel_hw in
  stride_hw <- unpack2 (strides (conv self)) ;;
  let '(stride_h, stride_w) := stride_hw in
  out_pad_hw <-
    match output_padding self with
    | None => Ok (None, None)
    | Some op => hw <- unpack2 op ;; Ok (Some (fst hw), Some (snd hw))
    end ;;
  let '(out_pad_h, out_pad_w) := out_pad_hw in
  output_shape <- setitem output_shape c_axis (Some (filters (conv self))) ;;
  h <- item output_shape h_axis ;;
  dilation_h <- item (dilation_rate (conv self)) 0 ;;
  output_shape <- setitem output_shape h_axis
    (deconv_length h stride_h kernel_h (padding (conv self)) out_pad_h
                   dilation_h) ;;
  w <- item output_shape w_axis ;;
  dilation_w <- item (dilation_rate (conv self)) 1 ;;
  output_shape <- setitem output_shape w_axis
    (deconv_length w stride_w kernel_w (padding (conv self)) out_pad_w
                   dilation_w) ;;
  Ok output_shape.

(** [Conv3DTranspose.compute_output_shape] leaves [dilation] of
    [deconv_length] at its default, 1. *)
Definition Conv3DTranspose_compute_output_shape (self : ConvTranspose)
    (input_shape : list dim) : result (list dim) :=
  let output_shape := input_shape in
  let '(c_axis, d_axis, h_axis, w_axis) :=
    match data_format (conv self) with
    | channels_first => (1, 2, 3, 4)%nat
    | channels_last => (4, 1, 2, 3)%nat
    end in
  kernel_dhw <- unpack3 (kernel_size (conv self)) ;;
  let '(kernel_d, kernel_h, kernel_w) := kernel_dhw in
  stride_dhw <- unpack3 (strides (conv self)) ;;
  let '(stride_d, stride_h, stride_w) := stride_dhw in
  out_pad_dhw <-
    match output_padding self with
    | None => Ok (None, None, None)
    | Some op =>
        dhw <- unpack3 op ;;
        Ok (Some (fst (fst dhw)), Some (snd (fst dhw)), Some (snd dhw))
    end ;;
  let '(out_pad_d, out_pad_h, out_pad_w) := out_pad_dhw in
  output_shape <- setitem output_shape c_axis (Some (filters (conv self))) ;;
  d <- item output_shape d_axis ;;
  output_shape <- setitem output_shape d_axis
    (deconv_length d stride_d kernel_d (padding (conv self)) out_pad_d 1) ;;
  h <- item output_shape h_axis ;;
  output_shape <- setitem output_shape h_axis
    (deconv_length h stride_h kernel_h (padding (conv self)) out_pad_h 1) ;;
  w <- item output_shape w_axis ;;
  output_shape <- setitem output_shape w_axis
    (deconv_length w stride_w kernel_w (padding (conv self)) out_pad_w 1) ;;
  Ok output_shape.

Definition DepthwiseConv2D_compute_output_shape (self : DepthwiseConv2D)
    (input_shape : list dim) : result (list dim) :=
  space_filters <-
    match dw_data_format self with
    | channels_last =>
        c <- item input_shape 3 ;;
        f <- mul_dim c (depth_multiplier self) ;;
        Ok (slice_inner input_shape, f)
    | channels_first =>
        c <- item input_shape 1 ;;
        f <- mul_dim c (depth_multiplier self) ;;
        Ok (slice_from 2 input_shape, f)
    end ;;
  let '(space, out_filters) := space_filters in
  new_space <- conv_new_space space (dw_kernel_size self) (dw_strides self)
                 (dw_padding self) (dw_dilation_rate self) ;;
  batch <- item input_shape 0 ;;
  n0 <- item new_space 0 ;;
  n1 <- item new_space 1 ;;
  match dw_data_format self with
  | channels_last => Ok [batch; n0; n1; Some out_filters]
  | channels_first => Ok [batch; Some out_filters; n0; n1]
  end.

End Layers.

(** ** Up-sampling, zero-padding and cropping *)

Record UpSampling : Type := MkUpSampling {
  size : list Z;
  up_data_format : data_format_t
}.

Record ZeroPadding : Type := MkZeroPadding {
  zp_padding : list (list Z);
  zp_data_format : data_format_t
}.

Record Cropping : Type := MkCropping {
  cropping : list (list Z);
  crop_data_format : data_format_t
}.

(** The argument of [Cropping2D] and [Cropping3D]: an integer, something
    with a length (whose entries go through [normalize_tuple]), or
    anything else. *)
Inductive nested_arg : Type :=
| NInt (z : Z)
| NSeq (l : list int_or_seq)
| NOther.

(** The body of the loop the three families share:
    [if output_shape[dim] is not None: output_shape[dim] = op(...)],
    where [op] combines the dimension with entry [dim] of a per-axis
    table. *)
Definition known_dim_step {T : Type} (op : Z -> T -> Z) (table : list T)
    (out : list dim) (d : nat) : result (list dim) :=
  o <- item out d ;;
  match o with
  | None => Ok out
  | Some v => t <- item table d ;; Ok (<[d := Some (op v t)]> out)
  end.

(** [for dim in range(len(output_shape)): ...] *)
Definition for_each_known_dim {T : Type} (op : Z -> T -> Z) (table : list T)
    (output_shape : list dim) : result (list dim) :=
  rfold (known_dim_step op table) (py_range 0 (length output_shape))
        output_shape.

Definition _UpSampling_compute_output_shape (self : UpSampling)
    (input_shape : list dim) : result (list dim) :=
  let rank := length (size self) in
  let size_all_dims := [1] ++ size self ++ [1] in
  let spatial_axes := py_range 1 rank in
  size_all_dims <- transpose_shape size_all_dims (up_data_format self)
                     spatial_axes ;;
  for_each_known_dim Z.mul size_all_dims input_shape.

Definition _ZeroPadding_compute_output_shape (self : ZeroPadding)
    (input_shape : list dim) : result (list dim) :=
  let rank := length (zp_padding self) in
  let padding_all_dims := [[0; 0]] ++ zp_padding self ++ [[0; 0]] in
  let spatial_axes := py_range 1 rank in
  padding_all_dims <- transpose_shape padding_all_dims (zp_data_format self)
                        spatial_axes ;;
  for_each_known_dim (fun v p => v + py_sum p) padding_all_dims input_shape.

Definition _Cropping_compute_output_shape (self : Cropping)
    (input_shape : list dim) : result (list dim) :=
  let rank := length (cropping self) in
  let cropping_all_dims := [[0; 0]] ++ cropping self ++ [[0; 0]] in
  let spatial_axes := py_range 1 rank in
  cropping_all_dims <- transpose_shape cropping_all_dims
                         (crop_data_format self) spatial_axes ;;
  for_each_known_dim (fun v c => v - py_sum c) cropping_all_dims input_shape.

Section CroppingConstructors.

Variable image_data_format : data_format_t.

Definition _Cropping_init (cropping : list (list Z))
    (data_format : option string) : result Cropping :=
  df <- normalize_data_format image_data_format data_format ;;
  Ok (MkCropping cropping df).

Definition Cropping1D_init (cropping : int_or_seq) : result Cropping :=
  c <- conv_utils.normalize_tuple cropping 2 ;;
  _Cropping_init [c] (Some "channels_last").

Definition Cropping2D_init (cropping : nested_arg)
    (data_format : option string) : result Cropping :=
  normalized_cropping <-
    match cropping with
    | NInt c => Ok [[c; c]; [c; c]]
    | NSeq l =>
        if negb (length l =? 2)%nat then Raise ValueError
        else
          c0 <- item l 0 ;;
          height_cropping <- conv_utils.normalize_tuple c0 2 ;;
          c1 <- item l 1 ;;
          width_cropping <- conv_utils.normalize_tuple c1 2 ;;
          Ok [height_cropping; width_cropping]
    | NOther => Raise ValueError
    end ;;
  _Cropping_init normalized_cropping data_format.

Definition Cropping3D_init (cropping : nested_arg)
    (data_format : option string) : result Cropping :=
  _ <- normalize_data_format image_data_format data_format ;;
  normalized_cropping <-
    match cropping with
    | NInt c => Ok [[c; c]; [c; c]; [c; c]]
    | NSeq l =>
        if negb (length l =? 3)%nat then Raise ValueError
        else
          c0 <- item l 0 ;;
          dim1_cropping <- conv_utils.normalize_tuple c0 2 ;;
          c1 <- item l 1 ;;
          dim2_cropping <- conv_utils.normalize_tuple c1 2 ;;
          c2 <- item l 2 ;;
          dim3_cropping <- conv_utils.normalize_tuple c2 2 ;;
          Ok [dim1_cropping; dim2_cropping; dim3_cropping]
    | NOther => Raise ValueError
    end ;;
  _Cropping_init normalized_cropping data_format.

End CroppingConstructors.

(** ** [Reshape] and [Flatten] *)

(** numpy integers: arithmetic on signed 64-bit integers wraps around on
    overflow. *)
Definition int64_wrap (z : Z) : Z := (z + 2 ^ 63) mod 2 ^ 64 - 2 ^ 63.

Definition product (l : list Z) : Z := fold_right Z.mul 1 l.

(** Whether a Python integer fits a signed 64-bit integer. *)
Definition fits_int64 (v : Z) : bool := (- 2 ^ 63 <=? v) && (v <? 2 ^ 63).

(** A Python integer on its way into numpy's 64-bit integers: the entry of
    a tuple given to [np.prod], or the operand of an operation with a
    64-bit numpy integer. It gets there only if it fits. *)
Definition as_int64 (v : Z) : result Z :=
  if fits_int64 v then Ok v else Raise OutsideInt64.

(** [np.prod(t)] and [np.prod(t, dtype=int)] for a slice of a shape. When
    every entry fits 64 bits, numpy multiplies them as signed 64-bit
    integers, wrapping around on overflow; this is the only case followed
    here. A [None] entry cannot be multiplied. The product of no entries
    is 1. *)
Definition np_prod (t : list dim) : result Z :=
  vs <- rmap (fun d : dim =>
                match d with
                | Some v => as_int64 v
                | None => Raise TypeError
                end) t ;;
  Ok (int64_wrap (product vs)).

(** [enumerate(t)] *)
Definition enumerate {A : Type} (t : list A) : list (nat * A) :=
  zip (seq 0 (length t)) t.

Record Reshape : Type := MkReshape { target_shape : list Z }.

Record Flatten : Type := MkFlatten { fl_data_format : data_format_t }.

(** The loop of [_fix_unknown_dimension]: the state is [(known, unknown)]. *)
Definition scan_output_shape (output_shape : list Z)
    : result (Z * option nat) :=
  rfold (fun (st : Z * option nat) (e : nat * Z) =>
           let '(known, unknown) := st in
           let '(index, d) := e in
           if d <? 0 then
             match unknown with
             | None => Ok (known, Some index)
             | Some _ => Raise ValueError
             end
           else Ok (known * d, unknown))
        (enumerate output_shape) (1, None).

(** [known] is a Python integer and [original] a 64-bit numpy one.
    [known == 0] is a test on the Python integer alone; in [%], [//] and
    [!=] it meets [original], and these are the operations of the
    integers as long as [known] fits 64 bits. [known] is at least 1 where
    [%] and [//] are reached, so that neither divides by zero nor leaves
    64 bits. *)
Definition _fix_unknown_dimension (input_shape : list dim)
    (output_shape : list Z) : result (list Z) :=
  ku <- scan_output_shape output_shape ;;
  let '(known, unknown) := ku in
  original <- np_prod input_shape ;;
  match unknown with
  | Some u =>
      if known =? 0 then Raise ValueError
      else
        known64 <- as_int64 known ;;
        if negb (original mod known64 =? 0) then Raise ValueError
        else Ok (<[u := original / known64]> output_shape)
  | None =>
      known64 <- as_int64 known ;;
      if negb (original =? known64) then Raise ValueError
      else Ok output_shape
  end.

Definition is_None (d : dim) : bool :=
  match d with
  | None => true
  | Some _ => false
  end.

Definition Reshape_compute_output_shape (self : Reshape)
    (input_shape : list dim) : result (list dim) :=
  if existsb is_None (slice_from 1 input_shape) then
    batch <- item input_shape 0 ;;
    Ok ([batch]
        ++ map (fun s => if negb (s =? -1) then Some s else None)
               (target_shape self))
  else
    batch <- item input_shape 0 ;;
    fixed <- _fix_unknown_dimension (slice_from 1 input_shape)
               (target_shape self) ;;
    Ok ([batch] ++ map Some fixed).

(** Truth value of a shape entry: [None] and [0] are false. *)
Definition truthy (d : dim) : bool :=
  match d with
  | None => false
  | Some v => negb (v =? 0)
  end.

Definition Flatten_compute_output_shape (self : Flatten)
    (input_shape : list dim) : result (list dim) :=
  if negb (forallb truthy (slice_from 1 input_shape)) then Raise ValueError
  else
    batch <- item input_shape 0 ;;
    p <- np_prod (slice_from 1 input_shape) ;;
    Ok [batch; Some p].

(** ** Vocabulary of the statements *)

(** A shape given by its batch entry, its spatial entries and its channel
    entry, laid out for a data format. *)
Definition to_layout {A : Type} (df : data_format_t)
    (batch : A) (spatial : list A) (channel : A) : list A :=
  match df with
  | channels_first => batch :: channel :: spatial
  | channels_last => batch :: spatial ++ [channel]
  end.

(** A known dimension is transformed, an unknown one stays unknown. *)
Definition on_known {T : Type} (op : Z -> T -> Z) (d : dim) (t : T) : dim :=
  match d with
  | Some v => Some (op v t)
  | None => None
  end.

Definition is_raise {A : Type} (r : result A) : Prop :=
  exists e, r = Raise e.

(** What [_fix_unknown_dimension] looks at in a target shape: how many
    entries are negative, where the first of them is, and the product of
    the others. *)
Definition negatives (t : list Z) : nat :=
  length (List.filter (fun d => d <? 0) t).

Fixpoint first_negative (t : list Z) : nat :=
  match t with
  | [] => 0%nat
  | d :: t' => if d <? 0 then 0%nat else S (first_negative t')
  end.

Definition known_product (t : list Z) : Z :=
  product (List.filter (fun d => negb (d <? 0)) t).

(** A target shape with its negative entries replaced by [q]. *)
Definition replace_negative (q : Z) (t : list Z) : list Z :=
  map (fun d => if d <? 0 then q else d) t.

(** The integers that fit a signed 64-bit integer. *)
Definition int64_range (v : Z) : Prop := - 2 ^ 63 <= v < 2 ^ 63.

(** The number of elements numpy computes for fully known dimensions that
    fit 64 bits: their product, wrapped to 64 bits. *)
Definition element_count (vs : list Z) : Z := int64_wrap (product vs).

(** The error condition of [Reshape] on fully known input dimensions. *)
Definition reshape_error (target : list Z) (count : Z) : Prop :=
  (1 < negatives target)%nat
  \/ (negatives target = 1%nat
      /\ (known_product target = 0 \/ count mod known_product target <> 0))
  \/ (negatives target = 0%nat /\ count <> known_product target).

(** The error condition of [Reshape] as the claim words it: more than one
    entry equal to -1, or no size for the -1 entries makes the element
    counts agree. *)
Definition claimed_reshape_error (target : list Z) (count : Z) : Prop :=
  (1 < length (List.filter (fun d => (d =? -1)%Z) target))%nat
  \/ ~ exists x : Z,
         0 <= x
         /\ product (map (fun d => if d =? -1 then x else d) target) = count.

(** The parameters a convolution allocates after its kernel. *)
Definition bias_weights (use_bias : bool) (shape : list Z) : list weight :=
  if use_bias then [Weight "bias" shape] else [].

(** The output padding of a transposed layer of the given rank, as its
    constructor leaves it: unset, or one entry per spatial axis. *)
Definition output_padding_fits (n : nat) (op : option (list Z)) : Prop :=
  match op with
  | None => True
  | Some l => length l = n
  end.

(** The layers of the examples. *)
Definition conv2d_example : _Conv :=
  Mk_Conv 2 16 [3; 3] [1; 1] valid channels_last [1; 1] true.

Definition deconv2d_example : ConvTranspose :=
  MkConvTranspose (Mk_Conv 2 16 [3; 3] [2; 2] same channels_last [1; 1] true)
                  None.

Definition deconv3d_example : ConvTranspose :=
  MkConvTranspose
    (Mk_Conv 3 8 [3; 3; 3] [2; 2; 2] valid channels_first [1; 1; 1] false)
    (Some [1; 1; 1]).

Definition depthwise_example : DepthwiseConv2D :=
  MkDepthwiseConv2D [3; 3] [1; 1] valid 4 channels_last [1; 1] true.

(** ** Further constructors of [convolutional.py] *)

Section MoreConstructors.

Variable image_data_format : data_format_t.

(** [Conv1D.__init__]. The two arguments its test reads are keyword
    arguments with defaults of their own: [padding_arg] and
    [data_format_arg] are [None] when the call leaves them out, and then
    stand for ['valid'] and ['channels_last']; a [data_format] given as
    Python's [None] is [Some None]. The other arguments are taken as the
    call passes them. The test on causal padding compares the values as
    they are, before any normalisation. *)
Definition Conv1D_init (filters : Z) (kernel_size_arg strides_arg : int_or_seq)
    (padding_arg : option string) (data_format_arg : option (option string))
    (dilation_rate_arg : int_or_seq) (use_bias : bool) : result _Conv :=
  let padding := default "valid" padding_arg in
  let data_format := default (Some "channels_last") data_format_arg in
  let not_channels_last :=
    match data_format with
    | Some s => negb (String.eqb s "channels_last")
    | None => true
    end in
  if String.eqb padding "causal" && not_channels_last
  then Raise ValueError
  else _Conv_init image_data_format 1 filters kernel_size_arg strides_arg
         padding data_format dilation_rate_arg use_bias.

Definition _UpSampling_init (size : list Z) (data_format : option string)
    : result UpSampling :=
  df <- normalize_data_format image_data_format data_format ;;
  Ok (MkUpSampling size df).

(** [UpSampling1D.__init__]: [size] is one integer. *)
Definition UpSampling1D_init (size : Z) : result UpSampling :=
  _UpSampling_init [size] (Some "channels_last").

Definition UpSampling2D_init (size : int_or_seq) (data_format : option string)
    (interpolation : string) : result UpSampling :=
  normalized_size <- conv_utils.normalize_tuple size 2 ;;
  self <- _UpSampling_init normalized_size data_format ;;
  if negb (String.eqb interpolation "nearest"
           || String.eqb interpolation "bilinear")
  then Raise ValueError
  else Ok self.

Definition UpSampling3D_init (size : int_or_seq) (data_format : option string)
    : result UpSampling :=
  normalized_size <- conv_utils.normalize_tuple size 3 ;;
  _UpSampling_init normalized_size data_format.

Definition _ZeroPadding_init (padding : list (list Z))
    (data_format : option string) : result ZeroPadding :=
  df <- normalize_data_format image_data_format data_format ;;
  Ok (MkZeroPadding padding df).

Definition ZeroPadding1D_init (padding : int_or_seq) : result ZeroPadding :=
  p <- conv_utils.normalize_tuple padding 2 ;;
  _ZeroPadding_init [p] (Some "channels_last").

Definition ZeroPadding2D_init (padding : nested_arg)
    (data_format : option string) : result ZeroPadding :=
  normalized_padding <-
    match padding with
    | NInt p => Ok [[p; p]; [p; p]]
    | NSeq l =>
        if negb (length l =? 2)%nat then Raise ValueError
        else
          p0 <- item l 0 ;;
          height_padding <- conv_utils.normalize_tuple p0 2 ;;
          p1 <- item l 1 ;;
          width_padding <- conv_utils.normalize_tuple p1 2 ;;
          Ok [height_padding; width_padding]
    | NOther => Raise ValueError
    end ;;
  _ZeroPadding_init normalized_padding data_format.

Definition ZeroPadding3D_init (padding : nested_arg)
    (data_format : option string) : result ZeroPadding :=
  normalized_padding <-
    match padding with
    | NInt p => Ok (replicate 3 [p; p])
    | NSeq l =>
        if negb (length l =? 3)%nat then Raise ValueError
        else
          p0 <- item l 0 ;;
          dim1_padding <- conv_utils.normalize_tuple p0 2 ;;
          p1 <- item l 1 ;;
          dim2_padding <- conv_utils.normalize_tuple p1 2 ;;
          p2 <- item l 2 ;;
          dim3_padding <- conv_utils.normalize_tuple p2 2 ;;
          Ok [dim1_padding; dim2_padding; dim3_padding]
    | NOther => Raise ValueError
    end ;;
  _ZeroPadding_init normalized_padding data_format.

End MoreConstructors.

(** One (before, after) pair per spatial axis. *)
Definition pairs_per_axis (n : nat) (t : list (list Z)) : Prop :=
  length t = n /\ Forall (fun p => length p = 2%nat) t.

(** ** The shapes computed on the execution path *)

(** A Python [slice(start, stop)]; [None] stands for an omitted bound. *)
Record py_slice : Type := Slice { sl_start : option Z; sl_stop : option Z }.

(** The number of entries [t[start:stop]] keeps of a sequence of length
    [n]: a negative bound counts from the end, and both bounds are clipped
    to the sequence. *)
Definition slice_bound (n : Z) (default : Z) (bound : option Z) : Z :=
  match bound with
  | None => default
  | Some b =>
      let b' := if b <? 0 then b + n else b in
      if b' <? 0 then 0 else if n <? b' then n else b'
  end.

Definition slice_length (n : Z) (s : py_slice) : Z :=
  let start := slice_bound n 0 (sl_start s) in
  let stop := slice_bound n n (sl_stop s) in
  Z.max 0 (stop - start).

(** The body of the loop of [_Cropping.call] over [self.cropping]: the
    slice for one [(start, end)] pair. *)
Definition crop_slice (c : list Z) : result py_slice :=
  se <- unpack2 c ;;
  let '(start, end_) := se in
  let end' := if end_ =? 0 then None else Some (- end_) in
  Ok (Slice (Some start) end').

(** The slices [_Cropping.call] builds for the spatial axes. *)
Definition _Cropping_call_slices_dims (self : Cropping)
    : result (list py_slice) :=
  rmap crop_slice (cropping self).

(** [_Cropping.call] up to the indexing of the tensor: one slice per axis
    of the input, in the layout of the layer. *)
Definition _Cropping_call_slices (self : Cropping) : result (list py_slice) :=
  slices_dims <- _Cropping_call_slices_dims self ;;
  let slices := [Slice None None] ++ slices_dims ++ [Slice None None] in
  let spatial_axes := py_range 1 (length (cropping self)) in
  transpose_shape slices (crop_data_format self) spatial_axes.

Section CallShapes.

Variable deconv_length : dim -> Z -> Z -> padding_t -> option Z -> Z -> dim.

(** The [output_shape] that [Conv2DTranspose.call] hands to the backend;
    [input_shape] is the run-time shape of the input, all of whose
    entries are integers. *)
Definition Conv2DTranspose_call_output_shape (self : ConvTranspose)
    (input_shape : list Z) : result (list dim) :=
  batch_size <- item input_shape 0 ;;
  let '(h_axis, w_axis) :=
    match data_format (conv self) with
    | channels_first => (2, 3)%nat
    | channels_last => (1, 2)%nat
    end in
  height <- item input_shape h_axis ;;
  width <- item input_shape w_axis ;;
  kernel_hw <- unpack2 (kernel_size (conv self)) ;;
  let '(kernel_h, kernel_w) := kernel_hw in
  stride_hw <- unpack2 (strides (conv self)) ;;
  let '(stride_h, stride_w) := stride_hw in
  out_pad_hw <-
    match output_padding self with
    | None => Ok (None, None)
    | Some op => hw <- unpack2 op ;; Ok (Some (fst hw), Some (snd hw))
    end ;;
  let '(out_pad_h, out_pad_w) := out_pad_hw in
  dilation_h <- item (dilation_rate (conv self)) 0 ;;
  let out_height :=
    deconv_length (Some height) stride_h kernel_h (padding (conv self))
                  out_pad_h dilation_h in
  dilation_w <- item (dilation_rate (conv self)) 1 ;;
  let out_width :=
    deconv_length (Some width) stride_w kernel_w (padding (conv self))
                  out_pad_w dilation_w in
  match data_format (conv self) with
  | channels_first =>
      Ok [Some batch_size; Some (filters (conv self)); out_height; out_width]
  | channels_last =>
      Ok [Some batch_size; out_height; out_width; Some (filters (conv self))]
  end.

Definition Conv3DTranspose_call_output_shape (self : ConvTranspose)
    (input_shape : list Z) : result (list dim) :=
  batch_size <- item input_shape 0 ;;
  let '(d_axis, h_axis, w_axis) :=
    match data_format (conv self) with
    | channels_first => (2, 3, 4)%nat
    | channels_last => (1, 2, 3)%nat
    end in
  depth <- item input_shape d_axis ;;
  height <- item input_shape h_axis ;;
  width <- item input_shape w_axis ;;
  kernel_dhw <- unpack3 (kernel_size (conv self)) ;;
  let '(kernel_d, kernel_h, kernel_w) := kernel_dhw in
  stride_dhw <- unpack3 (strides (conv self)) ;;
  let '(stride_d, stride_h, stride_w) := stride_dhw in
  out_pad_dhw <-
    match output_padding self with
    | None => Ok (None, None, None)
    | Some op =>
        dhw <- unpack3 op ;;
        Ok (Some (fst (fst dhw)), Some (snd (fst dhw)), Some (snd dhw))
    end ;;
  let '(out_pad_d, out_pad_h, out_pad_w) := out_pad_dhw in
  let out_depth :=
    deconv_length (Some depth) stride_d kernel_d (padding (conv self))
                  out_pad_d 1 in
  let out_height :=
    deconv_length (Some height) stride_h kernel_h (padding (conv self))
                  out_pad_h 1 in
  let out_width :=
    deconv_length (Some width) stride_w kernel_w (padding (conv self))
                  out_pad_w 1 in
  match data_format (conv self) with
  | channels_first =>
      Ok [Some batch_size; Some (filters (conv self));
          out_depth; out_height; out_width]
  | channels_last =>
      Ok [Some batch_size; out_depth; out_height; out_width;
          Some (filters (conv self))]
  end.

End CallShapes.

(** ** Further layers of [core.py] *)

(** [t[i] = x] for any integer index: a negative index counts from the
    end. *)
Definition py_setitem {A : Type} (t : list A) (i : Z) (x : A)
    : result (list A) :=
  let n := Z.of_nat (length t) in
  let j := if i <? 0 then n + i else i in
  if (0 <=? j) && (j <? n) then Ok (<[Z.to_nat j := x]> t)
  else Raise IndexError.

(** The position at which [t[:d]] ends and [t[d:]] starts, for a sequence
    of length [n]. *)
Definition slice_index (n : nat) (d : Z) : nat :=
  Z.to_nat (slice_bound (Z.of_nat n) 0 (Some d)).

(** [Permute.compute_output_shape]: [dims] are positions of the input,
    counted from 1 when they leave out the batch axis. *)
Definition Permute_compute_output_shape (dims : list Z)
    (input_shape : list dim) : result (list dim) :=
  rfold (fun (output_shape : list dim) (e : nat * Z) =>
           let '(i, d) := e in
           target_dim <- py_index input_shape d ;;
           setitem output_shape (i + 1) target_dim)
        (enumerate dims) input_shape.

(** [PermuteGeneral.compute_output_shape]: the batch axis takes part. *)
Definition PermuteGeneral_compute_output_shape (dims : list Z)
    (input_shape : list dim) : result (list dim) :=
  rfold (fun (output_shape : list dim) (e : nat * Z) =>
           let '(i, d) := e in
           target_dim <- py_index input_shape d ;;
           setitem output_shape i target_dim)
        (enumerate dims) input_shape.

(** [RepeatVector.compute_output_shape] *)
Definition RepeatVector_compute_output_shape (n : Z) (input_shape : list dim)
    : result (list dim) :=
  batch <- item input_shape 0 ;;
  features <- item input_shape 1 ;;
  Ok [batch; Some n; features].

(** [RepeatMatrix.compute_output_shape]:
    [input_shape[:dim] + [n] + input_shape[dim:]]. *)
Definition RepeatMatrix_compute_output_shape (n : Z) (dim_ : Z)
    (input_shape : list dim) : list dim :=
  let k := slice_index (length input_shape) dim_ in
  take k input_shape ++ [Some n] ++ drop k input_shape.

(** The [Slice] layer of [core.py]. *)
Record SliceLayer : Type := MkSliceLayer { min_idx : Z; max_idx : Z }.

Definition Slice_compute_output_shape (self : SliceLayer)
    (input_shape : list dim) : result (list dim) :=
  batch <- item input_shape 0 ;;
  Ok [batch; Some (max_idx self - min_idx self)].

(** The slice [Slice.call] takes of the second axis:
    [inputs[:, self.min_idx:self.max_idx]]. *)
Definition Slice_call_slice (self : SliceLayer) : py_slice :=
  Slice (Some (min_idx self)) (Some (max_idx self)).

(** Methods that check their input with [assert]: the outcome is that of
    the body, or a failed assertion. *)
Inductive asserted (A : Type) : Type :=
| Body (r : result A)
| AssertionError.

Arguments Body {A} r.
Arguments AssertionError {A}.

(** [Dense.compute_output_shape] *)
Definition Dense_compute_output_shape (units : Z) (input_shape : list dim)
    : asserted (list dim) :=
  if negb (negb (length input_shape =? 0)%nat && (2 <=? length input_shape)%nat)
  then AssertionError
  else
    match py_index input_shape (-1) with
    | Raise e => Body (Raise e)
    | Ok last =>
        if negb (truthy last) then AssertionError
        else Body (py_setitem input_shape (-1) (Some units))
    end.

(** [ZeroesLayer.compute_output_shape] *)
Definition ZeroesLayer_compute_output_shape (output_dim : Z)
    (input_shape : list dim) : result (list dim) :=
  py_setitem input_shape (-1) (Some output_dim).

(** ** [autocrop_array_shapes] and [Concat] of [core.py] *)

(** [zip( *rows)]: the columns of [rows], as many as the shortest row has
    entries, and none when there is no row. *)
Fixpoint zip_star {A : Type} (rows : list (list A)) : list (list A) :=
  match rows with
  | [] => []
  | r :: rows' =>
      match rows' with
      | [] => map (fun x => [x]) r
      | _ :: _ => zip_with cons r (zip_star rows')
      end
  end.

(** [cr in {'lower', 'center', 'upper'}] *)
Definition is_crop_mode (cr : string) : bool :=
  String.eqb cr "lower" || String.eqb cr "center" || String.eqb cr "upper".

(** [min(vs)] of integers; the minimum of nothing is a [ValueError]. *)
Definition py_min (vs : list Z) : result Z :=
  match vs with
  | [] => Raise ValueError
  | v :: vs' => Ok (fold_left Z.min vs' v)
  end.

(** [None if any(inputs is None for inputs in sh) else min(sh)]: in the
    second branch every entry of [sh] is an integer. *)
Definition min_sh (sh : list dim) : result dim :=
  if existsb is_None sh then Ok None
  else m <- py_min (omap id sh) ;; Ok (Some m).

(** The body of the loop of [autocrop_array_shapes] for the sizes [sh] of
    one axis and its crop mode [cr]. *)
Definition crop_axis (e : list dim * option string) : result (list dim) :=
  let '(sh, cr) := e in
  match cr with
  | None => Ok sh
  | Some mode =>
      if is_crop_mode mode then
        m <- min_sh sh ;;
        Ok (replicate (length sh) m)
      else Raise ValueError
  end.

Definition autocrop_array_shapes (input_shapes : list (list dim))
    (cropping : option (list (option string)))
    : result (list (list dim)) :=
  match cropping with
  | None => Ok input_shapes
  | Some cropping =>
      first <- item input_shapes 0 ;;
      let ndim := length first in
      if negb (forallb (fun sh => (length sh =? ndim)%nat) input_shapes)
      then Raise ValueError
      else
        let cropping :=
          if (length cropping <? ndim)%nat
          then cropping ++ replicate (ndim - length cropping) None
          else cropping in
        result <- rmap crop_axis (zip (zip_star input_shapes) cropping) ;;
        Ok (zip_star result)
  end.

Record Concat : Type := MkConcat {
  axis : Z;
  concat_cropping : option (list (option string))
}.

(** [next((s for s in sizes if s is not None), None)] *)
Definition first_known (sizes : list dim) : dim :=
  match List.filter (fun s => negb (is_None s)) sizes with
  | [] => None
  | s :: _ => s
  end.

(** The local function [match] of [Concat.compute_output_shape]. *)
Definition shapes_match (self : Concat) (shape1 shape2 : list dim) : bool :=
  let axis' :=
    if 0 <=? axis self then axis self
    else Z.of_nat (length shape1) + axis self in
  (length shape1 =? length shape2)%nat
  && forallb (fun e : nat * (dim * dim) =>
                let '(i, (s1, s2)) := e in
                (Z.of_nat i =? axis')
                || match s1, s2 with
                   | None, _ => true
                   | _, None => true
                   | Some v1, Some v2 => v1 =? v2
                   end)
             (enumerate (zip shape1 shape2)).

Definition Concat_compute_output_shape (self : Concat)
    (input_shape : list (list dim)) : result (list dim) :=
  input_shapes <- autocrop_array_shapes input_shape (concat_cropping self) ;;
  let output_shape := map first_known (zip_star input_shapes) in
  if negb (forallb (fun shape => shapes_match self shape output_shape)
             input_shapes)
  then Raise ValueError
  else
    sizes <- rmap (fun shape => py_index shape (axis self)) input_shapes ;;
    let concat_size :=
      if existsb is_None sizes then None
      else Some (py_sum (omap id sizes)) in
    py_setitem output_shape (axis self) concat_size.

(** The sizes the shapes [shapes] have on axis [i]. *)
Definition column {A : Type} (i : nat) (shapes : list (list A)) : list A :=
  omap (fun sh => sh !! i) shapes.

(** The smallest size of an axis, unknown as soon as one size is. *)
Definition axis_min (sizes : list dim) : dim :=
  if existsb is_None sizes then None
  else
    match omap id sizes with
    | [] => None
    | v :: vs => Some (fold_left Z.min vs v)
    end.

(** Whether axis [i] is cropped: it has an entry in the crop modes and that
    entry is not [None]. *)
Definition is_cropped (cropping : list (option string)) (i : nat) : bool :=
  match cropping !! i with
  | Some (Some _) => true
  | _ => false
  end.

(** A shape with the sizes of its cropped axes replaced by the smallest
    size the shapes [shapes] have there. *)
Definition cropped_shape (shapes : list (list dim))
    (cropping : list (option string)) (sh : list dim) : list dim :=
  imap (fun (i : nat) (d : dim) =>
          if is_cropped cropping i then axis_min (column i shapes) else d)
       sh.

(** ** Basic facts about sequences and results *)

Lemma item_lookup {A : Type} (t : list A) (i : nat) (x : A) :
  t !! i = Some x -> item t i = Ok x.
Proof. intros H. unfold item. now rewrite H. Qed.

Lemma item_app_middle {A : Type} (pre suf : list A) (x : A) :
  item (pre ++ x :: suf) (length pre) = Ok x.
Proof.
  apply item_lookup. rewrite lookup_app_r by lia.
  now rewrite Nat.sub_diag.
Qed.

Lemma py_index_last {A : Type} (pre : list A) (x : A) :
  py_index (pre ++ [x]) (-1) = Ok x.
Proof.
  unfold py_index. rewrite length_app. cbn [length].
  replace (Z.of_nat (length pre + 1) + -1) with (Z.of_nat (length pre)) by lia.
  change (-1 <? 0) with true. cbn match.
  replace (0 <=? Z.of_nat (length pre)) with true
    by (symmetry; apply Z.leb_le; lia).
  replace (Z.of_nat (length pre) <? Z.of_nat (length pre + 1)) with true
    by (symmetry; apply Z.ltb_lt; lia).
  cbn [andb]. rewrite Nat2Z.id. apply item_app_middle.
Qed.

Lemma slice_inner_layout {A : Type} (b : A) (sp : list A) (c : A) :
  slice_inner (b :: sp ++ [c]) = sp.
Proof.
  unfold slice_inner. cbn [length]. rewrite length_app. cbn [length].
  replace (S (length sp + 1) - 1)%nat with (S (length sp)) by lia.
  cbn [take]. cbn [drop]. rewrite take_app_length. reflexivity.
Qed.

Lemma to_layout_length {A : Type} df (b : A) sp c :
  length (to_layout df b sp c) = (length sp + 2)%nat.
Proof. destruct df; cbn; rewrite ?length_app; cbn; lia. Qed.

Lemma rmap_item_seq {A : Type} (t : list A) (k n : nat) :
  (k + n <= length t)%nat ->
  rmap (item t) (seq k n) = Ok (take n (drop k t)).
Proof.
  revert k. induction n as [|n IH]; intros k Hk.
  - reflexivity.
  - cbn [seq rmap].
    destruct (lookup_lt_is_Some_2 t k) as [x Hx]; [lia|].
    rewrite (item_lookup _ _ _ Hx). cbn [rbind].
    rewrite IH by lia. cbn [rbind].
    rewrite (drop_S _ _ _ Hx). reflexivity.
Qed.

(** ** [build]: what is allocated, and what a failure leaves behind *)

Lemma _Conv_build_ok (self : _Conv) (input_shape : list dim) (c : Z)
    (st : layer_state) :
  py_index input_shape (channel_axis_of (data_format self)) = Ok (Some c) ->
  exists st',
    _Conv_build self input_shape st = (Ok tt, st')
    /\ kernel st'
       = Some (Weight "kernel" (kernel_size self ++ [c; filters self]))
    /\ weights st'
       = weights st
         ++ Weight "kernel" (kernel_size self ++ [c; filters self])
         :: bias_weights (use_bias self) [filters self]
    /\ built st' = true.
Proof.
  intros Hc. unfold _Conv_build, lift, sbind. rewrite Hc.
  unfold finish_build, bias_weights, sbind.
  destruct (use_bias self); cbn; eexists; repeat split;
    rewrite <- ?app_assoc; reflexivity.
Qed.

Lemma ConvTranspose_build_ok (n : nat) (self : ConvTranspose)
    (input_shape : list dim) (c : Z) (st : layer_state) :
  length input_shape = n ->
  py_index input_shape (channel_axis_of (data_format (conv self)))
  = Ok (Some c) ->
  exists st',
    ConvTranspose_build n self input_shape st = (Ok tt, st')
    /\ kernel st'
       = Some (Weight "kernel"
                 (kernel_size (conv self) ++ [filters (conv self); c]))
    /\ weights st'
       = weights st
         ++ Weight "kernel"
              (kernel_size (conv self) ++ [filters (conv self); c])
         :: bias_weights (use_bias (conv self)) [filters (conv self)]
    /\ built st' = true.
Proof.
  intros Hn Hc. unfold ConvTranspose_build, lift, sbind.
  rewrite Hn, Nat.eqb_refl. cbn [negb]. rewrite Hc.
  unfold finish_build, bias_weights, sbind.
  destruct (use_bias (conv self)); cbn; eexists; repeat split;
    rewrite <- ?app_assoc; reflexivity.
Qed.

(** A [build] that raises has not touched the instance. *)
Lemma _Conv_build_raise (self : _Conv) input_shape st e st' :
  _Conv_build self input_shape st = (Raise e, st') -> st' = st.
Proof.
  unfold _Conv_build, lift, sbind, sraise, finish_build, sbind.
  destruct (py_index input_shape _) as [[c|]|e0]; cbn.
  - destruct (use_bias self); cbn; intros H; discriminate H.
  - intros H; now inversion H.
  - intros H; now inversion H.
Qed.

Lemma ConvTranspose_build_raise n (self : ConvTranspose) input_shape st e st' :
  ConvTranspose_build n self input_shape st = (Raise e, st') -> st' = st.
Proof.
  unfold ConvTranspose_build, lift, sbind, sraise, finish_build, sbind.
  destruct (negb (length input_shape =? n)%nat).
  - intros H; now inversion H.
  - destruct (py_index input_shape _) as [[c|]|e0]; cbn.
    + destruct (use_bias (conv self)); cbn; intros H; discriminate H.
    + intros H; now inversion H.
    + intros H; now inversion H.
Qed.

Lemma _SeparableConv_build_raise (self : SeparableConv) input_shape st e st' :
  _SeparableConv_build self input_shape st = (Raise e, st') -> st' = st.
Proof.
  unfold _SeparableConv_build, lift, sbind, sraise, finish_build, sbind.
  destruct (length input_shape <? rank (sep_conv self) + 2)%nat.
  - intros H; now inversion H.
  - destruct (py_index input_shape _) as [[c|]|e0]; cbn.
    + destruct (use_bias (sep_conv self)); cbn; intros H; discriminate H.
    + intros H; now inversion H.
    + intros H; now inversion H.
Qed.

Lemma DepthwiseConv2D_build_raise (self : DepthwiseConv2D) input_shape st e
    st' :
  DepthwiseConv2D_build self input_shape st = (Raise e, st') -> st' = st.
Proof.
  unfold DepthwiseConv2D_build, lift, sbind, sraise, finish_build, sbind.
  destruct (length input_shape <? 4)%nat.
  - intros H; now inversion H.
  - destruct (py_index input_shape _) as [[c|]|e0]; cbn.
    + destruct (item (dw_kernel_size self) 0) as [k0|e0]; cbn;
        [|intros H; now inversion H].
      destruct (item (dw_kernel_size self) 1) as [k1|e1]; cbn;
        [|intros H; now inversion H].
      destruct (dw_use_bias self); cbn; intros H; discriminate H.
    + intros H; now inversion H.
    + intros H; now inversion H.
Qed.

(** C1. A transposed convolution ([Conv2DTranspose] on a rank-4 input,
    [Conv3DTranspose] on a rank-5 input) built on an input shape whose
    channel entry is the integer [c] allocates the kernel
    [kernel_size + (filters, c)]; a plain convolution built on such a
    shape allocates [kernel_size + (c, filters)], the two channel
    positions swapped. In both cases the kernel is the first parameter
    requested, followed by the bias if the layer uses one. *)
Theorem transposed_kernel_shape_swapped :
  (forall (self : ConvTranspose) (input_shape : list dim) (c : Z)
          (st : layer_state),
      length input_shape = 4%nat ->
      py_index input_shape (channel_axis_of (data_format (conv self)))
      = Ok (Some c) ->
      exists st',
        Conv2DTranspose_build self input_shape st = (Ok tt, st')
        /\ kernel st'
           = Some (Weight "kernel"
                     (kernel_size (conv self) ++ [filters (conv self); c]))
        /\ weights st'
           = weights st
             ++ Weight "kernel"
                  (kernel_size (conv self) ++ [filters (conv self); c])
             :: bias_weights (use_bias (conv self)) [filters (conv self)])
  /\ (forall (self : ConvTranspose) (input_shape : list dim) (c : Z)
             (st : layer_state),
         length input_shape = 5%nat ->
         py_index input_shape (channel_axis_of (data_format (conv self)))
         = Ok (Some c) ->
         exists st',
           Conv3DTranspose_build self input_shape st = (Ok tt, st')
           /\ kernel st'
              = Some (Weight "kernel"
                        (kernel_size (conv self) ++ [filters (conv self); c]))
           /\ weights st'
              = weights st
                ++ Weight "kernel"
                     (kernel_size (conv self) ++ [filters (conv self); c])
                :: bias_weights (use_bias (conv self)) [filters (conv self)])
  /\ (forall (self : _Conv) (input_shape : list dim) (c : Z)
             (st : layer_state),
         py_index input_shape (channel_axis_of (data_format self))
         = Ok (Some c) ->
         exists st',
           _Conv_build self input_shape st = (Ok tt, st')
           /\ kernel st'
              = Some (Weight "kernel" (kernel_size self ++ [c; filters self]))
           /\ weights st'
              = weights st
                ++ Weight "kernel" (kernel_size self ++ [c; filters self])
                :: bias_weights (use_bias self) [filters self]).
Proof.
  split; [|split].
  - intros self input_shape c st Hn Hc.
    destruct (ConvTranspose_build_ok 4 self input_shape c st Hn Hc)
      as (st' & H1 & H2 & H3 & _).
    exists st'. auto.
  - intros self input_shape c st Hn Hc.
    destruct (ConvTranspose_build_ok 5 self input_shape c st Hn Hc)
      as (st' & H1 & H2 & H3 & _).
    exists st'. auto.
  - intros self input_shape c st Hc.
    destruct (_Conv_build_ok self input_shape c st Hc)
      as (st' & H1 & H2 & H3 & _).
    exists st'. auto.
Qed.

Lemma transposed_kernel_shape_swapped_witness :
  (exists st',
      Conv2DTranspose_build deconv2d_example
        [None; Some 14; Some 14; Some 16] (unbuilt 2) = (Ok tt, st')
      /\ kernel st' = Some (Weight "kernel" [3; 3; 16; 16])
      /\ weights st' = [Weight "kernel" [3; 3; 16; 16]; Weight "bias" [16]])
  /\ (exists st',
         Conv3DTranspose_build deconv3d_example
           [None; Some 4; Some 7; Some 7; Some 7] (unbuilt 3) = (Ok tt, st')
         /\ kernel st' = Some (Weight "kernel" [3; 3; 3; 8; 4])
         /\ weights st' = [Weight "kernel" [3; 3; 3; 8; 4]])
  /\ (exists st',
         _Conv_build conv2d_example
           [None; Some 28; Some 28; Some 3] (unbuilt 2) = (Ok tt, st')
         /\ kernel st' = Some (Weight "kernel" [3; 3; 3; 16])
         /\ weights st' = [Weight "kernel" [3; 3; 3; 16]; Weight "bias" [16]]).
Proof.
  destruct transposed_kernel_shape_swapped as (H2 & H3 & H1).
  split; [|split].
  - apply (H2 deconv2d_example [None; Some 14; Some 14; Some 16] 16
              (unbuilt 2)); reflexivity.
  - apply (H3 deconv3d_example [None; Some 4; Some 7; Some 7; Some 7] 4
              (unbuilt 3)); reflexivity.
  - apply (H1 conv2d_example [None; Some 28; Some 28; Some 3] 3
              (unbuilt 2)); reflexivity.
Defined.

(** C8. When [build] of a convolution-family layer raises, the instance
    is exactly as it was before the call: nothing has been allocated and
    [built] has not been set. This covers [_Conv], [Conv2DTranspose],
    [Conv3DTranspose], [_SeparableConv] and [DepthwiseConv2D]. And [build]
    does raise, with a [ValueError], when the channel entry of the input
    shape is [None] and, for the transposed layers, when the rank of the
    input is not 4 (2D) or 5 (3D). *)
Theorem build_failure_allocates_nothing :
  (forall (self : _Conv) (input_shape : list dim) st e st',
      _Conv_build self input_shape st = (Raise e, st') -> st' = st)
  /\ (forall (self : ConvTranspose) (input_shape : list dim) st e st',
         Conv2DTranspose_build self input_shape st = (Raise e, st') ->
         st' = st)
  /\ (forall (self : ConvTranspose) (input_shape : list dim) st e st',
         Conv3DTranspose_build self input_shape st = (Raise e, st') ->
         st' = st)
  /\ (forall (self : SeparableConv) (input_shape : list dim) st e st',
         _SeparableConv_build self input_shape st = (Raise e, st') ->
         st' = st)
  /\ (forall (self : DepthwiseConv2D) (input_shape : list dim) st e st',
         DepthwiseConv2D_build self input_shape st = (Raise e, st') ->
         st' = st)
  /\ (forall (self : _Conv) (input_shape : list dim) st,
         py_index input_shape (channel_axis_of (data_format self))
         = Ok (None : dim) ->
         _Conv_build self input_shape st = (Raise ValueError, st))
  /\ (forall (self : ConvTranspose) (input_shape : list dim) st,
         py_index input_shape (channel_axis_of (data_format (conv self)))
         = Ok (None : dim)
         \/ length input_shape <> 4%nat ->
         Conv2DTranspose_build self input_shape st = (Raise ValueError, st))
  /\ (forall (self : ConvTranspose) (input_shape : list dim) st,
         py_index input_shape (channel_axis_of (data_format (conv self)))
         = Ok (None : dim)
         \/ length input_shape <> 5%nat ->
         Conv3DTranspose_build self input_shape st = (Raise ValueError, st)).
Proof.
  split; [|split; [|split; [|split; [|split; [|split; [|split]]]]]].
  - apply _Conv_build_raise.
  - apply ConvTranspose_build_raise.
  - apply ConvTranspose_build_raise.
  - apply _SeparableConv_build_raise.
  - apply DepthwiseConv2D_build_raise.
  - intros self input_shape st Hc.
    unfold _Conv_build, lift, sbind. now rewrite Hc.
  - intros self input_shape st H.
    unfold Conv2DTranspose_build, ConvTranspose_build, lift, sbind, sraise.
    destruct (Nat.eqb_spec (length input_shape) 4) as [Hn|Hn]; cbn [negb];
      [|reflexivity].
    destruct H as [Hc|H]; [now rewrite Hc | contradiction].
  - intros self input_shape st H.
    unfold Conv3DTranspose_build, ConvTranspose_build, lift, sbind, sraise.
    destruct (Nat.eqb_spec (length input_shape) 5) as [Hn|Hn]; cbn [negb];
      [|reflexivity].
    destruct H as [Hc|H]; [now rewrite Hc | contradiction].
Qed.

Lemma build_failure_allocates_nothing_witness :
  _Conv_build conv2d_example [None; Some 28; Some 28; None] (unbuilt 2)
  = (Raise ValueError, unbuilt 2)
  /\ Conv2DTranspose_build deconv2d_example [None; Some 14; Some 16]
       (unbuilt 2)
     = (Raise ValueError, unbuilt 2)
  /\ Conv3DTranspose_build deconv3d_example
       [None; None; Some 7; Some 7; Some 7] (unbuilt 3)
     = (Raise ValueError, unbuilt 3)
  /\ (forall e st',
         DepthwiseConv2D_build depthwise_example [None; Some 10; Some 3]
           (unbuilt 2) = (Raise e, st') ->
         st' = unbuilt 2).
Proof.
  destruct build_failure_allocates_nothing
    as (_ & _ & _ & _ & Hdw & Hconv & H2 & H3).
  split; [|split; [|split]].
  - apply Hconv. reflexivity.
  - apply H2. right. cbn. lia.
  - apply H3. left. reflexivity.
  - intros e st'. apply Hdw.
Defined.

(** C3. The plain [Conv2D] of the literal example: channels-last, input
    shape [(None, 28, 28, 3)], kernel size (3, 3), strides (1, 1), VALID
    padding, 16 filters. Its constructor accepts the configuration, [build]
    allocates a kernel of shape (3, 3, 3, 16) and a bias of shape (16,),
    and [compute_output_shape] returns [(None, 26, 26, 16)]. *)
Theorem conv2d_literal_example :
  Conv2D_init channels_last 16 (PySeq [3; 3]) (PySeq [1; 1]) "valid"
    (Some "channels_last") (PySeq [1; 1]) true
  = Ok conv2d_example
  /\ fst (_Conv_build conv2d_example [None; Some 28; Some 28; Some 3]
            (unbuilt 2)) = Ok tt
  /\ weights (snd (_Conv_build conv2d_example
                     [None; Some 28; Some 28; Some 3] (unbuilt 2)))
     = [Weight "kernel" [3; 3; 3; 16]; Weight "bias" [16]]
  /\ _Conv_compute_output_shape conv_utils.conv_output_length conv2d_example
       [None; Some 28; Some 28; Some 3]
     = Ok [None; Some 26; Some 26; Some 16].
Proof. repeat split; reflexivity. Qed.

(** ** The loop over the dimensions of a shape *)

Section ForEachKnownDim.

Context {T : Type} (op : Z -> T -> Z).

(** With the first entries done and a table entry for each remaining
    one, the loop transforms the remaining entries one by one. *)
Lemma loop_from (tpre tsuf : list T) :
  forall (pre suf : list dim),
    length pre = length tpre ->
    (length suf <= length tsuf)%nat ->
    rfold (known_dim_step op (tpre ++ tsuf))
          (seq (length pre) (length suf)) (pre ++ suf)
    = Ok (pre ++ zip_with (on_known op) suf tsuf).
Proof.
  revert tpre. induction tsuf as [|t tsuf IH]; intros tpre pre suf Hpre Hsuf.
  - destruct suf; [|cbn in Hsuf; exfalso; lia]. reflexivity.
  - destruct suf as [|x suf]; [reflexivity|].
    cbn [length seq rfold]. unfold known_dim_step at 1.
    rewrite item_app_middle. cbn [rbind].
    assert (Hnext :
      forall y : dim,
        rfold (known_dim_step op (tpre ++ t :: tsuf))
              (seq (S (length pre)) (length suf))
              (pre ++ y :: suf)
        = Ok (pre ++ y :: zip_with (on_known op) suf tsuf)).
    { intros y.
      specialize (IH (tpre ++ [t]) (pre ++ [y]) suf).
      rewrite <- !app_assoc in IH. cbn [app] in IH.
      rewrite !length_app in IH. cbn [length] in IH.
      replace (length pre + 1)%nat with (S (length pre)) in IH by lia.
      apply IH; [lia | cbn in Hsuf; lia]. }
    destruct x as [v|].
    + rewrite Hpre, item_app_middle. cbn [rbind]. rewrite <- Hpre.
      rewrite (insert_app_r_alt pre (Some v :: suf) (length pre))
        by apply Nat.le_refl.
      rewrite Nat.sub_diag.
      cbn [list_insert]. apply Hnext.
    + apply Hnext.
Qed.

Lemma for_each_known_dim_zip (table : list T) (shape : list dim) :
  (length shape <= length table)%nat ->
  for_each_known_dim op table shape
  = Ok (zip_with (on_known op) shape table).
Proof.
  intros H. unfold for_each_known_dim, py_range.
  apply (loop_from [] table [] shape); [reflexivity | exact H].
Qed.

(** Whatever the table, a run that returns keeps the length and every
    [None] entry of the shape. *)
Lemma step_keeps_None (table : list T) (out out' : list dim) (d : nat) :
  known_dim_step op table out d = Ok out' ->
  length out' = length out
  /\ forall i, out !! i = Some None -> out' !! i = Some None.
Proof.
  unfold known_dim_step, item.
  destruct (out !! d) as [[v|]|] eqn:Hd; cbn [rbind]; try discriminate.
  - destruct (table !! d) as [t|]; cbn [rbind]; [|discriminate].
    intros H. injection H as <-. split; [apply length_insert|].
    intros i Hi. destruct (decide (i = d)) as [Heq|Hne].
    + subst i. pose proof (eq_trans (eq_sym Hd) Hi) as Habs.
      discriminate Habs.
    + rewrite list_lookup_insert_ne by auto. exact Hi.
  - intros H. injection H as <-. auto.
Qed.

Lemma rfold_keeps_None (table : list T) (ds : list nat) :
  forall (out out' : list dim),
    rfold (known_dim_step op table) ds out = Ok out' ->
    length out' = length out
    /\ forall i, out !! i = Some None -> out' !! i = Some None.
Proof.
  induction ds as [|d ds IH]; intros out out' H.
  - injection H as <-. auto.
  - cbn [rfold] in H.
    destruct (known_dim_step op table out d) as [mid|e] eqn:Hs;
      cbn [rbind] in H;
      [|discriminate].
    destruct (step_keeps_None _ _ _ _ Hs) as [Hl Hn].
    destruct (IH _ _ H) as [Hl' Hn'].
    split; [congruence | auto].
Qed.

Lemma for_each_known_dim_keeps_None (table : list T) (shape out : list dim) :
  for_each_known_dim op table shape = Ok out ->
  length out = length shape
  /\ forall i, shape !! i = Some None -> out !! i = Some None.
Proof. apply rfold_keeps_None. Qed.

End ForEachKnownDim.

(** ** Layouts *)

Lemma transpose_shape_layout {A : Type} (df : data_format_t)
    (t0 : A) (ts : list A) (t1 : A) :
  (0 < length ts)%nat ->
  transpose_shape ([t0] ++ ts ++ [t1]) df (py_range 1 (length ts))
  = Ok (to_layout df t0 ts t1).
Proof.
  intros Hpos. destruct df; cbn [transpose_shape to_layout]; [|reflexivity].
  unfold py_range.
  destruct ts as [|t ts']; [cbn in Hpos; exfalso; lia|].
  remember (t :: ts') as ts eqn:Hts.
  assert (Hitem : item (seq 1 (length ts)) 0 = Ok 1%nat)
    by (subst ts; reflexivity).
  rewrite Hitem. cbn [rbind].
  change ([t0] ++ ts ++ [t1]) with ((t0 :: ts) ++ [t1]).
  rewrite py_index_last. cbn [rbind].
  rewrite rmap_item_seq
    by (rewrite length_app; cbn [length]; lia).
  cbn [rbind].
  replace (drop 1 ((t0 :: ts) ++ [t1])) with (ts ++ [t1]) by reflexivity.
  rewrite take_app_length. reflexivity.
Qed.

Lemma zip_with_to_layout {A B C : Type} (f : A -> B -> C) df
    (b : A) (sp : list A) (c : A) (t0 : B) (ts : list B) (t1 : B) :
  length sp = length ts ->
  zip_with f (to_layout df b sp c) (to_layout df t0 ts t1)
  = to_layout df (f b t0) (zip_with f sp ts) (f c t1).
Proof.
  intros H. destruct df; cbn [to_layout zip_with]; [reflexivity|].
  now rewrite zip_with_app by exact H.
Qed.

(** ** Up-sampling, zero-padding and cropping on a laid-out shape *)

Lemma on_known_mul_1 (d : dim) : on_known Z.mul d 1 = d.
Proof. destruct d as [v|]; cbn; [now rewrite Z.mul_1_r | reflexivity]. Qed.

Lemma on_known_add_0 (d : dim) :
  on_known (fun v p => v + py_sum p) d [0; 0] = d.
Proof. destruct d as [v|]; cbn; [now rewrite Z.add_0_r | reflexivity]. Qed.

Lemma on_known_sub_0 (d : dim) :
  on_known (fun v p => v - py_sum p) d [0; 0] = d.
Proof. destruct d as [v|]; cbn; [now rewrite Z.sub_0_r | reflexivity]. Qed.

Lemma _UpSampling_layout (self : UpSampling) (b : dim) (sp : list dim)
    (c : dim) :
  (0 < length (size self))%nat ->
  length sp = length (size self) ->
  _UpSampling_compute_output_shape self (to_layout (up_data_format self) b sp c)
  = Ok (to_layout (up_data_format self) b
          (zip_with (on_known Z.mul) sp (size self)) c).
Proof.
  intros Hpos Hlen. unfold _UpSampling_compute_output_shape.
  rewrite transpose_shape_layout by exact Hpos. cbn [rbind].
  rewrite for_each_known_dim_zip
    by (rewrite !to_layout_length, Hlen; apply Nat.le_refl).
  rewrite zip_with_to_layout by exact Hlen.
  now rewrite !on_known_mul_1.
Qed.

Lemma _ZeroPadding_layout (self : ZeroPadding) (b : dim) (sp : list dim)
    (c : dim) :
  (0 < length (zp_padding self))%nat ->
  length sp = length (zp_padding self) ->
  _ZeroPadding_compute_output_shape self
    (to_layout (zp_data_format self) b sp c)
  = Ok (to_layout (zp_data_format self) b
          (zip_with (on_known (fun v p => v + py_sum p)) sp (zp_padding self))
          c).
Proof.
  intros Hpos Hlen. unfold _ZeroPadding_compute_output_shape.
  rewrite transpose_shape_layout by exact Hpos. cbn [rbind].
  rewrite for_each_known_dim_zip
    by (rewrite !to_layout_length, Hlen; apply Nat.le_refl).
  rewrite zip_with_to_layout by exact Hlen.
  now rewrite !on_known_add_0.
Qed.

Lemma _Cropping_layout (self : Cropping) (b : dim) (sp : list dim) (c : dim) :
  (0 < length (cropping self))%nat ->
  length sp = length (cropping self) ->
  _Cropping_compute_output_shape self
    (to_layout (crop_data_format self) b sp c)
  = Ok (to_layout (crop_data_format self) b
          (zip_with (on_known (fun v p => v - py_sum p)) sp (cropping self))
          c).
Proof.
  intros Hpos Hlen. unfold _Cropping_compute_output_shape.
  rewrite transpose_shape_layout by exact Hpos. cbn [rbind].
  rewrite for_each_known_dim_zip
    by (rewrite !to_layout_length, Hlen; apply Nat.le_refl).
  rewrite zip_with_to_layout by exact Hlen.
  now rewrite !on_known_sub_0.
Qed.

(** C7. For an up-sampling, zero-padding or cropping layer of rank at
    least 1 and an input shape of rank + 2 entries in the layer's layout,
    [compute_output_shape] leaves batch and channel entries as they are
    and maps every spatial entry with its own size factor, padding pair
    or cropping pair: [None] to [None], a known [v] to [v * size],
    [v + sum (before, after)] or [v - sum (before, after)]. And on any
    input shape for which [compute_output_shape] returns, the output has
    the length of the input and is [None] wherever the input is. *)
Theorem spatial_transforms_dimensionwise :
  (forall (self : UpSampling) (b : dim) (sp : list dim) (c : dim),
      (0 < length (size self))%nat ->
      length sp = length (size self) ->
      _UpSampling_compute_output_shape self
        (to_layout (up_data_format self) b sp c)
      = Ok (to_layout (up_data_format self) b
              (zip_with (on_known Z.mul) sp (size self)) c))
  /\ (forall (self : ZeroPadding) (b : dim) (sp : list dim) (c : dim),
         (0 < length (zp_padding self))%nat ->
         length sp = length (zp_padding self) ->
         _ZeroPadding_compute_output_shape self
           (to_layout (zp_data_format self) b sp c)
         = Ok (to_layout (zp_data_format self) b
                 (zip_with (on_known (fun v p => v + py_sum p)) sp
                    (zp_padding self)) c))
  /\ (forall (self : Cropping) (b : dim) (sp : list dim) (c : dim),
         (0 < length (cropping self))%nat ->
         length sp = length (cropping self) ->
         _Cropping_compute_output_shape self
           (to_layout (crop_data_format self) b sp c)
         = Ok (to_layout (crop_data_format self) b
                 (zip_with (on_known (fun v p => v - py_sum p)) sp
                    (cropping self)) c))
  /\ (forall (self : UpSampling) (input_shape out : list dim),
         _UpSampling_compute_output_shape self input_shape = Ok out ->
         length out = length input_shape
         /\ forall i, input_shape !! i = Some None -> out !! i = Some None)
  /\ (forall (self : ZeroPadding) (input_shape out : list dim),
         _ZeroPadding_compute_output_shape self input_shape = Ok out ->
         length out = length input_shape
         /\ forall i, input_shape !! i = Some None -> out !! i = Some None)
  /\ (forall (self : Cropping) (input_shape out : list dim),
         _Cropping_compute_output_shape self input_shape = Ok out ->
         length out = length input_shape
         /\ forall i, input_shape !! i = Some None -> out !! i = Some None).
Proof.
  split; [|split; [|split; [|split; [|split]]]].
  - apply _UpSampling_layout.
  - apply _ZeroPadding_layout.
  - apply _Cropping_layout.
  - intros self input_shape out. unfold _UpSampling_compute_output_shape.
    destruct (transpose_shape _ _ _) as [table|e]; cbn [rbind];
      [|discriminate].
    apply for_each_known_dim_keeps_None.
  - intros self input_shape out. unfold _ZeroPadding_compute_output_shape.
    destruct (transpose_shape _ _ _) as [table|e]; cbn [rbind];
      [|discriminate].
    apply for_each_known_dim_keeps_None.
  - intros self input_shape out. unfold _Cropping_compute_output_shape.
    destruct (transpose_shape _ _ _) as [table|e]; cbn [rbind];
      [|discriminate].
    apply for_each_known_dim_keeps_None.
Qed.

Lemma spatial_transforms_dimensionwise_witness :
  _UpSampling_compute_output_shape (MkUpSampling [2; 3] channels_first)
    [None; Some 3; None; Some 4]
  = Ok [None; Some 3; None; Some 12]
  /\ _ZeroPadding_compute_output_shape
       (MkZeroPadding [[1; 2]; [3; 4]] channels_last)
       [None; Some 5; None; Some 3]
     = Ok [None; Some 8; None; Some 3]
  /\ _Cropping_compute_output_shape
       (MkCropping [[2; 2]; [4; 4]] channels_last)
       [None; Some 28; Some 28; Some 3]
     = Ok [None; Some 24; Some 20; Some 3]
  /\ (forall i,
         [None; Some 3; None; Some 4] !! i = Some (None : dim) ->
         [None; Some 3; None; Some 12] !! i = Some (None : dim)).
Proof.
  destruct spatial_transforms_dimensionwise
    as (Hup & Hzp & Hcr & Hnone & _ & _).
  split; [|split; [|split]].
  - apply (Hup (MkUpSampling [2; 3] channels_first) None [None; Some 4]
               (Some 3)); cbn; lia.
  - apply (Hzp (MkZeroPadding [[1; 2]; [3; 4]] channels_last) None
               [Some 5; None] (Some 3)); cbn; lia.
  - apply (Hcr (MkCropping [[2; 2]; [4; 4]] channels_last) None
               [Some 28; Some 28] (Some 3)); cbn; lia.
  - apply (Hnone (MkUpSampling [2; 3] channels_first)
                 [None; Some 3; None; Some 4]).
    reflexivity.
Defined.

(** ** Cropping by more than the size *)

(** C2, as stated, fails: cropping by more than the size of an axis is
    not reported by [compute_output_shape]. [Cropping2D] with crops
    ((5, 5), (5, 5)) is constructed, and on the input shape
    [(None, 4, 4, 3)] it returns [(None, -6, -6, 3)] instead of raising;
    so does the scenario of the spec, zero-padding a size of 4 by (2, 2)
    and then cropping it by (5, 5), which returns a size of -2. *)
Lemma cropping_beyond_size_counterexample :
  Cropping2D_init channels_last (NSeq [PySeq [5; 5]; PySeq [5; 5]]) None
  = Ok (MkCropping [[5; 5]; [5; 5]] channels_last)
  /\ _Cropping_compute_output_shape (MkCropping [[5; 5]; [5; 5]] channels_last)
       [None; Some 4; Some 4; Some 3]
     = Ok [None; Some (-6); Some (-6); Some 3]
  /\ ~ is_raise (_Cropping_compute_output_shape
                   (MkCropping [[5; 5]; [5; 5]] channels_last)
                   [None; Some 4; Some 4; Some 3])
  /\ _ZeroPadding_compute_output_shape (MkZeroPadding [[2; 2]] channels_last)
       [None; Some 4; Some 3]
     = Ok [None; Some 8; Some 3]
  /\ Cropping1D_init channels_last (PySeq [5; 5])
     = Ok (MkCropping [[5; 5]] channels_last)
  /\ _Cropping_compute_output_shape (MkCropping [[5; 5]] channels_last)
       [None; Some 8; Some 3]
     = Ok [None; Some (-2); Some 3].
Proof.
  repeat (split; [reflexivity|]).
  split; [|repeat (split; [reflexivity|]); reflexivity].
  intros [e He]. discriminate He.
Qed.

(** C2, amended. The constructors of the cropping layers accept any crop
    amounts, whatever their size: only the form of the argument and the
    data format are checked. And [compute_output_shape] does not check
    them either: on an input shape of rank + 2 entries, for a spatial
    axis of known size [d] cropped by [(before, after)] with
    [d < before + after], it returns normally, and the entry of that axis
    in the returned shape is the negative number [d - (before + after)]. *)
Theorem cropping_beyond_size_returns_negative :
  (forall df (before after : Z),
      Cropping1D_init df (PySeq [before; after])
      = Ok (MkCropping [[before; after]] channels_last))
  /\ (forall idf arg df (c00 c01 c10 c11 : Z),
         normalize_data_format idf arg = Ok df ->
         Cropping2D_init idf (NSeq [PySeq [c00; c01]; PySeq [c10; c11]]) arg
         = Ok (MkCropping [[c00; c01]; [c10; c11]] df))
  /\ (forall idf arg df (c00 c01 c10 c11 c20 c21 : Z),
         normalize_data_format idf arg = Ok df ->
         Cropping3D_init idf
           (NSeq [PySeq [c00; c01]; PySeq [c10; c11]; PySeq [c20; c21]]) arg
         = Ok (MkCropping [[c00; c01]; [c10; c11]; [c20; c21]] df))
  /\ (forall (self : Cropping) (b : dim) (sp : list dim) (c : dim)
             (i : nat) (d before after : Z),
         length sp = length (cropping self) ->
         sp !! i = Some (Some d) ->
         cropping self !! i = Some [before; after] ->
         d < before + after ->
         exists out_sp,
           _Cropping_compute_output_shape self
             (to_layout (crop_data_format self) b sp c)
           = Ok (to_layout (crop_data_format self) b out_sp c)
           /\ out_sp !! i = Some (Some (d - (before + after)))
           /\ d - (before + after) < 0).
Proof.
  split; [|split; [|split]].
  - reflexivity.
  - intros idf arg df c00 c01 c10 c11 Hdf.
    unfold Cropping2D_init, _Cropping_init. cbn. now rewrite Hdf.
  - intros idf arg df c00 c01 c10 c11 c20 c21 Hdf.
    unfold Cropping3D_init, _Cropping_init. cbn. rewrite Hdf. reflexivity.
  - intros self b sp c i d before after Hlen Hd Hc Hlt.
    assert (Hpos : (0 < length (cropping self))%nat).
    { apply lookup_lt_Some in Hc. clear -Hc. destruct (cropping self);
        cbn in *; [inversion Hc | apply Nat.lt_0_succ]. }
    eexists. split; [apply _Cropping_layout; assumption|].
    split.
    + apply lookup_zip_with_Some. exists (Some d), [before; after].
      split; [|split; assumption].
      cbn. do 2 f_equal.
    + clear -Hlt. lia.
Qed.

Lemma cropping_beyond_size_returns_negative_witness :
  Cropping2D_init channels_last (NSeq [PySeq [5; 5]; PySeq [1; 1]])
    (Some "channels_first")
  = Ok (MkCropping [[5; 5]; [1; 1]] channels_first)
  /\ exists out_sp,
       _Cropping_compute_output_shape
         (MkCropping [[5; 5]; [1; 1]] channels_first)
         (to_layout channels_first None [Some 4; Some 9] (Some 3))
       = Ok (to_layout channels_first None out_sp (Some 3))
       /\ out_sp !! 0%nat = Some (Some (4 - (5 + 5)))
       /\ 4 - (5 + 5) < 0.
Proof.
  destruct cropping_beyond_size_returns_negative as (_ & H2 & _ & Hout).
  split.
  - apply H2. reflexivity.
  - apply (Hout (MkCropping [[5; 5]; [1; 1]] channels_first) None
                [Some 4; Some 9] (Some 3) 0%nat 4 5 5);
      [reflexivity | reflexivity | reflexivity | lia].
Defined.

(** ** Layout symmetry *)

Lemma rmap_ok {A B : Type} (f : A -> result B) (l : list A) :
  (forall x, In x l -> exists y, f x = Ok y) ->
  exists ys, rmap f l = Ok ys /\ length ys = length l.
Proof.
  induction l as [|x l IH]; intros H.
  - exists []. split; reflexivity.
  - destruct (H x (or_introl eq_refl)) as [y Hy].
    destruct IH as (ys & Hys & Hlen); [intros z Hz; apply H; now right|].
    exists (y :: ys). cbn [rmap]. rewrite Hy. cbn [rbind]. rewrite Hys.
    cbn [rbind length]. now rewrite Hlen.
Qed.

Lemma item_ok {A : Type} (t : list A) (i : nat) :
  (i < length t)%nat -> exists x, item t i = Ok x.
Proof.
  intros H. destruct (lookup_lt_is_Some_2 t i H) as [x Hx].
  exists x. now apply item_lookup.
Qed.

Section NewSpace.

Variable conv_output_length : dim -> Z -> padding_t -> Z -> Z -> dim.

Lemma conv_new_space_ok (space : list dim) (ks st : list Z) (p : padding_t)
    (dr : list Z) :
  length ks = length space ->
  length st = length space ->
  length dr = length space ->
  exists new_space,
    conv_new_space conv_output_length space ks st p dr = Ok new_space
    /\ length new_space = length space.
Proof.
  intros Hks Hst Hdr. unfold conv_new_space, py_range.
  destruct (rmap_ok
              (fun i =>
                 s <- item space i ;;
                 k <- item ks i ;;
                 st0 <- item st i ;;
                 d <- item dr i ;;
                 Ok (conv_output_length s k p st0 d))
              (seq 0 (length space))) as (ys & Hys & Hlen).
  - intros i Hi. apply in_seq in Hi. destruct Hi as [_ Hi]. cbn in Hi.
    destruct (item_ok space i Hi) as [s Hs].
    destruct (item_ok ks i) as [k Hk]; [now rewrite Hks|].
    destruct (item_ok st i) as [s0 Hs0]; [now rewrite Hst|].
    destruct (item_ok dr i) as [d Hd]; [now rewrite Hdr|].
    rewrite Hs, Hk, Hs0, Hd. cbn [rbind]. eauto.
  - exists ys. rewrite length_seq in Hlen. auto.
Qed.

Lemma _Conv_layout (self : _Conv) (b : dim) (sp : list dim) (c : dim) :
  length (kernel_size self) = length sp ->
  length (strides self) = length sp ->
  length (dilation_rate self) = length sp ->
  exists sp',
    length sp' = length sp
    /\ forall df,
         _Conv_compute_output_shape conv_output_length
           (with_data_format self df) (to_layout df b sp c)
         = Ok (to_layout df b sp' (Some (filters self))).
Proof.
  intros Hks Hst Hdr.
  destruct (conv_new_space_ok sp (kernel_size self) (strides self)
              (padding self) (dilation_rate self) Hks Hst Hdr)
    as (sp' & Hsp' & Hlen).
  exists sp'. split; [exact Hlen|].
  intros df. unfold _Conv_compute_output_shape.
  destruct df; cbn [with_data_format data_format kernel_size strides padding
                      dilation_rate filters to_layout].
  - change (slice_from 2 (b :: c :: sp)) with sp.
    rewrite Hsp'. reflexivity.
  - rewrite slice_inner_layout, Hsp'. reflexivity.
Qed.

Lemma DepthwiseConv2D_layout (self : DepthwiseConv2D) (b h w : dim) (c : Z) :
  length (dw_kernel_size self) = 2%nat ->
  length (dw_strides self) = 2%nat ->
  length (dw_dilation_rate self) = 2%nat ->
  exists h' w',
    forall df,
      DepthwiseConv2D_compute_output_shape conv_output_length
        (dw_with_data_format self df) (to_layout df b [h; w] (Some c))
      = Ok (to_layout df b [h'; w'] (Some (c * depth_multiplier self))).
Proof.
  destruct self as [ks st p m df0 dr ub]. cbn [dw_kernel_size dw_strides
    dw_dilation_rate depth_multiplier]. intros Hks Hst Hdr.
  destruct ks as [|k0 [|k1 [|]]]; try discriminate Hks.
  destruct st as [|s0 [|s1 [|]]]; try discriminate Hst.
  destruct dr as [|d0 [|d1 [|]]]; try discriminate Hdr.
  exists (conv_output_length h k0 p s0 d0), (conv_output_length w k1 p s1 d1).
  intros [|]; reflexivity.
Qed.

End NewSpace.

Section Transposed.

Variable deconv_length : dim -> Z -> Z -> padding_t -> option Z -> Z -> dim.

Lemma Conv2DTranspose_layout (self : ConvTranspose) (b h w c : dim) :
  length (kernel_size (conv self)) = 2%nat ->
  length (strides (conv self)) = 2%nat ->
  length (dilation_rate (conv self)) = 2%nat ->
  output_padding_fits 2 (output_padding self) ->
  exists h' w',
    forall df,
      Conv2DTranspose_compute_output_shape deconv_length
        (MkConvTranspose (with_data_format (conv self) df)
           (output_padding self))
        (to_layout df b [h; w] c)
      = Ok (to_layout df b [h'; w'] (Some (filters (conv self)))).
Proof.
  destruct self as [[r f ks st p df0 dr ub] op]. cbn [conv kernel_size strides
    dilation_rate output_padding filters output_padding_fits].
  intros Hks Hst Hdr Hop.
  destruct ks as [|k0 [|k1 [|]]]; try discriminate Hks.
  destruct st as [|s0 [|s1 [|]]]; try discriminate Hst.
  destruct dr as [|d0 [|d1 [|]]]; try discriminate Hdr.
  destruct op as [[|o0 [|o1 [|]]]|]; try discriminate Hop.
  - exists (deconv_length h s0 k0 p (Some o0) d0),
           (deconv_length w s1 k1 p (Some o1) d1).
    intros [|]; reflexivity.
  - exists (deconv_length h s0 k0 p None d0),
           (deconv_length w s1 k1 p None d1).
    intros [|]; reflexivity.
Qed.

Lemma Conv3DTranspose_layout (self : ConvTranspose) (b d h w c : dim) :
  length (kernel_size (conv self)) = 3%nat ->
  length (strides (conv self)) = 3%nat ->
  output_padding_fits 3 (output_padding self) ->
  exists d' h' w',
    forall df,
      Conv3DTranspose_compute_output_shape deconv_length
        (MkConvTranspose (with_data_format (conv self) df)
           (output_padding self))
        (to_layout df b [d; h; w] c)
      = Ok (to_layout df b [d'; h'; w'] (Some (filters (conv self)))).
Proof.
  destruct self as [[r f ks st p df0 dr ub] op]. cbn [conv kernel_size strides
    dilation_rate output_padding filters output_padding_fits].
  intros Hks Hst Hop.
  destruct ks as [|k0 [|k1 [|k2 [|]]]]; try discriminate Hks.
  destruct st as [|s0 [|s1 [|s2 [|]]]]; try discriminate Hst.
  destruct op as [[|o0 [|o1 [|o2 [|]]]]|]; try discriminate Hop.
  - exists (deconv_length d s0 k0 p (Some o0) 1),
           (deconv_length h s1 k1 p (Some o1) 1),
           (deconv_length w s2 k2 p (Some o2) 1).
    intros [|]; reflexivity.
  - exists (deconv_length d s0 k0 p None 1),
           (deconv_length h s1 k1 p None 1),
           (deconv_length w s2 k2 p None 1).
    intros [|]; reflexivity.
Qed.

End Transposed.

(** C5. Layout symmetry. Take a layer whose per-axis settings have one
    entry per spatial axis, and an input given by its batch entry, its
    spatial entries and its channel entry. Then there is one choice of
    output batch, spatial and channel entries such that
    [compute_output_shape] under channels-first, on the input laid out
    channels-first, and under channels-last, on the input laid out
    channels-last, both return exactly these entries, laid out in the
    respective format: the channel entry at position 1 or last, all
    magnitudes the same. This holds for the plain convolutions, the
    depthwise convolution, both transposed convolutions, up-sampling,
    zero-padding and cropping, whichever length calculators the layers
    are given. *)
Theorem layout_symmetry :
  forall (conv_output_length : dim -> Z -> padding_t -> Z -> Z -> dim)
         (deconv_length : dim -> Z -> Z -> padding_t -> option Z -> Z -> dim),
    (forall (self : _Conv) (b : dim) (sp : list dim) (c : dim),
        length (kernel_size self) = length sp ->
        length (strides self) = length sp ->
        length (dilation_rate self) = length sp ->
        exists sp',
          length sp' = length sp
          /\ forall df,
               _Conv_compute_output_shape conv_output_length
                 (with_data_format self df) (to_layout df b sp c)
               = Ok (to_layout df b sp' (Some (filters self))))
    /\ (forall (self : DepthwiseConv2D) (b h w : dim) (c : Z),
           length (dw_kernel_size self) = 2%nat ->
           length (dw_strides self) = 2%nat ->
           length (dw_dilation_rate self) = 2%nat ->
           exists h' w',
             forall df,
               DepthwiseConv2D_compute_output_shape conv_output_length
                 (dw_with_data_format self df) (to_layout df b [h; w] (Some c))
               = Ok (to_layout df b [h'; w']
                       (Some (c * depth_multiplier self))))
    /\ (forall (self : ConvTranspose) (b h w c : dim),
           length (kernel_size (conv self)) = 2%nat ->
           length (strides (conv self)) = 2%nat ->
           length (dilation_rate (conv self)) = 2%nat ->
           output_padding_fits 2 (output_padding self) ->
           exists h' w',
             forall df,
               Conv2DTranspose_compute_output_shape deconv_length
                 (MkConvTranspose (with_data_format (conv self) df)
                    (output_padding self))
                 (to_layout df b [h; w] c)
               = Ok (to_layout df b [h'; w'] (Some (filters (conv self)))))
    /\ (forall (self : ConvTranspose) (b d h w c : dim),
           length (kernel_size (conv self)) = 3%nat ->
           length (strides (conv self)) = 3%nat ->
           output_padding_fits 3 (output_padding self) ->
           exists d' h' w',
             forall df,
               Conv3DTranspose_compute_output_shape deconv_length
                 (MkConvTranspose (with_data_format (conv self) df)
                    (output_padding self))
                 (to_layout df b [d; h; w] c)
               = Ok (to_layout df b [d'; h'; w']
                       (Some (filters (conv self)))))
    /\ (forall (size : list Z) (b : dim) (sp : list dim) (c : dim),
           (0 < length size)%nat ->
           length sp = length size ->
           exists sp',
             forall df,
               _UpSampling_compute_output_shape (MkUpSampling size df)
                 (to_layout df b sp c)
               = Ok (to_layout df b sp' c))
    /\ (forall (padding : list (list Z)) (b : dim) (sp : list dim) (c : dim),
           (0 < length padding)%nat ->
           length sp = length padding ->
           exists sp',
             forall df,
               _ZeroPadding_compute_output_shape (MkZeroPadding padding df)
                 (to_layout df b sp c)
               = Ok (to_layout df b sp' c))
    /\ (forall (cropping : list (list Z)) (b : dim) (sp : list dim) (c : dim),
           (0 < length cropping)%nat ->
           length sp = length cropping ->
           exists sp',
             forall df,
               _Cropping_compute_output_shape (MkCropping cropping df)
                 (to_layout df b sp c)
               = Ok (to_layout df b sp' c)).
Proof.
  intros col dcl.
  split; [|split; [|split; [|split; [|split; [|split]]]]].
  - apply _Conv_layout.
  - apply DepthwiseConv2D_layout.
  - apply Conv2DTranspose_layout.
  - apply Conv3DTranspose_layout.
  - intros size b sp c Hpos Hlen.
    exists (zip_with (on_known Z.mul) sp size). intros df.
    apply (_UpSampling_layout (MkUpSampling size df)); assumption.
  - intros padding b sp c Hpos Hlen.
    exists (zip_with (on_known (fun v p => v + py_sum p)) sp padding).
    intros df. apply (_ZeroPadding_layout (MkZeroPadding padding df));
      assumption.
  - intros cropping b sp c Hpos Hlen.
    exists (zip_with (on_known (fun v p => v - py_sum p)) sp cropping).
    intros df. apply (_Cropping_layout (MkCropping cropping df)); assumption.
Qed.

Lemma layout_symmetry_witness :
  (exists sp',
      length sp' = 2%nat
      /\ forall df,
           _Conv_compute_output_shape conv_utils.conv_output_length
             (with_data_format conv2d_example df)
             (to_layout df (Some 8) [Some 28; Some 28] (Some 3))
           = Ok (to_layout df (Some 8) sp' (Some 16)))
  /\ (exists h' w',
         forall df,
           DepthwiseConv2D_compute_output_shape conv_utils.conv_output_length
             (dw_with_data_format depthwise_example df)
             (to_layout df (Some 8) [Some 10; Some 10] (Some 3))
           = Ok (to_layout df (Some 8) [h'; w'] (Some (3 * 4))))
  /\ (exists h' w',
         forall df,
           Conv2DTranspose_compute_output_shape conv_utils.deconv_length
             (MkConvTranspose (with_data_format (conv deconv2d_example) df)
                None)
             (to_layout df (Some 8) [Some 14; Some 14] (Some 16))
           = Ok (to_layout df (Some 8) [h'; w'] (Some 16)))
  /\ (exists sp',
         forall df,
           _UpSampling_compute_output_shape (MkUpSampling [2; 3] df)
             (to_layout df (Some 8) [Some 5; Some 7] (Some 3))
           = Ok (to_layout df (Some 8) sp' (Some 3))).
Proof.
  destruct (layout_symmetry conv_utils.conv_output_length
              conv_utils.deconv_length)
    as (Hconv & Hdw & H2 & _ & Hup & _ & _).
  split; [|split; [|split]].
  - apply (Hconv conv2d_example (Some 8) [Some 28; Some 28] (Some 3));
      reflexivity.
  - apply (Hdw depthwise_example (Some 8) (Some 10) (Some 10) 3);
      reflexivity.
  - apply (H2 deconv2d_example (Some 8) (Some 14) (Some 14) (Some 16));
      [reflexivity | reflexivity | reflexivity | exact I].
  - apply (Hup [2; 3] (Some 8) [Some 5; Some 7] (Some 3)); cbn; lia.
Defined.

(** ** Depthwise convolution *)

(** C6. A [DepthwiseConv2D] with kernel size [(kh, kw)] and depth
    multiplier [m], on a rank-4 input shape whose channel entry is the
    integer [c]: [build] succeeds and allocates the depthwise kernel of
    shape [(kh, kw, c, m)], followed by a bias of shape [(c * m,)] if the
    layer uses one, and nothing else; it assigns neither [kernel] nor
    [pointwise_kernel]. And [compute_output_shape] returns a shape whose
    channel entry is [c * m]. *)
Theorem depthwise_channel_arithmetic :
  forall (conv_output_length : dim -> Z -> padding_t -> Z -> Z -> dim)
         (self : DepthwiseConv2D) (b h w : dim) (c kh kw : Z)
         (st : layer_state),
    dw_kernel_size self = [kh; kw] ->
    length (dw_strides self) = 2%nat ->
    length (dw_dilation_rate self) = 2%nat ->
    (exists st',
        DepthwiseConv2D_build self
          (to_layout (dw_data_format self) b [h; w] (Some c)) st
        = (Ok tt, st')
        /\ depthwise_kernel st'
           = Some (Weight "depthwise_kernel" [kh; kw; c; depth_multiplier self])
        /\ weights st'
           = weights st
             ++ Weight "depthwise_kernel" [kh; kw; c; depth_multiplier self]
             :: bias_weights (dw_use_bias self) [c * depth_multiplier self]
        /\ kernel st' = kernel st
        /\ pointwise_kernel st' = pointwise_kernel st)
    /\ exists h' w',
         DepthwiseConv2D_compute_output_shape conv_output_length self
           (to_layout (dw_data_format self) b [h; w] (Some c))
         = Ok (to_layout (dw_data_format self) b [h'; w']
                 (Some (c * depth_multiplier self))).
Proof.
  intros col [ks sts p m df dr ub] b h w c kh kw st.
  cbn [dw_kernel_size dw_strides dw_dilation_rate depth_multiplier
       dw_data_format dw_use_bias].
  intros Hks Hst Hdr. subst ks.
  destruct sts as [|s0 [|s1 [|]]]; try discriminate Hst.
  destruct dr as [|d0 [|d1 [|]]]; try discriminate Hdr.
  split.
  - unfold DepthwiseConv2D_build, finish_build, bias_weights, lift, sbind.
    destruct df, ub; cbn; eexists; repeat split;
      rewrite <- ?app_assoc; reflexivity.
  - exists (col h kh p s0 d0), (col w kw p s1 d1).
    destruct df; reflexivity.
Qed.

Lemma depthwise_channel_arithmetic_witness :
  (exists st',
      DepthwiseConv2D_build depthwise_example
        [None; Some 10; Some 10; Some 3] (unbuilt 2) = (Ok tt, st')
      /\ depthwise_kernel st' = Some (Weight "depthwise_kernel" [3; 3; 3; 4])
      /\ weights st'
         = [Weight "depthwise_kernel" [3; 3; 3; 4]; Weight "bias" [12]]
      /\ kernel st' = None
      /\ pointwise_kernel st' = None)
  /\ exists h' w',
       DepthwiseConv2D_compute_output_shape conv_utils.conv_output_length
         depthwise_example [None; Some 10; Some 10; Some 3]
       = Ok [None; h'; w'; Some 12].
Proof.
  apply (depthwise_channel_arithmetic conv_utils.conv_output_length
           depthwise_example None (Some 10) (Some 10) 3 3 3 (unbuilt 2));
    reflexivity.
Defined.

(** ** The output padding of the transposed convolutions *)

Lemma check_output_padding_raise (sts ops : list Z) :
  forall (i : nat) (s o : Z),
    sts !! i = Some s -> ops !! i = Some o -> o >= s ->
    check_output_padding (zip sts ops) = Raise ValueError.
Proof.
  revert ops. induction sts as [|s0 sts IH]; intros ops i s o Hs Ho Hge.
  - destruct i; discriminate Hs.
  - destruct ops as [|o0 ops]; [destruct i; discriminate Ho|].
    cbn [zip zip_with check_output_padding].
    destruct (o0 >=? s0) eqn:Htest; [reflexivity|].
    destruct i as [|i].
    + injection Hs as ->. injection Ho as ->.
      rewrite Z.geb_leb in Htest. apply Z.leb_gt in Htest.
      exfalso. clear -Htest Hge. lia.
    + exact (IH ops i s o Hs Ho Hge).
Qed.

Lemma normalize_tuple_raise (value : int_or_seq) (n : nat) (e : exn) :
  conv_utils.normalize_tuple value n = Raise e -> e = ValueError.
Proof.
  unfold conv_utils.normalize_tuple. destruct value as [z|l].
  - discriminate.
  - destruct (length l =? n)%nat; [discriminate|]. now intros [= <-].
Qed.

Lemma normalize_padding_raise (value : string) (e : exn) :
  conv_utils.normalize_padding value = Raise e -> e = ValueError.
Proof.
  unfold conv_utils.normalize_padding.
  repeat match goal with
         | |- context [if ?b then _ else _] => destruct b; try discriminate
         end.
  now intros [= <-].
Qed.

Lemma normalize_data_format_raise idf (value : option string) (e : exn) :
  normalize_data_format idf value = Raise e -> e = ValueError.
Proof.
  unfold normalize_data_format. destruct value as [s|]; [|discriminate].
  repeat match goal with
         | |- context [if ?b then _ else _] => destruct b; try discriminate
         end.
  now intros [= <-].
Qed.

(** [_Conv.__init__] either raises a [ValueError] or stores the normalised
    strides. *)
Lemma _Conv_init_cases idf (r : nat) (f : Z) (ks st : int_or_seq) (p : string)
    (df : option string) (dr : int_or_seq) (ub : bool) :
  _Conv_init idf r f ks st p df dr ub = Raise ValueError
  \/ exists self,
       _Conv_init idf r f ks st p df dr ub = Ok self
       /\ conv_utils.normalize_tuple st r = Ok (strides self).
Proof.
  unfold _Conv_init.
  destruct (conv_utils.normalize_tuple ks r) as [ks'|e] eqn:Hks;
    [|left; now rewrite (normalize_tuple_raise _ _ _ Hks)].
  destruct (conv_utils.normalize_tuple st r) as [st'|e] eqn:Hst;
    [|left; now rewrite (normalize_tuple_raise _ _ _ Hst)].
  destruct (conv_utils.normalize_padding p) as [p'|e] eqn:Hp;
    [|left; now rewrite (normalize_padding_raise _ _ Hp)].
  destruct (normalize_data_format idf df) as [df'|e] eqn:Hdf;
    [|left; now rewrite (normalize_data_format_raise _ _ _ Hdf)].
  destruct (conv_utils.normalize_tuple dr r) as [dr'|e] eqn:Hdr;
    [|left; now rewrite (normalize_tuple_raise _ _ _ Hdr)].
  right. eexists. split; reflexivity.
Qed.

Lemma transpose_init_raise idf (n : nat) (f : Z) (ks st : int_or_seq)
    (p : string) (op : int_or_seq) (df : option string) (dr : int_or_seq)
    (ub : bool) (sts ops : list Z) (i : nat) (s o : Z) :
  conv_utils.normalize_tuple st n = Ok sts ->
  conv_utils.normalize_tuple op n = Ok ops ->
  sts !! i = Some s -> ops !! i = Some o -> o >= s ->
  (self <- _Conv_init idf n f ks st p df dr ub ;;
   op' <- conv_utils.normalize_tuple op n ;;
   _ <- check_output_padding (zip (strides self) op') ;;
   Ok (MkConvTranspose self (Some op')))
  = Raise ValueError.
Proof.
  intros Hst Hop Hs Ho Hge.
  destruct (_Conv_init_cases idf n f ks st p df dr ub)
    as [Hr|(self & Hok & Hstr)].
  - now rewrite Hr.
  - rewrite Hok. cbn [rbind]. rewrite Hop. cbn [rbind].
    rewrite Hst in Hstr. injection Hstr as <-.
    now rewrite (check_output_padding_raise sts ops i s o Hs Ho Hge).
Qed.

(** C4. A transposed convolution constructed with an explicit
    [output_padding] whose normalised value has, on some axis, an entry
    not below the normalised stride of that axis is rejected by the
    constructor with a [ValueError]. Without an [output_padding] the
    constructor is that of the plain convolution and compares nothing.
    [build] does not read [output_padding] at all, and
    [compute_output_shape] returns normally on an input of the right rank
    whatever the entries of [output_padding] are: the check exists in the
    constructors only. *)
Theorem output_padding_checked_at_construction :
  forall (deconv_length : dim -> Z -> Z -> padding_t -> option Z -> Z -> dim)
         (idf : data_format_t),
    (forall f ks st p op df dr ub (sts ops : list Z) (i : nat) (s o : Z),
        conv_utils.normalize_tuple st 2 = Ok sts ->
        conv_utils.normalize_tuple op 2 = Ok ops ->
        sts !! i = Some s -> ops !! i = Some o -> o >= s ->
        Conv2DTranspose_init idf f ks st p (Some op) df dr ub
        = Raise ValueError)
    /\ (forall f ks st p op df ub (sts ops : list Z) (i : nat) (s o : Z),
           conv_utils.normalize_tuple st 3 = Ok sts ->
           conv_utils.normalize_tuple op 3 = Ok ops ->
           sts !! i = Some s -> ops !! i = Some o -> o >= s ->
           Conv3DTranspose_init idf f ks st p (Some op) df ub
           = Raise ValueError)
    /\ (forall f ks st p df dr ub,
           Conv2DTranspose_init idf f ks st p None df dr ub
           = (self <- Conv2D_init idf f ks st p df dr ub ;;
              Ok (MkConvTranspose self None)))
    /\ (forall f ks st p df ub,
           Conv3DTranspose_init idf f ks st p None df ub
           = (self <- Conv3D_init idf f ks st p df (PySeq [1; 1; 1]) ub ;;
              Ok (MkConvTranspose self None)))
    /\ (forall (self : ConvTranspose) (op' : option (list Z))
               (input_shape : list dim) (st : layer_state),
           Conv2DTranspose_build (MkConvTranspose (conv self) op')
             input_shape st
           = Conv2DTranspose_build self input_shape st
           /\ Conv3DTranspose_build (MkConvTranspose (conv self) op')
                input_shape st
              = Conv3DTranspose_build self input_shape st)
    /\ (forall (self : ConvTranspose) (b h w c : dim),
           length (kernel_size (conv self)) = 2%nat ->
           length (strides (conv self)) = 2%nat ->
           length (dilation_rate (conv self)) = 2%nat ->
           output_padding_fits 2 (output_padding self) ->
           is_ok (Conv2DTranspose_compute_output_shape deconv_length self
                    (to_layout (data_format (conv self)) b [h; w] c))
           = true)
    /\ (forall (self : ConvTranspose) (b d h w c : dim),
           length (kernel_size (conv self)) = 3%nat ->
           length (strides (conv self)) = 3%nat ->
           output_padding_fits 3 (output_padding self) ->
           is_ok (Conv3DTranspose_compute_output_shape deconv_length self
                    (to_layout (data_format (conv self)) b [d; h; w] c))
           = true).
Proof.
  intros dcl idf.
  split; [|split; [|split; [|split; [|split; [|split]]]]].
  - intros f ks st p op df dr ub sts ops i s o Hst Hop Hs Ho Hge.
    exact (transpose_init_raise idf 2 f ks st p op df dr ub sts ops i s o
             Hst Hop Hs Ho Hge).
  - intros f ks st p op df ub sts ops i s o Hst Hop Hs Ho Hge.
    exact (transpose_init_raise idf 3 f ks st p op df (PySeq [1; 1; 1]) ub
             sts ops i s o Hst Hop Hs Ho Hge).
  - reflexivity.
  - reflexivity.
  - intros self op' input_shape st. split; reflexivity.
  - intros self b h w c Hks Hst Hdr Hop.
    destruct (Conv2DTranspose_layout dcl self b h w c Hks Hst Hdr Hop)
      as (h' & w' & H).
    specialize (H (data_format (conv self))).
    destruct self as [[r f ks st p df dr ub] op].
    exact (f_equal is_ok H).
  - intros self b d h w c Hks Hst Hop.
    destruct (Conv3DTranspose_layout dcl self b d h w c Hks Hst Hop)
      as (d' & h' & w' & H).
    specialize (H (data_format (conv self))).
    destruct self as [[r f ks st p df dr ub] op].
    exact (f_equal is_ok H).
Qed.

Lemma output_padding_checked_at_construction_witness :
  Conv2DTranspose_init channels_last 16 (PyInt 3) (PySeq [2; 2]) "same"
    (Some (PyInt 2)) None (PyInt 1) true
  = Raise ValueError
  /\ Conv3DTranspose_init channels_last 8 (PyInt 3) (PyInt 2) "valid"
       (Some (PySeq [0; 1; 3])) (Some "channels_first") false
     = Raise ValueError
  /\ is_ok (Conv2DTranspose_compute_output_shape conv_utils.deconv_length
              (MkConvTranspose (conv deconv2d_example) (Some [5; 5]))
              [None; Some 14; Some 14; Some 16])
     = true
  /\ is_ok (Conv3DTranspose_compute_output_shape conv_utils.deconv_length
              (MkConvTranspose (conv deconv3d_example) (Some [2; 2; 2]))
              [None; Some 4; Some 7; Some 7; Some 7])
     = true.
Proof.
  destruct (output_padding_checked_at_construction conv_utils.deconv_length
              channels_last) as (H2 & H3 & _ & _ & _ & Hc2 & Hc3).
  split; [|split; [|split]].
  - apply (H2 16 (PyInt 3) (PySeq [2; 2]) "same" (PyInt 2) None (PyInt 1)
              true [2; 2] [2; 2] 0%nat 2 2); try reflexivity. lia.
  - apply (H3 8 (PyInt 3) (PyInt 2) "valid" (PySeq [0; 1; 3])
              (Some "channels_first") false [2; 2; 2] [0; 1; 3] 2%nat 2 3);
      try reflexivity. lia.
  - apply (Hc2 (MkConvTranspose (conv deconv2d_example) (Some [5; 5]))
               None (Some 14) (Some 14) (Some 16)); reflexivity.
  - apply (Hc3 (MkConvTranspose (conv deconv3d_example) (Some [2; 2; 2]))
               None (Some 7) (Some 7) (Some 7) (Some 4)); reflexivity.
Defined.

(** ** Products of dimensions *)

Lemma int64_wrap_small (z : Z) :
  - 2 ^ 63 <= z < 2 ^ 63 -> int64_wrap z = z.
Proof.
  intros H. unfold int64_wrap.
  rewrite Z.mod_small; [ring|].
  change (2 ^ 64) with (2 ^ 63 + 2 ^ 63). lia.
Qed.

Lemma fits_int64_spec (v : Z) : fits_int64 v = true <-> int64_range v.
Proof.
  unfold fits_int64, int64_range.
  rewrite andb_true_iff, Z.leb_le, Z.ltb_lt. reflexivity.
Qed.

Lemma as_int64_fits (v : Z) : int64_range v -> as_int64 v = Ok v.
Proof.
  intros H. unfold as_int64. apply fits_int64_spec in H. now rewrite H.
Qed.

Lemma rmap_known (vs : list Z) :
  Forall int64_range vs ->
  rmap (fun d : dim =>
          match d with
          | Some v => as_int64 v
          | None => Raise TypeError
          end) (map Some vs)
  = Ok vs.
Proof.
  induction 1 as [|v vs Hv _ IH]; [reflexivity|].
  cbn [map rmap]. rewrite (as_int64_fits v Hv). cbn [rbind].
  rewrite IH. reflexivity.
Qed.

Lemma np_prod_known (vs : list Z) :
  Forall int64_range vs -> np_prod (map Some vs) = Ok (element_count vs).
Proof. intros H. unfold np_prod. now rewrite (rmap_known vs H). Qed.

Lemma known_product_nonneg (t : list Z) : 0 <= known_product t.
Proof.
  unfold known_product.
  induction t as [|d t IH]; [cbn; lia|].
  cbn [List.filter]. destruct (Z.ltb_spec d 0); cbn [negb]; [exact IH|].
  change (product (d :: List.filter (fun d0 => negb (d0 <? 0)) t))
    with (d * product (List.filter (fun d0 => negb (d0 <? 0)) t)).
  lia.
Qed.

Lemma existsb_is_None_known (vs : list Z) :
  existsb is_None (map Some vs) = false.
Proof. induction vs as [|v vs IH]; [reflexivity | exact IH]. Qed.

Lemma forallb_truthy_known (vs : list Z) :
  Forall (fun v => v <> 0) vs -> forallb truthy (map Some vs) = true.
Proof.
  induction 1 as [|v vs Hv _ IH]; [reflexivity|].
  cbn [map forallb truthy]. rewrite IH.
  apply Z.eqb_neq in Hv. now rewrite Hv.
Qed.

Lemma forallb_truthy_falsy (rest : list dim) :
  Exists (fun d => d = None \/ d = Some 0) rest ->
  forallb truthy rest = false.
Proof.
  induction 1 as [d rest [-> | ->]|d rest _ IH].
  - reflexivity.
  - reflexivity.
  - cbn [forallb]. rewrite IH. apply andb_false_r.
Qed.

(** ** [Flatten] *)

(** C10, as stated, fails: the second entry of the result is the product
    as numpy computes it, in signed 64-bit integers that wrap around. On
    the input shape (None, 2^32, 2^32), whose entries are non-zero and
    fit 64 bits, [Flatten.compute_output_shape] returns (None, 0), not
    (None, 2^64). *)
Lemma flatten_product_counterexample :
  Flatten_compute_output_shape (MkFlatten channels_last)
    [None; Some (2 ^ 32); Some (2 ^ 32)]
  = Ok [None; Some 0]
  /\ Flatten_compute_output_shape (MkFlatten channels_last)
       [None; Some (2 ^ 32); Some (2 ^ 32)]
     <> Ok [None; Some (product [2 ^ 32; 2 ^ 32])].
Proof.
  split; [reflexivity|].
  intros H. vm_compute in H. discriminate H.
Qed.

(** C10, amended. [Flatten.compute_output_shape] on a shape with batch
    entry [b]: if some other entry is [None] or 0 it raises a
    [ValueError]; if all other entries are non-zero integers that fit a
    signed 64-bit integer, it returns the two entries [b] and their
    product as numpy computes it, wrapped to 64 bits, which is the
    product itself whenever that fits 64 bits. Whenever it returns, the
    result has exactly two entries and the second one is an integer,
    never [None]. *)
Theorem flatten_output_shape :
  forall (self : Flatten) (b : dim) (rest : list dim),
    (Exists (fun d => d = None \/ d = Some 0) rest ->
     Flatten_compute_output_shape self (b :: rest) = Raise ValueError)
    /\ (forall vs : list Z,
           rest = map Some vs ->
           Forall (fun v => v <> 0) vs ->
           Forall int64_range vs ->
           Flatten_compute_output_shape self (b :: rest)
           = Ok [b; Some (element_count vs)]
           /\ (- 2 ^ 63 <= product vs < 2 ^ 63 ->
               Flatten_compute_output_shape self (b :: rest)
               = Ok [b; Some (product vs)]))
    /\ (forall out : list dim,
           Flatten_compute_output_shape self (b :: rest) = Ok out ->
           exists p : Z, out = [b; Some p]).
Proof.
  intros self b rest. split; [|split].
  - intros H. unfold Flatten_compute_output_shape.
    change (slice_from 1 (b :: rest)) with rest.
    now rewrite (forallb_truthy_falsy rest H).
  - intros vs -> Hvs Hfits.
    assert (H : Flatten_compute_output_shape self (b :: map Some vs)
                = Ok [b; Some (element_count vs)]).
    { unfold Flatten_compute_output_shape.
      change (slice_from 1 (b :: map Some vs)) with (map Some vs).
      rewrite (forallb_truthy_known vs Hvs). cbn [negb].
      change (item (b :: map Some vs) 0) with (Ok b). cbn [rbind].
      now rewrite (np_prod_known vs Hfits). }
    split; [exact H|].
    intros Hfit. rewrite H. unfold element_count.
    now rewrite (int64_wrap_small _ Hfit).
  - intros out. unfold Flatten_compute_output_shape.
    change (slice_from 1 (b :: rest)) with rest.
    destruct (negb (forallb truthy rest)); [discriminate|].
    change (item (b :: rest) 0) with (Ok b). cbn [rbind].
    destruct (np_prod rest) as [p|e]; cbn [rbind]; [|discriminate].
    intros [= <-]. now exists p.
Qed.

Lemma flatten_output_shape_witness :
  Flatten_compute_output_shape (MkFlatten channels_last)
    [None; Some 64; None; Some 32]
  = Raise ValueError
  /\ Flatten_compute_output_shape (MkFlatten channels_last)
       [None; Some 64; Some 0; Some 32]
     = Raise ValueError
  /\ Flatten_compute_output_shape (MkFlatten channels_last)
       [None; Some 64; Some 32; Some 32]
     = Ok [None; Some 65536].
Proof.
  split; [|split].
  - apply (flatten_output_shape (MkFlatten channels_last) None
             [Some 64; None; Some 32]).
    apply Exists_cons_tl, Exists_cons_hd. now left.
  - apply (flatten_output_shape (MkFlatten channels_last) None
             [Some 64; Some 0; Some 32]).
    apply Exists_cons_tl, Exists_cons_hd. now right.
  - destruct (flatten_output_shape (MkFlatten channels_last) None
                [Some 64; Some 32; Some 32]) as (_ & H & _).
    destruct (H [64; 32; 32] eq_refl) as [_ Hexact].
    + repeat constructor; discriminate.
    + repeat constructor; unfold int64_range; lia.
    + apply Hexact. cbn. lia.
Defined.

(** ** [Reshape] *)

Lemma negatives_cons (d : Z) (t : list Z) :
  negatives (d :: t) = if d <? 0 then S (negatives t) else negatives t.
Proof. unfold negatives. cbn [List.filter]. now destruct (d <? 0). Qed.

Lemma known_product_cons (d : Z) (t : list Z) :
  known_product (d :: t)
  = if d <? 0 then known_product t else d * known_product t.
Proof. unfold known_product. cbn [List.filter]. now destruct (d <? 0). Qed.

(** The scanning loop, started at index [k] in state [(kn, un)]. *)
Lemma scan_from (t : list Z) :
  forall (k : nat) (kn : Z) (un : option nat),
    rfold (fun (st : Z * option nat) (e : nat * Z) =>
             let '(known, unknown) := st in
             let '(index, d) := e in
             if d <? 0 then
               match unknown with
               | None => Ok (known, Some index)
               | Some _ => Raise ValueError
               end
             else Ok (known * d, unknown))
          (zip (seq k (length t)) t) (kn, un)
    = match negatives t, un with
      | O, _ => Ok (kn * known_product t, un)
      | S O, None =>
          Ok (kn * known_product t, Some (k + first_negative t)%nat)
      | _, _ => Raise ValueError
      end.
Proof.
  induction t as [|d t IH]; intros k kn un.
  - cbn. now rewrite Z.mul_1_r.
  - cbn [length seq zip zip_with rfold].
    rewrite negatives_cons, known_product_cons. cbn [first_negative].
    destruct (d <? 0) eqn:Hd.
    + destruct un as [u|]; cbn [rbind].
      * now destruct (negatives t).
      * rewrite IH. rewrite Nat.add_0_r.
        destruct (negatives t) as [|[|n]]; reflexivity.
    + cbn [rbind]. rewrite IH. rewrite Z.mul_assoc.
      rewrite Nat.add_succ_r. cbn [Nat.add].
      destruct (negatives t) as [|[|n]]; destruct un; reflexivity.
Qed.

Lemma scan_output_shape_spec (t : list Z) :
  scan_output_shape t
  = match negatives t with
    | O => Ok (known_product t, None)
    | S O => Ok (known_product t, Some (first_negative t))
    | _ => Raise ValueError
    end.
Proof.
  unfold scan_output_shape, enumerate. rewrite scan_from.
  destruct (negatives t) as [|[|n]]; try reflexivity;
    now destruct (known_product t).
Qed.

Lemma replace_negative_none (q : Z) (t : list Z) :
  negatives t = 0%nat -> replace_negative q t = t.
Proof.
  induction t as [|d t IH]; [reflexivity|].
  rewrite negatives_cons. cbn [replace_negative map].
  destruct (d <? 0); [discriminate|].
  intros H. f_equal. exact (IH H).
Qed.

Lemma insert_first_negative (q : Z) (t : list Z) :
  negatives t = 1%nat ->
  <[first_negative t := q]> t = replace_negative q t.
Proof.
  induction t as [|d t IH]; [discriminate|].
  rewrite negatives_cons. cbn [replace_negative map first_negative].
  destruct (d <? 0).
  - intros [= H]. cbn. f_equal.
    symmetry. exact (replace_negative_none q t H).
  - intros H. cbn. f_equal. exact (IH H).
Qed.

Lemma product_replace_negative (q : Z) (t : list Z) :
  product (replace_negative q t)
  = q ^ Z.of_nat (negatives t) * known_product t.
Proof.
  induction t as [|d t IH]; [reflexivity|].
  rewrite negatives_cons, known_product_cons.
  cbn [replace_negative map product fold_right].
  fold (replace_negative q t). fold (product (replace_negative q t)).
  rewrite IH. destruct (d <? 0).
  - rewrite Nat2Z.inj_succ, Z.pow_succ_r by apply Nat2Z.is_nonneg. ring.
  - ring.
Qed.

(** A target with more than one negative entry is refused before the
    input is looked at. *)
Lemma _fix_unknown_dimension_two_negatives (input_shape : list dim)
    (t : list Z) :
  (1 < negatives t)%nat ->
  _fix_unknown_dimension input_shape t = Raise ValueError.
Proof.
  intros H. unfold _fix_unknown_dimension. rewrite scan_output_shape_spec.
  destruct (negatives t) as [|[|n]]; [lia | lia | reflexivity].
Qed.

(** [_fix_unknown_dimension] on fully known input dimensions inside 64
    bits, by the number of negative entries of the target. *)
Lemma _fix_unknown_dimension_spec (vs t : list Z) :
  Forall int64_range vs ->
  known_product t < 2 ^ 63 ->
  _fix_unknown_dimension (map Some vs) t
  = match negatives t with
    | O =>
        if negb (element_count vs =? known_product t) then Raise ValueError
        else Ok t
    | S O =>
        if (known_product t =? 0)
           || negb (element_count vs mod known_product t =? 0)
        then Raise ValueError
        else Ok (replace_negative (element_count vs / known_product t) t)
    | _ => Raise ValueError
    end.
Proof.
  intros Hvs Hknown.
  assert (Hfit : as_int64 (known_product t) = Ok (known_product t)).
  { apply as_int64_fits. pose proof (known_product_nonneg t).
    unfold int64_range. lia. }
  unfold _fix_unknown_dimension. rewrite scan_output_shape_spec.
  destruct (negatives t) as [|[|n]] eqn:Hn; cbn [rbind]; try reflexivity.
  - rewrite (np_prod_known vs Hvs). cbn [rbind]. rewrite Hfit.
    reflexivity.
  - rewrite (np_prod_known vs Hvs). cbn [rbind].
    destruct (known_product t =? 0); cbn [orb]; [reflexivity|].
    rewrite Hfit. cbn [rbind].
    now rewrite (insert_first_negative _ t Hn).
Qed.

Lemma Reshape_known_cases (self : Reshape) (b : dim) (vs : list Z) :
  Forall int64_range vs ->
  known_product (target_shape self) < 2 ^ 63 ->
  (reshape_error (target_shape self) (element_count vs)
   /\ Reshape_compute_output_shape self (b :: map Some vs) = Raise ValueError)
  \/ (~ reshape_error (target_shape self) (element_count vs)
      /\ Reshape_compute_output_shape self (b :: map Some vs)
         = Ok (b :: map Some
                 (replace_negative
                    (element_count vs / known_product (target_shape self))
                    (target_shape self)))
      /\ product (replace_negative
                    (element_count vs / known_product (target_shape self))
                    (target_shape self))
         = element_count vs).
Proof.
  destruct self as [t]. cbn [target_shape]. intros Hvs Hknown.
  unfold Reshape_compute_output_shape. cbn [target_shape].
  change (slice_from 1 (b :: map Some vs)) with (map Some vs).
  rewrite existsb_is_None_known.
  change (item (b :: map Some vs) 0) with (Ok b). cbn [rbind].
  rewrite (_fix_unknown_dimension_spec vs t Hvs Hknown).
  set (count := element_count vs). set (known := known_product t).
  rewrite product_replace_negative. fold known.
  unfold reshape_error. fold known.
  destruct (negatives t) as [|[|n]] eqn:Hn.
  - destruct (Z.eqb_spec count known) as [Heq|Hne]; cbn [negb].
    + right. split; [|split].
      * intros [H|[[H _]|[_ H]]]; [inversion H | discriminate H | auto].
      * cbn [rbind]. now rewrite (replace_negative_none _ t Hn).
      * cbn. rewrite Heq. now destruct known.
    + left. split; [right; right; auto | reflexivity].
  - destruct (Z.eqb_spec known 0) as [Hz|Hnz]; cbn [orb].
    + left. split; [right; left; auto | reflexivity].
    + destruct (Z.eqb_spec (count mod known) 0) as [Hm|Hm]; cbn [negb].
      * right. split; [|split].
        -- intros [H|[[_ [H|H]]|[H _]]];
             [ apply Nat.lt_irrefl in H; exact H | auto | auto
             | discriminate H ].
        -- reflexivity.
        -- change (Z.of_nat 1) with 1. rewrite Z.pow_1_r.
           rewrite Z.mul_comm. symmetry.
           now apply Z.div_exact.
      * left. split; [right; left; auto | reflexivity].
  - left. split; [|reflexivity].
    left. apply -> Nat.succ_lt_mono. apply Nat.lt_0_succ.
Qed.

(** C9, as stated, fails, in three ways. The unknown entry of a target
    shape is any negative entry, not only -1: on the input shape
    (None, 6) the target (-2,) returns (None, 6), although it has no -1
    and its own product is not 6. A zero among the other entries is
    refused even where the element counts can agree: on the input shape
    (None, 0) the target (-1, 0) raises, although any size for the -1
    gives 0 elements on both sides. And the element count is the one
    numpy computes in 64 bits: on the input shape (None, 2^32, 2^32) the
    target (-1,) returns (None, 0), whose product is not that of the
    input dimensions. *)
Lemma reshape_error_counterexample :
  Reshape_compute_output_shape (MkReshape [-2]) [None; Some 6]
  = Ok [None; Some 6]
  /\ ~ (is_raise (Reshape_compute_output_shape (MkReshape [-2])
                    [None; Some 6])
        <-> claimed_reshape_error [-2] 6)
  /\ Reshape_compute_output_shape (MkReshape [-1; 0]) [None; Some 0]
     = Raise ValueError
  /\ ~ (is_raise (Reshape_compute_output_shape (MkReshape [-1; 0])
                    [None; Some 0])
        <-> claimed_reshape_error [-1; 0] 0)
  /\ Reshape_compute_output_shape (MkReshape [-1])
       [None; Some (2 ^ 32); Some (2 ^ 32)]
     = Ok [None; Some 0]
  /\ product [0] <> product [2 ^ 32; 2 ^ 32].
Proof.
  split; [|split; [|split; [|split; [|split]]]].
  - reflexivity.
  - intros [_ H].
    destruct H as [e He].
    + right. intros (x & _ & Hx). discriminate Hx.
    + discriminate He.
  - reflexivity.
  - intros [H _].
    destruct H as [H|H].
    + exists ValueError. reflexivity.
    + cbn in H. apply Nat.lt_irrefl in H. exact H.
    + apply H. exists 0. split; [lia | reflexivity].
  - reflexivity.
  - discriminate.
Qed.

(** C9, amended. Take an input shape whose non-batch dimensions are all
    known and fit a signed 64-bit integer, with the element count [count]
    numpy computes for them (their product wrapped to 64 bits, which is
    the product itself whenever that fits), and a target shape whose
    non-negative entries have a product below 2^63. Then
    [Reshape.compute_output_shape] raises, and then a [ValueError],
    exactly when the target shape has more than one negative entry, or
    has one negative entry while the product of the other entries is zero
    or does not divide [count], or has no negative entry while the
    product of its entries differs from [count]. Otherwise it returns the
    batch entry followed by the target shape with its negative entry, if
    any, replaced by the quotient of [count] by the product of the other
    entries, and the product of the returned non-batch dimensions is
    [count]. *)
Theorem reshape_known_input :
  forall (self : Reshape) (b : dim) (vs : list Z),
    Forall int64_range vs ->
    known_product (target_shape self) < 2 ^ 63 ->
    (is_raise (Reshape_compute_output_shape self (b :: map Some vs))
     <-> reshape_error (target_shape self) (element_count vs))
    /\ (reshape_error (target_shape self) (element_count vs) ->
        Reshape_compute_output_shape self (b :: map Some vs)
        = Raise ValueError)
    /\ (~ reshape_error (target_shape self) (element_count vs) ->
        Reshape_compute_output_shape self (b :: map Some vs)
        = Ok (b :: map Some
                (replace_negative
                   (element_count vs / known_product (target_shape self))
                   (target_shape self)))
        /\ product (replace_negative
                      (element_count vs / known_product (target_shape self))
                      (target_shape self))
           = element_count vs)
    /\ (negatives (target_shape self) = 0%nat ->
        replace_negative
          (element_count vs / known_product (target_shape self))
          (target_shape self)
        = target_shape self)
    /\ (- 2 ^ 63 <= product vs < 2 ^ 63 -> element_count vs = product vs).
Proof.
  intros self b vs Hvs Hknown.
  destruct (Reshape_known_cases self b vs Hvs Hknown)
    as [[He Hr]|(Hne & Hr & Hp)].
  - split; [|split; [|split; [|split]]].
    + split; [auto | intros _; exists ValueError; exact Hr].
    + auto.
    + intros H. contradiction.
    + apply replace_negative_none.
    + apply int64_wrap_small.
  - split; [|split; [|split; [|split]]].
    + split; [|intros H; contradiction].
      intros [e H]. rewrite Hr in H. discriminate H.
    + intros H. contradiction.
    + auto.
    + apply replace_negative_none.
    + apply int64_wrap_small.
Qed.

Lemma reshape_known_input_witness :
  Reshape_compute_output_shape (MkReshape [-1; 2; 2]) [None; Some 6; Some 2]
  = Ok [None; Some 3; Some 2; Some 2]
  /\ product [3; 2; 2] = product [6; 2]
  /\ Reshape_compute_output_shape (MkReshape [-1; -1]) [None; Some 6; Some 2]
     = Raise ValueError
  /\ Reshape_compute_output_shape (MkReshape [5; -1]) [None; Some 6; Some 2]
     = Raise ValueError
  /\ Reshape_compute_output_shape (MkReshape [4; 4]) [None; Some 6; Some 2]
     = Raise ValueError.
Proof.
  assert (Hvs : Forall int64_range [6; 2])
    by (repeat constructor; unfold int64_range; lia).
  destruct (reshape_known_input (MkReshape [-1; 2; 2]) None [6; 2] Hvs
              eq_refl)
    as (_ & _ & Hok & _ & _).
  destruct Hok as [Hr Hp].
  { intros [H|[[_ [H|H]]|[H _]]];
      [ cbn in H; apply Nat.lt_irrefl in H; exact H
      | discriminate H | apply H; reflexivity | discriminate H ]. }
  split; [exact Hr|]. split; [exact Hp|].
  split; [|split].
  - apply (reshape_known_input (MkReshape [-1; -1]) None [6; 2] Hvs
             eq_refl).
    left. cbn. apply Nat.lt_succ_diag_r.
  - apply (reshape_known_input (MkReshape [5; -1]) None [6; 2] Hvs eq_refl).
    right. left. split; [reflexivity|]. right. discriminate.
  - apply (reshape_known_input (MkReshape [4; 4]) None [6; 2] Hvs eq_refl).
    right. right. split; [reflexivity | discriminate].
Defined.

(** ** Constructors: what they reject and what they guarantee *)

(** [Conv1D.__init__] rejects causal padding whenever [data_format] is
    given and is not exactly channels_last, Python's [None] included.
    When [data_format] is left out, its default channels_last applies and
    the test passes, as it does for channels_last given. With any other
    padding argument, or none, the test is not applied, and since it
    compares the argument as given while the padding is normalised
    without regard to case afterwards, the spelling CAUSAL passes it:
    such a layer is built with causal padding in the channels-first
    layout. *)
Theorem Conv1D_causal_padding_check :
  forall idf (f : Z) (ks st : int_or_seq) (df : option (option string))
         (dr : int_or_seq) (ub : bool),
    (forall d : option string,
        d <> Some "channels_last" ->
        Conv1D_init idf f ks st (Some "causal") (Some d) dr ub
        = Raise ValueError)
    /\ (df = None \/ df = Some (Some "channels_last") ->
        Conv1D_init idf f ks st (Some "causal") df dr ub
        = _Conv_init idf 1 f ks st "causal" (Some "channels_last") dr ub)
    /\ (forall p : option string,
           p <> Some "causal" ->
           Conv1D_init idf f ks st p df dr ub
           = _Conv_init idf 1 f ks st (default "valid" p)
               (default (Some "channels_last") df) dr ub)
    /\ (forall k s d : Z,
           Conv1D_init idf f (PyInt k) (PyInt s) (Some "CAUSAL")
             (Some (Some "channels_first")) (PyInt d) ub
           = Ok (Mk_Conv 1 f [k] [s] causal channels_first [d] ub)).
Proof.
  intros idf f ks st df dr ub. split; [|split; [|split]].
  - intros d Hd. unfold Conv1D_init.
    cbn [from_option id String.eqb Ascii.eqb Bool.eqb andb].
    destruct d as [s|]; [|reflexivity].
    destruct (String.eqb_spec s "channels_last") as [->|Hne];
      [contradiction | reflexivity].
  - intros [-> | ->]; reflexivity.
  - intros p Hp. unfold Conv1D_init.
    destruct p as [p|]; [|reflexivity]. cbn [from_option id].
    destruct (String.eqb_spec p "causal") as [->|Hne];
      [contradiction | reflexivity].
  - reflexivity.
Qed.

Lemma Conv1D_causal_padding_check_witness :
  Conv1D_init channels_last 8 (PyInt 3) (PyInt 1) (Some "causal")
    (Some None) (PyInt 1) true
  = Raise ValueError
  /\ Conv1D_init channels_last 8 (PyInt 3) (PyInt 1) (Some "causal")
       (Some (Some "channels_first")) (PyInt 1) true
     = Raise ValueError
  /\ Conv1D_init channels_last 8 (PyInt 3) (PyInt 1) (Some "causal")
       None (PyInt 1) true
     = Ok (Mk_Conv 1 8 [3] [1] causal channels_last [1] true)
  /\ Conv1D_init channels_last 8 (PyInt 3) (PyInt 1) None
       (Some (Some "channels_first")) (PyInt 1) true
     = Ok (Mk_Conv 1 8 [3] [1] valid channels_first [1] true).
Proof.
  split; [|split; [|split]].
  - apply (Conv1D_causal_padding_check channels_last 8 (PyInt 3) (PyInt 1)
             None (PyInt 1) true). discriminate.
  - apply (Conv1D_causal_padding_check channels_last 8 (PyInt 3) (PyInt 1)
             None (PyInt 1) true). discriminate.
  - destruct (Conv1D_causal_padding_check channels_last 8 (PyInt 3)
                (PyInt 1) None (PyInt 1) true) as (_ & H & _).
    rewrite H; [reflexivity | now left].
  - destruct (Conv1D_causal_padding_check channels_last 8 (PyInt 3)
                (PyInt 1) (Some (Some "channels_first")) (PyInt 1) true)
      as (_ & _ & H & _).
    rewrite (H None); [reflexivity | discriminate].
Defined.

Lemma normalize_tuple_length (value : int_or_seq) (n : nat) (l : list Z) :
  conv_utils.normalize_tuple value n = Ok l -> length l = n.
Proof.
  unfold conv_utils.normalize_tuple. destruct value as [z|l0].
  - intros [= <-]. apply length_replicate.
  - destruct (Nat.eqb_spec (length l0) n) as [H|H]; [|discriminate].
    now intros [= <-].
Qed.

Lemma _Conv_init_lengths idf (r : nat) (f : Z) (ks st : int_or_seq)
    (p : string) (df : option string) (dr : int_or_seq) (ub : bool)
    (self : _Conv) :
  _Conv_init idf r f ks st p df dr ub = Ok self ->
  rank self = r
  /\ filters self = f
  /\ length (kernel_size self) = r
  /\ length (strides self) = r
  /\ length (dilation_rate self) = r
  /\ conv_utils.normalize_tuple st r = Ok (strides self).
Proof.
  unfold _Conv_init.
  destruct (conv_utils.normalize_tuple ks r) as [ks'|e] eqn:Hks;
    [|discriminate].
  destruct (conv_utils.normalize_tuple st r) as [st'|e] eqn:Hst;
    [|discriminate].
  destruct (conv_utils.normalize_padding p) as [p'|e]; [|discriminate].
  destruct (normalize_data_format idf df) as [df'|e]; [|discriminate].
  destruct (conv_utils.normalize_tuple dr r) as [dr'|e] eqn:Hdr;
    [|discriminate].
  cbn [rbind]. intros [= <-]. cbn.
  repeat split; eauto using normalize_tuple_length.
Qed.

(** A convolution that [_Conv.__init__] has accepted, of rank [r], has [r]
    entries in each of its per-axis settings. If none of its strides is
    0, its [compute_output_shape] returns on every input shape of [r + 2]
    entries in its layout: the batch entry is kept, the channel entry is
    [filters], and there are [r] spatial entries. The constructor does
    accept a stride of 0; computing an output length then divides by it,
    inside the length calculator, which is why such layers are left
    out. *)
Theorem constructed_conv_has_output_shape :
  forall (conv_output_length : dim -> Z -> padding_t -> Z -> Z -> dim)
         idf (r : nat) (f : Z) (ks st : int_or_seq) (p : string)
         (df : option string) (dr : int_or_seq) (ub : bool) (self : _Conv),
    _Conv_init idf r f ks st p df dr ub = Ok self ->
    length (kernel_size self) = r
    /\ length (strides self) = r
    /\ length (dilation_rate self) = r
    /\ (Forall (fun s => s <> 0) (strides self) ->
        forall (b : dim) (sp : list dim) (c : dim),
          length sp = r ->
          exists sp',
            length sp' = r
            /\ _Conv_compute_output_shape conv_output_length self
                 (to_layout (data_format self) b sp c)
               = Ok (to_layout (data_format self) b sp' (Some f))).
Proof.
  intros col idf r f ks st p df dr ub self Hinit.
  destruct (_Conv_init_lengths _ _ _ _ _ _ _ _ _ _ Hinit)
    as (_ & Hf & Hks & Hst & Hdr & _).
  repeat (split; [assumption|]).
  intros _ b sp c Hsp.
  destruct (_Conv_layout col self b sp c) as (sp' & Hlen & H);
    [congruence | congruence | congruence |].
  exists sp'. split; [congruence|].
  specialize (H (data_format self)). rewrite <- Hf.
  destruct self. exact H.
Qed.

Lemma constructed_conv_has_output_shape_witness :
  exists sp',
    length sp' = 2%nat
    /\ _Conv_compute_output_shape conv_utils.conv_output_length
         conv2d_example (to_layout channels_last None [Some 28; None] (Some 3))
       = Ok (to_layout channels_last None sp' (Some 16)).
Proof.
  destruct (constructed_conv_has_output_shape conv_utils.conv_output_length
              channels_last 2 16 (PySeq [3; 3]) (PySeq [1; 1]) "valid"
              (Some "channels_last") (PySeq [1; 1]) true conv2d_example
              eq_refl) as (_ & _ & _ & H).
  apply (H ltac:(repeat constructor; discriminate)
           None [Some 28; None] (Some 3) eq_refl).
Defined.

Lemma check_output_padding_ok (sts ops : list Z) :
  check_output_padding (zip sts ops) = Ok tt ->
  forall (i : nat) (s o : Z),
    sts !! i = Some s -> ops !! i = Some o -> o < s.
Proof.
  intros Hok i s o Hs Ho.
  destruct (Z_lt_ge_dec o s) as [Hlt|Hge]; [exact Hlt|].
  rewrite (check_output_padding_raise sts ops i s o Hs Ho Hge) in Hok.
  discriminate Hok.
Qed.

Lemma transpose_init_ok idf (n : nat) (f : Z) (ks st : int_or_seq)
    (p : string) (op : int_or_seq) (df : option string) (dr : int_or_seq)
    (ub : bool) (self : ConvTranspose) :
  (c <- _Conv_init idf n f ks st p df dr ub ;;
   op' <- conv_utils.normalize_tuple op n ;;
   _ <- check_output_padding (zip (strides c) op') ;;
   Ok (MkConvTranspose c (Some op')))
  = Ok self ->
  exists ops,
    output_padding self = Some ops
    /\ length ops = n
    /\ length (strides (conv self)) = n
    /\ forall (i : nat) (s o : Z),
         strides (conv self) !! i = Some s -> ops !! i = Some o -> o < s.
Proof.
  destruct (_Conv_init idf n f ks st p df dr ub) as [c|e] eqn:Hc;
    [|discriminate].
  cbn [rbind].
  destruct (conv_utils.normalize_tuple op n) as [ops|e] eqn:Hop;
    [|discriminate].
  cbn [rbind].
  destruct (check_output_padding (zip (strides c) ops)) as [[]|e] eqn:Hck;
    [|discriminate].
  cbn [rbind]. intros [= <-]. exists ops. cbn [output_padding conv].
  destruct (_Conv_init_lengths _ _ _ _ _ _ _ _ _ _ Hc)
    as (_ & _ & _ & Hst & _ & _).
  repeat split; eauto using normalize_tuple_length.
  exact (check_output_padding_ok _ _ Hck).
Qed.

(** A transposed convolution that its constructor has accepted with an
    explicit [output_padding] stores one output padding entry per spatial
    axis, each of them below the stride of its axis. *)
Theorem constructed_output_padding_below_strides :
  forall idf,
    (forall f ks st p op df dr ub (self : ConvTranspose),
        Conv2DTranspose_init idf f ks st p (Some op) df dr ub = Ok self ->
        exists ops,
          output_padding self = Some ops
          /\ length ops = 2%nat
          /\ length (strides (conv self)) = 2%nat
          /\ forall (i : nat) (s o : Z),
               strides (conv self) !! i = Some s ->
               ops !! i = Some o -> o < s)
    /\ (forall f ks st p op df ub (self : ConvTranspose),
           Conv3DTranspose_init idf f ks st p (Some op) df ub = Ok self ->
           exists ops,
             output_padding self = Some ops
             /\ length ops = 3%nat
             /\ length (strides (conv self)) = 3%nat
             /\ forall (i : nat) (s o : Z),
                  strides (conv self) !! i = Some s ->
                  ops !! i = Some o -> o < s).
Proof.
  intros idf. split.
  - intros f ks st p op df dr ub self.
    exact (transpose_init_ok idf 2 f ks st p op df dr ub self).
  - intros f ks st p op df ub self.
    exact (transpose_init_ok idf 3 f ks st p op df (PySeq [1; 1; 1]) ub self).
Qed.

Lemma constructed_output_padding_below_strides_witness :
  exists ops,
    Some [1; 0] = Some ops
    /\ length ops = 2%nat
    /\ length [2; 2] = 2%nat
    /\ forall (i : nat) (s o : Z),
         [2; 2] !! i = Some s -> ops !! i = Some o -> o < s.
Proof.
  destruct (constructed_output_padding_below_strides channels_last)
    as [H _].
  exact (H 16 (PyInt 3) (PySeq [2; 2]) "same" (PySeq [1; 0]) None (PyInt 1)
           true
           (MkConvTranspose
              (Mk_Conv 2 16 [3; 3] [2; 2] same channels_last [1; 1] true)
              (Some [1; 0]))
           eq_refl).
Defined.

(** ** Padding and cropping layers: constructors and composition *)

(** Whatever form of argument the constructors of the zero-padding and
    cropping layers accept (one integer, one entry per axis, or one
    (before, after) pair per axis), the layer stores exactly one pair of
    two integers per spatial axis: one axis for the 1D layers, two for the
    2D layers, three for the 3D layers. *)
Theorem padding_and_cropping_constructors_store_pairs :
  forall idf,
    (forall arg self,
        ZeroPadding1D_init idf arg = Ok self ->
        pairs_per_axis 1 (zp_padding self))
    /\ (forall arg df self,
           ZeroPadding2D_init idf arg df = Ok self ->
           pairs_per_axis 2 (zp_padding self))
    /\ (forall arg df self,
           ZeroPadding3D_init idf arg df = Ok self ->
           pairs_per_axis 3 (zp_padding self))
    /\ (forall arg self,
           Cropping1D_init idf arg = Ok self ->
           pairs_per_axis 1 (cropping self))
    /\ (forall arg df self,
           Cropping2D_init idf arg df = Ok self ->
           pairs_per_axis 2 (cropping self))
    /\ (forall arg df self,
           Cropping3D_init idf arg df = Ok self ->
           pairs_per_axis 3 (cropping self)).
Proof.
  intros idf.
  assert (Hpair : forall v p,
             conv_utils.normalize_tuple v 2 = Ok p -> length p = 2%nat)
    by (intros v p; apply normalize_tuple_length).
  split; [|split; [|split; [|split; [|split]]]].
  - intros arg self. unfold ZeroPadding1D_init, _ZeroPadding_init.
    destruct (conv_utils.normalize_tuple arg 2) as [p|e] eqn:Hp;
      [|discriminate].
    cbn. intros [= <-]. split; [reflexivity|]. repeat constructor. eauto.
  - intros arg df self. unfold ZeroPadding2D_init, _ZeroPadding_init.
    destruct arg as [p|[|v0 [|v1 [|]]]|]; cbn; try discriminate.
    + destruct (normalize_data_format idf df); [|discriminate].
      cbn. intros [= <-]. split; [reflexivity | repeat constructor].
    + destruct (conv_utils.normalize_tuple v0 2) as [p0|e] eqn:H0;
        [|discriminate].
      destruct (conv_utils.normalize_tuple v1 2) as [p1|e] eqn:H1;
        [|discriminate].
      cbn. destruct (normalize_data_format idf df); [|discriminate].
      cbn. intros [= <-]. split; [reflexivity|]. repeat constructor; eauto.
  - intros arg df self. unfold ZeroPadding3D_init, _ZeroPadding_init.
    destruct arg as [p|[|v0 [|v1 [|v2 [|]]]]|]; cbn; try discriminate.
    + destruct (normalize_data_format idf df); [|discriminate].
      cbn. intros [= <-]. split; [reflexivity | repeat constructor].
    + destruct (conv_utils.normalize_tuple v0 2) as [p0|e] eqn:H0;
        [|discriminate].
      destruct (conv_utils.normalize_tuple v1 2) as [p1|e] eqn:H1;
        [|discriminate].
      destruct (conv_utils.normalize_tuple v2 2) as [p2|e] eqn:H2;
        [|discriminate].
      cbn. destruct (normalize_data_format idf df); [|discriminate].
      cbn. intros [= <-]. split; [reflexivity|]. repeat constructor; eauto.
  - intros arg self. unfold Cropping1D_init, _Cropping_init.
    destruct (conv_utils.normalize_tuple arg 2) as [p|e] eqn:Hp;
      [|discriminate].
    cbn. intros [= <-]. split; [reflexivity|]. repeat constructor. eauto.
  - intros arg df self. unfold Cropping2D_init, _Cropping_init.
    destruct arg as [p|[|v0 [|v1 [|]]]|]; cbn; try discriminate.
    + destruct (normalize_data_format idf df); [|discriminate].
      cbn. intros [= <-]. split; [reflexivity | repeat constructor].
    + destruct (conv_utils.normalize_tuple v0 2) as [p0|e] eqn:H0;
        [|discriminate].
      destruct (conv_utils.normalize_tuple v1 2) as [p1|e] eqn:H1;
        [|discriminate].
      cbn. destruct (normalize_data_format idf df); [|discriminate].
      cbn. intros [= <-]. split; [reflexivity|]. repeat constructor; eauto.
  - intros arg df self. unfold Cropping3D_init, _Cropping_init.
    destruct (normalize_data_format idf df) as [df'|e]; [|discriminate].
    cbn [rbind].
    destruct arg as [p|[|v0 [|v1 [|v2 [|]]]]|]; cbn; try discriminate.
    + intros [= <-]. split; [reflexivity | repeat constructor].
    + destruct (conv_utils.normalize_tuple v0 2) as [p0|e] eqn:H0;
        [|discriminate].
      destruct (conv_utils.normalize_tuple v1 2) as [p1|e] eqn:H1;
        [|discriminate].
      destruct (conv_utils.normalize_tuple v2 2) as [p2|e] eqn:H2;
        [|discriminate].
      cbn. intros [= <-]. split; [reflexivity|]. repeat constructor; eauto.
Qed.

Lemma padding_and_cropping_constructors_store_pairs_witness :
  pairs_per_axis 2 [[3; 3]; [1; 2]]
  /\ pairs_per_axis 3 [[4; 4]; [4; 4]; [4; 4]].
Proof.
  destruct (padding_and_cropping_constructors_store_pairs channels_last)
    as (_ & H2 & _ & _ & _ & H3).
  split.
  - exact (H2 (NSeq [PyInt 3; PySeq [1; 2]]) (Some "channels_first")
              (MkZeroPadding [[3; 3]; [1; 2]] channels_first) eq_refl).
  - exact (H3 (NInt 4) None (MkCropping [[4; 4]; [4; 4]; [4; 4]] channels_last)
              eq_refl).
Defined.

Lemma zip_with_pad_crop (sp : list dim) (amounts : list (list Z)) :
  length sp = length amounts ->
  zip_with (on_known (fun v p => v - py_sum p))
    (zip_with (on_known (fun v p => v + py_sum p)) sp amounts) amounts
  = sp.
Proof.
  revert amounts. induction sp as [|d sp IH]; intros [|a amounts] H;
    try discriminate H; [reflexivity|].
  cbn [zip_with]. rewrite IH by (injection H; auto). f_equal.
  destruct d as [v|]; cbn; [f_equal; ring | reflexivity].
Qed.

Lemma zip_with_crop_pad (sp : list dim) (amounts : list (list Z)) :
  length sp = length amounts ->
  zip_with (on_known (fun v p => v + py_sum p))
    (zip_with (on_known (fun v p => v - py_sum p)) sp amounts) amounts
  = sp.
Proof.
  revert amounts. induction sp as [|d sp IH]; intros [|a amounts] H;
    try discriminate H; [reflexivity|].
  cbn [zip_with]. rewrite IH by (injection H; auto). f_equal.
  destruct d as [v|]; cbn; [f_equal; ring | reflexivity].
Qed.

Lemma zip_with_length_same {A B C : Type} (f : A -> B -> C) (l : list A)
    (k : list B) :
  length l = length k -> length (zip_with f l k) = length k.
Proof.
  revert k. induction l as [|x l IH]; intros [|y k] H; try discriminate H;
    [reflexivity|].
  cbn. f_equal. apply IH. now injection H.
Qed.

Lemma ZeroPadding_layout_of (amounts : list (list Z)) df (b : dim)
    (sp : list dim) (c : dim) :
  (0 < length amounts)%nat ->
  length sp = length amounts ->
  _ZeroPadding_compute_output_shape (MkZeroPadding amounts df)
    (to_layout df b sp c)
  = Ok (to_layout df b
          (zip_with (on_known (fun v p => v + py_sum p)) sp amounts) c).
Proof. exact (_ZeroPadding_layout (MkZeroPadding amounts df) b sp c). Qed.

Lemma Cropping_layout_of (amounts : list (list Z)) df (b : dim)
    (sp : list dim) (c : dim) :
  (0 < length amounts)%nat ->
  length sp = length amounts ->
  _Cropping_compute_output_shape (MkCropping amounts df) (to_layout df b sp c)
  = Ok (to_layout df b
          (zip_with (on_known (fun v p => v - py_sum p)) sp amounts) c).
Proof. exact (_Cropping_layout (MkCropping amounts df) b sp c). Qed.

Lemma UpSampling_layout_of (sizes : list Z) df (b : dim) (sp : list dim)
    (c : dim) :
  (0 < length sizes)%nat ->
  length sp = length sizes ->
  _UpSampling_compute_output_shape (MkUpSampling sizes df)
    (to_layout df b sp c)
  = Ok (to_layout df b (zip_with (on_known Z.mul) sp sizes) c).
Proof. exact (_UpSampling_layout (MkUpSampling sizes df) b sp c). Qed.

(** Zero-padding and cropping by the same amounts undo each other on
    shapes, in either order and in either layout: on an input shape of
    rank + 2 entries, [compute_output_shape] of the one layer followed by
    [compute_output_shape] of the other returns the input shape, unknown
    entries included. No amount is excluded: cropping first may pass
    through negative sizes. *)
Theorem padding_then_cropping_round_trip :
  forall (amounts : list (list Z)) (df : data_format_t)
         (b : dim) (sp : list dim) (c : dim),
    (0 < length amounts)%nat ->
    length sp = length amounts ->
    (padded <- _ZeroPadding_compute_output_shape (MkZeroPadding amounts df)
                 (to_layout df b sp c) ;;
     _Cropping_compute_output_shape (MkCropping amounts df) padded)
    = Ok (to_layout df b sp c)
    /\ (cropped <- _Cropping_compute_output_shape (MkCropping amounts df)
                     (to_layout df b sp c) ;;
        _ZeroPadding_compute_output_shape (MkZeroPadding amounts df) cropped)
       = Ok (to_layout df b sp c).
Proof.
  intros amounts df b sp c Hpos Hlen. split.
  - rewrite (ZeroPadding_layout_of amounts df b sp c Hpos Hlen).
    cbn [rbind].
    rewrite Cropping_layout_of;
      [|exact Hpos | now apply zip_with_length_same].
    now rewrite zip_with_pad_crop.
  - rewrite (Cropping_layout_of amounts df b sp c Hpos Hlen).
    cbn [rbind].
    rewrite ZeroPadding_layout_of;
      [|exact Hpos | now apply zip_with_length_same].
    now rewrite zip_with_crop_pad.
Qed.

Lemma padding_then_cropping_round_trip_witness :
  (padded <- _ZeroPadding_compute_output_shape
               (MkZeroPadding [[2; 2]; [5; 0]] channels_first)
               [None; Some 3; Some 4; None] ;;
   _Cropping_compute_output_shape
     (MkCropping [[2; 2]; [5; 0]] channels_first) padded)
  = Ok [None; Some 3; Some 4; None]
  /\ (cropped <- _Cropping_compute_output_shape
                   (MkCropping [[2; 2]; [5; 0]] channels_first)
                   [None; Some 3; Some 4; None] ;;
      _ZeroPadding_compute_output_shape
        (MkZeroPadding [[2; 2]; [5; 0]] channels_first) cropped)
     = Ok [None; Some 3; Some 4; None].
Proof.
  apply (padding_then_cropping_round_trip [[2; 2]; [5; 0]] channels_first
           None [Some 4; None] (Some 3)); cbn; lia.
Defined.

Lemma zip_with_upsampling_twice (sp : list dim) (s1 s2 : list Z) :
  length sp = length s1 -> length s1 = length s2 ->
  zip_with (on_known Z.mul) (zip_with (on_known Z.mul) sp s1) s2
  = zip_with (on_known Z.mul) sp (zip_with Z.mul s1 s2).
Proof.
  revert s1 s2. induction sp as [|d sp IH]; intros [|a s1] [|a' s2] H1 H2;
    try discriminate H1; try discriminate H2; [reflexivity|].
  cbn [zip_with]. rewrite IH by (try injection H1; try injection H2; auto).
  f_equal. destruct d as [v|]; cbn; [f_equal; ring | reflexivity].
Qed.

(** Two up-sampling layers in a row act on shapes like one up-sampling
    layer whose size factors are the products, axis by axis, of theirs. *)
Theorem upsampling_composes :
  forall (size1 size2 : list Z) (df : data_format_t)
         (b : dim) (sp : list dim) (c : dim),
    (0 < length size1)%nat ->
    length size1 = length size2 ->
    length sp = length size1 ->
    (once <- _UpSampling_compute_output_shape (MkUpSampling size1 df)
               (to_layout df b sp c) ;;
     _UpSampling_compute_output_shape (MkUpSampling size2 df) once)
    = _UpSampling_compute_output_shape
        (MkUpSampling (zip_with Z.mul size1 size2) df) (to_layout df b sp c).
Proof.
  intros size1 size2 df b sp c Hpos H12 Hlen.
  rewrite (UpSampling_layout_of size1 df b sp c Hpos Hlen).
  cbn [rbind].
  rewrite UpSampling_layout_of;
    [| now rewrite <- H12
     | rewrite <- H12; now apply zip_with_length_same].
  rewrite UpSampling_layout_of.
  - now rewrite zip_with_upsampling_twice.
  - rewrite zip_with_length_same by exact H12. now rewrite <- H12.
  - rewrite zip_with_length_same by exact H12. now rewrite <- H12.
Qed.

Lemma upsampling_composes_witness :
  (once <- _UpSampling_compute_output_shape (MkUpSampling [2; 3] channels_last)
             [None; Some 5; None; Some 3] ;;
   _UpSampling_compute_output_shape (MkUpSampling [4; 2] channels_last) once)
  = _UpSampling_compute_output_shape (MkUpSampling [8; 6] channels_last)
      [None; Some 5; None; Some 3].
Proof.
  apply (upsampling_composes [2; 3] [4; 2] channels_last None
           [Some 5; None] (Some 3)); cbn; lia.
Defined.

(** ** The execution path against the shape engine *)

(** The output shape that [call] of a transposed convolution computes
    from the run-time shape of its input, to hand it to the backend, is
    the shape [compute_output_shape] announces for the same input shape:
    on every input of rank 4 (2D) or 5 (3D) the two agree, including the
    cases in which both raise. *)
Theorem transposed_call_agrees_with_compute_output_shape :
  forall (deconv_length : dim -> Z -> Z -> padding_t -> option Z -> Z -> dim)
         (self : ConvTranspose) (input_shape : list Z),
    (length input_shape = 4%nat ->
     Conv2DTranspose_call_output_shape deconv_length self input_shape
     = Conv2DTranspose_compute_output_shape deconv_length self
         (map Some input_shape))
    /\ (length input_shape = 5%nat ->
        Conv3DTranspose_call_output_shape deconv_length self input_shape
        = Conv3DTranspose_compute_output_shape deconv_length self
            (map Some input_shape)).
Proof.
  intros dcl [[r f ks st p df dr ub] op] shape. split.
  - intros H.
    destruct shape as [|b [|x [|y [|z [|]]]]]; try discriminate H.
    unfold Conv2DTranspose_call_output_shape,
      Conv2DTranspose_compute_output_shape.
    cbn [conv data_format kernel_size strides dilation_rate output_padding
         padding filters].
    destruct (unpack2 ks) as [[kh kw]|e]; [|destruct df; reflexivity].
    destruct (unpack2 st) as [[sh sw]|e]; [|destruct df; reflexivity].
    destruct op as [op|].
    + destruct (unpack2 op) as [[oh ow]|e]; [|destruct df; reflexivity].
      destruct dr as [|d0 [|d1 dr]]; destruct df; reflexivity.
    + destruct dr as [|d0 [|d1 dr]]; destruct df; reflexivity.
  - intros H.
    destruct shape as [|b [|x [|y [|z [|t [|]]]]]]; try discriminate H.
    unfold Conv3DTranspose_call_output_shape,
      Conv3DTranspose_compute_output_shape.
    cbn [conv data_format kernel_size strides dilation_rate output_padding
         padding filters].
    destruct (unpack3 ks) as [[[kd kh] kw]|e]; [|destruct df; reflexivity].
    destruct (unpack3 st) as [[[sd sh] sw]|e]; [|destruct df; reflexivity].
    destruct op as [op|].
    + destruct (unpack3 op) as [[[od oh] ow]|e]; destruct df; reflexivity.
    + destruct df; reflexivity.
Qed.

Lemma transposed_call_agrees_with_compute_output_shape_witness :
  Conv2DTranspose_call_output_shape conv_utils.deconv_length deconv2d_example
    [8; 14; 14; 16]
  = Ok [Some 8; Some 28; Some 28; Some 16]
  /\ Conv3DTranspose_call_output_shape conv_utils.deconv_length
       deconv3d_example [8; 4; 7; 7; 7]
     = Conv3DTranspose_compute_output_shape conv_utils.deconv_length
         deconv3d_example [Some 8; Some 4; Some 7; Some 7; Some 7].
Proof.
  split.
  - rewrite (proj1 (transposed_call_agrees_with_compute_output_shape
                      conv_utils.deconv_length deconv2d_example
                      [8; 14; 14; 16]) eq_refl).
    reflexivity.
  - exact (proj2 (transposed_call_agrees_with_compute_output_shape
                    conv_utils.deconv_length deconv3d_example
                    [8; 4; 7; 7; 7]) eq_refl).
Defined.

Lemma crop_slice_length (n start end_ : Z) :
  0 <= n -> 0 <= start -> 0 <= end_ ->
  slice_length n
    (Slice (Some start) (if end_ =? 0 then None else Some (- end_)))
  = Z.max 0 (n - start - end_).
Proof.
  intros Hn Hs He. unfold slice_length, slice_bound.
  destruct (Z.eqb_spec end_ 0); cbn [sl_start sl_stop]; cbv zeta;
    repeat match goal with
           | |- context [?a <? ?b] => destruct (Z.ltb_spec a b)
           | H : context [?a <? ?b] |- _ => destruct (Z.ltb_spec a b)
           end; lia.
Qed.

Lemma full_slice_length (n : Z) :
  0 <= n -> slice_length n (Slice None None) = n.
Proof. intros H. unfold slice_length, slice_bound. cbn. lia. Qed.

Lemma crop_slices_dims (amounts : list (list Z)) :
  Forall (fun p => exists s e, p = [s; e] /\ 0 <= s /\ 0 <= e) amounts ->
  exists slices,
    rmap crop_slice amounts = Ok slices
    /\ length slices = length amounts
    /\ forall sp : list Z,
         Forall (fun n => 0 <= n) sp ->
         zip_with slice_length sp slices
         = zip_with (fun n p => Z.max 0 (n - py_sum p)) sp amounts.
Proof.
  induction 1 as [|p amounts (s & e & -> & Hs & He) _ (slices & Hr & Hl & Hz)].
  - exists []. repeat split. intros sp _. now destruct sp.
  - eexists. cbn [rmap]. rewrite Hr. unfold crop_slice at 1.
    cbn [unpack2 rbind].
    split; [reflexivity|]. split; [cbn; now rewrite Hl|].
    intros [|n sp] Hsp; [reflexivity|].
    inversion Hsp as [|? ? Hn Hsp']; subst.
    cbn [zip_with]. rewrite (Hz sp Hsp'), crop_slice_length by assumption.
    do 2 f_equal. unfold py_sum. cbn. lia.
Qed.

(** What [_Cropping.call] keeps against what [compute_output_shape]
    announces. For non-negative crop amounts and an input of rank + 2
    axes, the slices that [call] applies keep the batch and channel axes
    whole and keep [max 0 (n - (before + after))] entries of a spatial
    axis of size [n], where [compute_output_shape] announces
    [n - (before + after)]: the two agree on an axis exactly as long as
    the crop amounts do not exceed its size, and beyond that [call]
    returns an empty axis while the announced size is negative. *)
Theorem cropping_call_keeps_clipped_size :
  forall (self : Cropping) (b : Z) (sp : list Z) (c : Z),
    (0 < length (cropping self))%nat ->
    length sp = length (cropping self) ->
    Forall (fun p => exists s e, p = [s; e] /\ 0 <= s /\ 0 <= e)
           (cropping self) ->
    0 <= b -> 0 <= c -> Forall (fun n => 0 <= n) sp ->
    exists slices,
      _Cropping_call_slices self = Ok slices
      /\ zip_with slice_length (to_layout (crop_data_format self) b sp c)
           slices
         = to_layout (crop_data_format self) b
             (zip_with (fun n p => Z.max 0 (n - py_sum p)) sp (cropping self))
             c
      /\ _Cropping_compute_output_shape self
           (map Some (to_layout (crop_data_format self) b sp c))
         = Ok (map Some
                 (to_layout (crop_data_format self) b
                    (zip_with (fun n p => n - py_sum p) sp (cropping self))
                    c)).
Proof.
  intros self b sp c Hpos Hlen Hcrop Hb Hc Hsp.
  destruct (crop_slices_dims (cropping self) Hcrop) as (sl & Hr & Hl & Hz).
  exists (to_layout (crop_data_format self) (Slice None None) sl
            (Slice None None)).
  split; [|split].
  - unfold _Cropping_call_slices, _Cropping_call_slices_dims.
    rewrite Hr. cbn [rbind]. rewrite <- Hl.
    apply transpose_shape_layout. now rewrite Hl.
  - rewrite zip_with_to_layout by congruence.
    rewrite !full_slice_length by assumption. now rewrite Hz.
  - replace (map Some (to_layout (crop_data_format self) b sp c))
      with (to_layout (crop_data_format self) (Some b) (map Some sp) (Some c))
      by (destruct (crop_data_format self); cbn; now rewrite ?map_app).
    rewrite _Cropping_layout by (rewrite ?length_map; assumption).
    f_equal.
    replace (zip_with (on_known (fun v p => v - py_sum p)) (map Some sp)
               (cropping self))
      with (map Some (zip_with (fun n p => n - py_sum p) sp (cropping self))).
    + destruct (crop_data_format self); cbn; now rewrite ?map_app.
    + clear. revert sp. induction (cropping self) as [|p l IH];
        intros [|n sp]; try reflexivity.
      cbn. now rewrite IH.
Qed.

Lemma cropping_call_keeps_clipped_size_witness :
  exists slices,
    _Cropping_call_slices (MkCropping [[5; 5]; [1; 0]] channels_last)
    = Ok slices
    /\ zip_with slice_length [8; 4; 9; 3] slices = [8; 0; 8; 3]
    /\ _Cropping_compute_output_shape
         (MkCropping [[5; 5]; [1; 0]] channels_last)
         [Some 8; Some 4; Some 9; Some 3]
       = Ok [Some 8; Some (-6); Some 8; Some 3].
Proof.
  apply (cropping_call_keeps_clipped_size
           (MkCropping [[5; 5]; [1; 0]] channels_last) 8 [4; 9] 3).
  - cbn. lia.
  - reflexivity.
  - repeat constructor; eexists _, _; (split; [reflexivity | lia]).
  - lia.
  - lia.
  - repeat constructor; lia.
Defined.

(** ** Separable convolution *)

(** [_SeparableConv.build] on an input shape of at least rank + 2 entries
    whose channel entry is the integer [c] succeeds and allocates, in
    this order, the depthwise kernel [kernel_size + (c, depth_multiplier)],
    the pointwise kernel [(1,) * rank + (depth_multiplier * c, filters)]
    and, if the layer uses one, the bias [(filters,)]; it assigns no plain
    [kernel]. An input of fewer entries is rejected before anything is
    allocated. *)
Theorem separable_build_allocations :
  forall (self : SeparableConv) (input_shape : list dim) (st : layer_state),
    (forall c : Z,
        (rank (sep_conv self) + 2 <= length input_shape)%nat ->
        py_index input_shape (channel_axis_of (data_format (sep_conv self)))
        = Ok (Some c) ->
        exists st',
          _SeparableConv_build self input_shape st = (Ok tt, st')
          /\ weights st'
             = weights st
               ++ [Weight "depthwise_kernel"
                     (kernel_size (sep_conv self)
                      ++ [c; sep_depth_multiplier self]);
                   Weight "pointwise_kernel"
                     (replicate (rank (sep_conv self)) 1
                      ++ [sep_depth_multiplier self * c;
                          filters (sep_conv self)])]
               ++ bias_weights (use_bias (sep_conv self))
                    [filters (sep_conv self)]
          /\ kernel st' = kernel st
          /\ built st' = true)
    /\ ((length input_shape < rank (sep_conv self) + 2)%nat ->
        _SeparableConv_build self input_shape st = (Raise ValueError, st)).
Proof.
  intros self input_shape st. split.
  - intros c Hlen Hc.
    unfold _SeparableConv_build, lift, sbind.
    destruct (Nat.ltb_spec (length input_shape) (rank (sep_conv self) + 2))
      as [Hlt|_]; [exfalso; lia|].
    rewrite Hc. unfold finish_build, bias_weights, sbind.
    destruct (use_bias (sep_conv self)); cbn; eexists; repeat split;
      rewrite <- ?app_assoc; reflexivity.
  - intros Hlt. unfold _SeparableConv_build.
    destruct (Nat.ltb_spec (length input_shape) (rank (sep_conv self) + 2))
      as [_|Hge]; [reflexivity | exfalso; lia].
Qed.

Lemma separable_build_allocations_witness :
  exists st',
    _SeparableConv_build
      (MkSeparableConv
         (Mk_Conv 2 16 [3; 3] [1; 1] same channels_last [1; 1] true) 4)
      [None; Some 10; Some 10; Some 3] (unbuilt 2) = (Ok tt, st')
    /\ weights st'
       = [Weight "depthwise_kernel" [3; 3; 3; 4];
          Weight "pointwise_kernel" [1; 1; 12; 16];
          Weight "bias" [16]]
    /\ kernel st' = None
    /\ built st' = true.
Proof.
  apply (separable_build_allocations
           (MkSeparableConv
              (Mk_Conv 2 16 [3; 3] [1; 1] same channels_last [1; 1] true) 4)
           [None; Some 10; Some 10; Some 3] (unbuilt 2)).
  - cbn. lia.
  - reflexivity.
Defined.

(** ** [Permute] and [PermuteGeneral] *)

Lemma py_index_raise {A : Type} (t : list A) (i : Z) (e : exn) :
  py_index t i = Raise e -> e = IndexError.
Proof.
  unfold py_index, item.
  destruct ((0 <=? _) && _); [|now intros [= <-]].
  destruct (t !! _); [discriminate | now intros [= <-]].
Qed.

Lemma rmap_py_index_raise {A : Type} (t : list A) (ds : list Z) (e : exn) :
  rmap (py_index t) ds = Raise e -> e = IndexError.
Proof.
  induction ds as [|d ds IH]; [discriminate|].
  cbn [rmap].
  destruct (py_index t d) as [x|e0] eqn:Hd; cbn [rbind].
  - destruct (rmap (py_index t) ds) as [g|e1]; cbn [rbind]; [discriminate|].
    intros [= <-]. now apply IH.
  - intros [= <-]. exact (py_index_raise _ _ _ Hd).
Qed.

Lemma rmap_length {A B : Type} (f : A -> result B) (l : list A) (l' : list B) :
  rmap f l = Ok l' -> length l' = length l.
Proof.
  revert l'. induction l as [|x l IH]; intros l'.
  - now intros [= <-].
  - cbn [rmap]. destruct (f x); cbn [rbind]; [|discriminate].
    destruct (rmap f l) as [ys|]; cbn [rbind]; [|discriminate].
    intros [= <-]. cbn. now rewrite (IH ys).
Qed.

(** The gathering loop of both layers, writing at offset [off], started
    at index [k]: it overwrites a window of the output with the entries
    read from the input. *)
Lemma gather_loop (input : list dim) (off : nat) (dims : list Z) :
  forall (k : nat) (out : list dim),
    (k + off <= length out)%nat ->
    rfold (fun (output_shape : list dim) (e : nat * Z) =>
             let '(i, d) := e in
             target_dim <- py_index input d ;;
             setitem output_shape (i + off) target_dim)
          (zip (seq k (length dims)) dims) out
    = match rmap (py_index input) dims with
      | Ok g =>
          if (k + off + length dims <=? length out)%nat
          then Ok (take (k + off) out ++ g
                   ++ drop (k + off + length dims) out)
          else Raise IndexError
      | Raise _ => Raise IndexError
      end.
Proof.
  induction dims as [|d dims IH]; intros k out Hk.
  - cbn [length seq zip zip_with rfold rmap]. rewrite Nat.add_0_r.
    destruct (Nat.leb_spec (k + off) (length out)) as [_|H];
      [|exfalso; lia].
    cbn [app]. now rewrite take_drop.
  - cbn [length seq zip zip_with rfold rmap].
    destruct (py_index input d) as [x|e] eqn:Hd; cbn [rbind];
      [|now rewrite (py_index_raise _ _ _ Hd)].
    unfold setitem.
    destruct (Nat.ltb_spec (k + off) (length out)) as [Hlt|Hge];
      cbn [rbind].
    + rewrite (IH (S k) (<[(k + off)%nat := x]> out))
        by (rewrite length_insert; lia).
      destruct (rmap (py_index input) dims) as [g|e]; cbn [rbind];
        [|reflexivity].
      rewrite length_insert.
      replace (S k + off + length dims)%nat
        with (k + off + S (length dims))%nat by lia.
      destruct (Nat.leb_spec (k + off + S (length dims)) (length out))
        as [Hfit|Hfit]; [|reflexivity].
      f_equal.
      replace (S k + off)%nat with (S (k + off)) by lia.
      rewrite (take_S_r _ _ x) by (now apply list_lookup_insert_eq).
      rewrite take_insert_ge by lia.
      rewrite drop_insert_lt by lia.
      now rewrite <- app_assoc.
    + destruct (rmap (py_index input) dims) as [g|e]; cbn [rbind];
        [|reflexivity].
      destruct (Nat.leb_spec (k + off + S (length dims)) (length out));
        [exfalso; lia | reflexivity].
Qed.

Lemma rfold_ext {A S : Type} (f g : S -> A -> result S) (l : list A) :
  (forall s x, f s x = g s x) -> forall s, rfold f l s = rfold g l s.
Proof.
  intros H. induction l as [|x l IH]; intros s; [reflexivity|].
  cbn [rfold]. rewrite H. destruct (g s x); cbn [rbind];
    [apply IH | reflexivity].
Qed.

(** Both loops in closed form. *)
Lemma Permute_closed_forms (dims : list Z) (input_shape : list dim) :
  Permute_compute_output_shape dims input_shape
  = match rmap (py_index input_shape) dims with
    | Ok g =>
        if (length dims =? 0)%nat
           || (length dims + 1 <=? length input_shape)%nat
        then Ok (take 1 input_shape ++ g
                 ++ drop (1 + length dims) input_shape)
        else Raise IndexError
    | Raise _ => Raise IndexError
    end
  /\ (forall ds : list Z,
         PermuteGeneral_compute_output_shape ds input_shape
         = match rmap (py_index input_shape) ds with
           | Ok g =>
               if (length ds <=? length input_shape)%nat
               then Ok (g ++ drop (length ds) input_shape)
               else Raise IndexError
           | Raise _ => Raise IndexError
           end).
Proof.
  rename input_shape into input.
  assert (HG : forall ds,
             PermuteGeneral_compute_output_shape ds input
             = match rmap (py_index input) ds with
               | Ok g =>
                   if (length ds <=? length input)%nat
                   then Ok (g ++ drop (length ds) input)
                   else Raise IndexError
               | Raise _ => Raise IndexError
               end).
  { intros ds. unfold PermuteGeneral_compute_output_shape, enumerate.
    etransitivity;
      [|etransitivity; [apply (gather_loop input 0 ds 0 input); lia|]].
    - apply rfold_ext. intros s [i d]. now rewrite Nat.add_0_r.
    - cbn [Nat.add take app]. reflexivity. }
  assert (HP : Permute_compute_output_shape dims input
               = match rmap (py_index input) dims with
                 | Ok g =>
                     if (length dims =? 0)%nat
                        || (length dims + 1 <=? length input)%nat
                     then Ok (take 1 input ++ g
                              ++ drop (1 + length dims) input)
                     else Raise IndexError
                 | Raise _ => Raise IndexError
                 end).
  { unfold Permute_compute_output_shape, enumerate.
    destruct input as [|b rest].
    - destruct dims as [|d dims]; [reflexivity|].
      cbn [length seq zip zip_with rfold rmap].
      replace (py_index [] d) with (@Raise dim IndexError); [reflexivity|].
      unfold py_index. cbn [length]. symmetry.
      destruct (d <? 0); destruct ((0 <=? _) && _) eqn:E; try reflexivity;
        exfalso; apply andb_prop in E; destruct E as [E1 E2];
        apply Z.leb_le in E1; apply Z.ltb_lt in E2; lia.
    - rewrite (gather_loop (b :: rest) 1 dims 0 (b :: rest))
        by (cbn; lia).
      destruct (rmap (py_index (b :: rest)) dims) as [g|e]; [|reflexivity].
      cbn [Nat.add].
      replace (length dims + 1)%nat with (1 + length dims)%nat by lia.
      cbn [Nat.add].
      destruct (Nat.leb_spec (S (length dims)) (length (b :: rest)));
        [now rewrite orb_true_r|].
      destruct dims; [cbn in *; exfalso; lia | reflexivity]. }
  split; [exact HP | exact HG].
Qed.

(** [Permute.compute_output_shape] and [PermuteGeneral.compute_output_shape]
    gather: although they update the output entry by entry, every entry
    is read from the input as it was given. With [g] the entries of the
    input at the positions [dims] (negative positions counting from the
    end), [Permute] returns the batch entry, then [g], then whatever
    input entries lie beyond, and [PermuteGeneral] returns [g] and then
    whatever lies beyond; a position outside the input, or more
    positions than the input has entries to overwrite, is an
    [IndexError]. On a non-empty input shape, [Permute(dims)] and
    [PermuteGeneral((0,) + dims)] agree. *)
Theorem permute_gathers_from_input :
  forall (dims : list Z) (input_shape : list dim),
    Permute_compute_output_shape dims input_shape
    = match rmap (py_index input_shape) dims with
      | Ok g =>
          if (length dims =? 0)%nat
             || (length dims + 1 <=? length input_shape)%nat
          then Ok (take 1 input_shape ++ g
                   ++ drop (1 + length dims) input_shape)
          else Raise IndexError
      | Raise _ => Raise IndexError
      end
    /\ PermuteGeneral_compute_output_shape dims input_shape
       = match rmap (py_index input_shape) dims with
         | Ok g =>
             if (length dims <=? length input_shape)%nat
             then Ok (g ++ drop (length dims) input_shape)
             else Raise IndexError
         | Raise _ => Raise IndexError
         end
    /\ (input_shape <> [] ->
        Permute_compute_output_shape dims input_shape
        = PermuteGeneral_compute_output_shape (0 :: dims) input_shape).
Proof.
  intros dims input.
  destruct (Permute_closed_forms dims input) as [HP HG].
  split; [exact HP|]. split; [exact (HG dims)|].
  intros Hne. rewrite HP, (HG (0 :: dims)).
  destruct input as [|b rest]; [contradiction|].
  cbn [rmap]. change (py_index (b :: rest) 0) with (Ok b). cbn [rbind].
  destruct (rmap (py_index (b :: rest)) dims) as [g|e]; cbn [rbind];
    [|reflexivity].
  cbn [length]. replace (length dims + 1)%nat with (S (length dims)) by lia.
  cbn [Nat.leb].
  destruct (Nat.leb_spec (length dims) (length rest)).
  - rewrite orb_true_r. reflexivity.
  - destruct dims; [cbn in *; exfalso; lia | reflexivity].
Qed.

Lemma rmap_pointwise {A B : Type} (f : A -> result B) (l : list A) :
  forall l' : list B,
    length l = length l' ->
    (forall i x, l !! i = Some x -> exists y, l' !! i = Some y /\ f x = Ok y) ->
    rmap f l = Ok l'.
Proof.
  induction l as [|x l IH]; intros [|y l'] Hlen H; try discriminate Hlen;
    [reflexivity|].
  cbn [rmap].
  destruct (H 0%nat x eq_refl) as (y' & Hy & Hf). injection Hy as <-.
  rewrite Hf. cbn [rbind].
  rewrite (IH l'); [reflexivity | now injection Hlen |].
  intros i z Hz. exact (H (S i) z Hz).
Qed.

Lemma rmap_lookup {A B : Type} (f : A -> result B) (l : list A) :
  forall (l' : list B) (i : nat) (x : A),
    rmap f l = Ok l' -> l !! i = Some x ->
    exists y, l' !! i = Some y /\ f x = Ok y.
Proof.
  induction l as [|x0 l IH]; intros l' i x H Hx; [destruct i; discriminate|].
  cbn [rmap] in H.
  destruct (f x0) as [y0|] eqn:Hf; cbn [rbind] in H; [|discriminate].
  destruct (rmap f l) as [ys|] eqn:Hr; cbn [rbind] in H; [|discriminate].
  injection H as <-. destruct i as [|i].
  - injection Hx as <-. exists y0. split; [reflexivity | exact Hf].
  - exact (IH ys i x eq_refl Hx).
Qed.

(** Permuting back. Let [p] rearrange all [n] non-batch entries of a
    shape (each of its entries lies in 1..n), and let [q] undo it: the
    entry that [q] puts at position [j + 1] is the one that [p] took
    from position [j + 1]. Then [Permute(p)] followed by [Permute(q)]
    returns the shape it was given. *)
Theorem permute_then_inverse_round_trip :
  forall (p q : list Z) (b : dim) (rest : list dim),
    length p = length rest ->
    length q = length rest ->
    Forall (fun d => 1 <= d <= Z.of_nat (length rest)) p ->
    (forall (j : nat) (d : Z),
        q !! j = Some d ->
        exists i : nat,
          d = Z.of_nat (S i) /\ p !! i = Some (Z.of_nat (S j))) ->
    (permuted <- Permute_compute_output_shape p (b :: rest) ;;
     Permute_compute_output_shape q permuted)
    = Ok (b :: rest).
Proof.
  intros p q b rest Hp Hq Hrange Hinv.
  assert (Hread : forall (t : list dim) (i : nat) (x : dim),
             t !! i = Some x -> py_index (b :: t) (Z.of_nat (S i)) = Ok x).
  { intros t i x Hx. unfold py_index.
    assert (Hlt : (i < length t)%nat) by (eapply lookup_lt_Some; eauto).
    cbn [length].
    destruct (Z.ltb_spec (Z.of_nat (S i)) 0); [exfalso; lia|].
    destruct (Z.leb_spec 0 (Z.of_nat (S i))); [|exfalso; lia].
    destruct (Z.ltb_spec (Z.of_nat (S i)) (Z.of_nat (S (length t))));
      [|exfalso; lia].
    cbn [andb]. rewrite Nat2Z.id. now apply item_lookup. }
  (* the first permutation succeeds and gathers *)
  destruct (rmap_ok (py_index (b :: rest)) p) as (g & Hg & Hgl).
  { intros d Hd. rewrite Forall_forall in Hrange.
    apply list_elem_of_In in Hd. specialize (Hrange d Hd).
    destruct (lookup_lt_is_Some_2 rest (Z.to_nat (d - 1))) as [x Hx];
      [lia|].
    exists x. replace d with (Z.of_nat (S (Z.to_nat (d - 1)))) by lia.
    now apply Hread. }
  destruct (Permute_closed_forms p (b :: rest)) as (HP & _).
  rewrite HP, Hg. cbn [length].
  replace (length p + 1 <=? S (length rest))%nat with true
    by (symmetry; apply Nat.leb_le; lia).
  rewrite orb_true_r. cbn [rbind].
  rewrite drop_ge by (cbn; lia). rewrite app_nil_r.
  change (take 1 (b :: rest) ++ g) with (b :: g).
  (* the second one reads the original entries back *)
  destruct (Permute_closed_forms q (b :: g)) as (HQ & _).
  rewrite HQ.
  rewrite (rmap_pointwise (py_index (b :: g)) q rest Hq).
  - cbn [length]. rewrite Hgl.
    replace (length q + 1 <=? S (length p))%nat with true
      by (symmetry; apply Nat.leb_le; lia).
    rewrite orb_true_r.
    rewrite drop_ge by (cbn; lia). now rewrite app_nil_r.
  - intros j d Hd.
    destruct (Hinv j d Hd) as (i & -> & Hpi).
    destruct (rmap_lookup _ _ _ _ _ Hg Hpi) as (y & Hy & Hyr).
    assert (Hj : (j < length rest)%nat)
      by (rewrite <- Hq; eapply lookup_lt_Some; eauto).
    destruct (lookup_lt_is_Some_2 rest j Hj) as [x Hx].
    exists x. split; [exact Hx|].
    rewrite (Hread rest j x Hx) in Hyr. injection Hyr as <-.
    now apply Hread.
Qed.

Lemma permute_gathers_from_input_witness :
  Permute_compute_output_shape [2; 1] [None; Some 3; Some 4]
  = Ok [None; Some 4; Some 3]
  /\ PermuteGeneral_compute_output_shape [0; 2; 1] [None; Some 3; Some 4]
     = Ok [None; Some 4; Some 3]
  /\ Permute_compute_output_shape [2; 1] [None; Some 3; Some 4]
     = PermuteGeneral_compute_output_shape [0; 2; 1]
         [None; Some 3; Some 4].
Proof.
  destruct (permute_gathers_from_input [2; 1] [None; Some 3; Some 4])
    as (H1 & _ & H3).
  destruct (permute_gathers_from_input [0; 2; 1] [None; Some 3; Some 4])
    as (_ & H2 & _).
  split; [rewrite H1; reflexivity|].
  split; [rewrite H2; reflexivity|].
  apply H3. discriminate.
Defined.

Lemma permute_then_inverse_round_trip_witness :
  (permuted <- Permute_compute_output_shape [2; 3; 1]
                 [None; Some 3; Some 4; Some 5] ;;
   Permute_compute_output_shape [3; 1; 2] permuted)
  = Ok [None; Some 3; Some 4; Some 5].
Proof.
  apply (permute_then_inverse_round_trip [2; 3; 1] [3; 1; 2] None
           [Some 3; Some 4; Some 5]).
  - reflexivity.
  - reflexivity.
  - repeat constructor; cbn; lia.
  - intros j d H.
    destruct j as [|[|[|j]]]; cbn in H; try discriminate;
      injection H as <-.
    + exists 2%nat. split; reflexivity.
    + exists 0%nat. split; reflexivity.
    + exists 1%nat. split; reflexivity.
Defined.

(** ** [RepeatVector] and [RepeatMatrix] *)

Lemma slice_index_le (n : nat) (d : Z) : (slice_index n d <= n)%nat.
Proof.
  unfold slice_index, slice_bound.
  destruct (d <? 0);
    repeat match goal with
           | |- context [?a <? ?b] => destruct (Z.ltb_spec a b)
           end; lia.
Qed.

(** [RepeatMatrix.compute_output_shape] never fails and never drops an
    entry, whatever [dim] is: the result is the input with one entry [n]
    more. The entry goes to position [dim] when that lies inside the
    shape, to the end when [dim] is larger than the rank, and a negative
    [dim] counts from the end (position 0 when it reaches before the
    start). [RepeatVector.compute_output_shape] needs two entries
    ([IndexError] otherwise) and agrees with [RepeatMatrix] for [dim = 1]
    exactly on shapes of rank 2: of a longer shape it drops everything
    after the second entry. *)
Theorem repeat_inserts_one_entry :
  forall (n d : Z) (input_shape : list dim),
    let out := RepeatMatrix_compute_output_shape n d input_shape in
    let len := Z.of_nat (length input_shape) in
    let k := if d <? 0 then Z.max 0 (len + d) else Z.min d len in
    length out = S (length input_shape)
    /\ out !! Z.to_nat k = Some (Some n)
    /\ delete (Z.to_nat k) out = input_shape
    /\ ((length input_shape < 2)%nat ->
        RepeatVector_compute_output_shape n input_shape = Raise IndexError)
    /\ ((2 <= length input_shape)%nat ->
        RepeatVector_compute_output_shape n input_shape
        = Ok (take 3 (RepeatMatrix_compute_output_shape n 1 input_shape))).
Proof.
  intros n d input out len k.
  assert (Hk : Z.to_nat k = slice_index (length input) d).
  { subst k len. unfold slice_index, slice_bound.
    destruct (Z.ltb_spec d 0);
      repeat match goal with
             | |- context [?a <? ?b] => destruct (Z.ltb_spec a b)
             end; lia. }
  rewrite Hk. subst out. unfold RepeatMatrix_compute_output_shape.
  pose proof (slice_index_le (length input) d) as Hle.
  set (j := slice_index (length input) d) in *.
  clearbody j. clear Hk k len.
  assert (Htake : length (take j input) = j)
    by (rewrite length_take; now apply Nat.min_l).
  unfold dim in *.
  split; [|split; [|split; [|split]]].
  - rewrite !length_app, Htake, length_drop.
    change (length [Some n]) with 1%nat. lia.
  - rewrite lookup_app_r by (rewrite Htake; apply Nat.le_refl).
    rewrite Htake, Nat.sub_diag. reflexivity.
  - change ([Some n] ++ drop j input) with (Some n :: drop j input).
    rewrite <- Htake at 1. rewrite delete_middle. apply take_drop.
  - intros Hlt. unfold RepeatVector_compute_output_shape.
    destruct input as [|b [|f t]]; [reflexivity | reflexivity |].
    cbn in Hlt. lia.
  - intros Hge. destruct input as [|b [|f t]]; [cbn in Hge; lia..|].
    assert (H1 : slice_index (length (b :: f :: t)) 1 = 1%nat).
    { unfold slice_index, slice_bound. cbn [length].
      change (1 <? 0) with false. cbv iota.
      repeat match goal with
             | |- context [?x <? ?y] => destruct (Z.ltb_spec x y)
             end; lia. }
    rewrite H1. reflexivity.
Qed.

Lemma repeat_inserts_one_entry_witness :
  RepeatVector_compute_output_shape 7 [None] = Raise IndexError
  /\ RepeatVector_compute_output_shape 7 [None; Some 5]
     = Ok (take 3 (RepeatMatrix_compute_output_shape 7 1 [None; Some 5])).
Proof.
  split.
  - apply (repeat_inserts_one_entry 7 1 [None]). cbn. lia.
  - apply (repeat_inserts_one_entry 7 1 [None; Some 5]). cbn. lia.
Defined.

(** ** [Slice] *)

(** [Slice.compute_output_shape] declares [max_idx - min_idx] columns
    without looking at the width of its input, while [Slice.call] keeps
    what the slice [min_idx:max_idx] finds there. For non-negative
    indices and an input of [n] columns, the declared shape is the shape
    of what [call] returns exactly when the slice is empty by
    [min_idx = max_idx] or lies inside the input
    ([min_idx <= max_idx <= n]); in every other case the layer announces
    a width its output does not have. *)
Theorem slice_declared_width_is_kept_width :
  forall (self : SliceLayer) (b : dim) (n : Z),
    0 <= n -> 0 <= min_idx self -> 0 <= max_idx self ->
    (Slice_compute_output_shape self [b; Some n]
     = Ok [b; Some (slice_length n (Slice_call_slice self))]
     <-> min_idx self = max_idx self
         \/ min_idx self <= max_idx self <= n).
Proof.
  intros [lo hi] b n Hn Hlo Hhi. cbn [min_idx max_idx] in *.
  unfold Slice_compute_output_shape, Slice_call_slice, slice_length,
    slice_bound.
  cbn [item rbind min_idx max_idx sl_start sl_stop].
  change (item [b; Some n] 0) with (Ok b). cbn [rbind].
  replace (hi <? 0) with false by (symmetry; apply Z.ltb_ge; lia).
  replace (lo <? 0) with false by (symmetry; apply Z.ltb_ge; lia).
  split.
  - intros H. injection H as H. revert H.
    repeat match goal with
           | |- context [?x <? ?y] => destruct (Z.ltb_spec x y)
           end; lia.
  - intros H.
    match goal with
    | |- Ok [b; Some ?x] = Ok [b; Some ?y] =>
        enough (E : x = y) by (now rewrite E)
    end.
    repeat match goal with
           | |- context [?x <? ?y] => destruct (Z.ltb_spec x y)
           end; lia.
Qed.

Lemma slice_declared_width_is_kept_width_witness :
  Slice_compute_output_shape (MkSliceLayer 1 3) [None; Some 5]
  = Ok [None; Some (slice_length 5 (Slice_call_slice (MkSliceLayer 1 3)))]
  <-> 1 = 3 \/ 1 <= 3 <= 5.
Proof.
  apply (slice_declared_width_is_kept_width (MkSliceLayer 1 3) None 5);
    cbn; lia.
Defined.

(** ** [Dense] and [ZeroesLayer] *)

Lemma py_setitem_last {A : Type} (pre : list A) (x y : A) :
  py_setitem (pre ++ [x]) (-1) y = Ok (pre ++ [y]).
Proof.
  unfold py_setitem. rewrite length_app. cbn [length].
  change (-1 <? 0) with true. cbv iota.
  destruct (Z.leb_spec 0 (Z.of_nat (length pre + 1) + -1)); [|exfalso; lia].
  destruct (Z.ltb_spec (Z.of_nat (length pre + 1) + -1)
              (Z.of_nat (length pre + 1))); [|exfalso; lia].
  cbn [andb]. f_equal.
  replace (Z.to_nat (Z.of_nat (length pre + 1) + -1)) with (length pre)
    by lia.
  rewrite insert_app_r_alt by apply Nat.le_refl.
  now rewrite Nat.sub_diag.
Qed.

(** [Dense.compute_output_shape] has three outcomes. Its assertions fail
    on a shape of fewer than two entries and on a shape whose last entry
    is unknown or zero; on every other shape it returns the shape with
    the last entry replaced by [units], which is what
    [ZeroesLayer.compute_output_shape] returns for [output_dim = units].
    It never lets an [IndexError] through, whereas [ZeroesLayer], which
    asserts nothing, raises one on the empty shape and accepts an unknown
    or zero last entry. *)
Theorem dense_output_shape_cases :
  forall (units : Z) (input_shape : list dim),
    ((length input_shape < 2)%nat ->
     Dense_compute_output_shape units input_shape = AssertionError)
    /\ (forall pre : list dim,
           input_shape = pre ++ [None] \/ input_shape = pre ++ [Some 0] ->
           Dense_compute_output_shape units input_shape = AssertionError)
    /\ (forall (pre : list dim) (v : Z),
           input_shape = pre ++ [Some v] -> pre <> [] -> v <> 0 ->
           Dense_compute_output_shape units input_shape
           = Body (Ok (pre ++ [Some units]))
           /\ ZeroesLayer_compute_output_shape units input_shape
              = Ok (pre ++ [Some units]))
    /\ (forall e : exn,
           Dense_compute_output_shape units input_shape <> Body (Raise e))
    /\ (input_shape = [] ->
        ZeroesLayer_compute_output_shape units input_shape
        = Raise IndexError)
    /\ (forall (pre : list dim) (x : dim),
           input_shape = pre ++ [x] ->
           ZeroesLayer_compute_output_shape units input_shape
           = Ok (pre ++ [Some units])).
Proof.
  intros units input.
  assert (Hlen : forall (pre : list dim) (x : dim),
             (length (pre ++ [x]) =? 0)%nat = false).
  { intros pre x. rewrite length_app. cbn [length].
    apply Nat.eqb_neq. lia. }
  split; [|split; [|split; [|split; [|split]]]].
  - intros Hlt. unfold Dense_compute_output_shape.
    destruct input as [|a [|a' t]]; [reflexivity | reflexivity |].
    cbn in Hlt. lia.
  - intros pre [-> | ->]; unfold Dense_compute_output_shape;
      rewrite Hlen; cbn [negb andb];
      destruct (2 <=? length _)%nat; cbn [negb]; try reflexivity;
      rewrite py_index_last; reflexivity.
  - intros pre v -> Hpre Hv. split.
    + unfold Dense_compute_output_shape. rewrite Hlen. cbn [negb andb].
      replace (2 <=? length (pre ++ [Some v]))%nat with true.
      * cbn [negb]. rewrite py_index_last. cbn [truthy].
        destruct (Z.eqb_spec v 0); [contradiction|]. cbn [negb].
        now rewrite py_setitem_last.
      * symmetry. apply Nat.leb_le. rewrite length_app. cbn [length].
        destruct pre; [contradiction | cbn [length]; lia].
    + apply py_setitem_last.
  - intros e. unfold Dense_compute_output_shape.
    induction input as [|a t _] using rev_ind; [discriminate|].
    rewrite Hlen. cbn [negb andb].
    destruct (2 <=? length _)%nat; cbn [negb]; [|discriminate].
    rewrite py_index_last.
    destruct (truthy a); cbn [negb]; [|discriminate].
    rewrite py_setitem_last. discriminate.
  - intros ->. reflexivity.
  - intros pre x ->. apply py_setitem_last.
Qed.

Lemma dense_output_shape_cases_witness :
  Dense_compute_output_shape 8 [None] = AssertionError
  /\ Dense_compute_output_shape 8 [None; Some 0] = AssertionError
  /\ Dense_compute_output_shape 8 [None; Some 5] = Body (Ok [None; Some 8])
  /\ ZeroesLayer_compute_output_shape 8 [] = Raise IndexError
  /\ ZeroesLayer_compute_output_shape 8 [None; None] = Ok [None; Some 8].
Proof.
  split; [|split; [|split; [|split]]].
  - apply (dense_output_shape_cases 8 [None]). cbn. lia.
  - apply (dense_output_shape_cases 8 [None; Some 0]) with (pre := [None]).
    right. reflexivity.
  - apply (dense_output_shape_cases 8 [None; Some 5]) with (pre := [None])
                                                       (v := 5);
      [reflexivity | discriminate | lia].
  - apply (dense_output_shape_cases 8 []). reflexivity.
  - apply (dense_output_shape_cases 8 [None; None]) with (pre := [None])
                                                       (x := None).
    reflexivity.
Defined.

(** ** [Reshape] on unknown input, and [Reshape] against [Flatten] *)

Lemma existsb_is_None_In (rest : list dim) :
  In None rest -> existsb is_None rest = true.
Proof.
  intros H. apply existsb_exists. exists None. split; [exact H | reflexivity].
Qed.

Lemma forallb_truthy_values (rest : list dim) :
  forallb truthy rest = true ->
  exists vs : list Z, rest = map Some vs /\ Forall (fun v => v <> 0) vs.
Proof.
  induction rest as [|d rest IH]; intros H.
  - exists []. split; [reflexivity | constructor].
  - cbn [forallb] in H. apply andb_prop in H. destruct H as [Hd Hrest].
    destruct (IH Hrest) as (vs & -> & Hvs).
    destruct d as [v|]; [|discriminate].
    exists (v :: vs). split; [reflexivity|].
    constructor; [|exact Hvs].
    cbn [truthy] in Hd. intros ->. discriminate.
Qed.

Lemma positive_target (ds : list Z) :
  Forall (fun d => 0 < d) ds ->
  negatives ds = 0%nat /\ known_product ds = product ds /\ 0 < product ds.
Proof.
  induction 1 as [|d ds Hd _ (IH1 & IH2 & IH3)].
  - split; [reflexivity | split; [reflexivity | reflexivity]].
  - rewrite negatives_cons, known_product_cons.
    destruct (Z.ltb_spec d 0); [exfalso; lia|].
    rewrite IH2. split; [exact IH1 | split; [reflexivity|]].
    change (product (d :: ds)) with (d * product ds). lia.
Qed.

(** As soon as one non-batch entry of the input shape is unknown,
    [Reshape.compute_output_shape] checks nothing: it returns the batch
    entry followed by the target shape with each -1 turned into [None]
    and every other entry, negative ones included, as it stands. A target
    with two or more negative entries is accepted this way although it is
    rejected with [ValueError] for every fully known input. *)
Theorem reshape_unknown_input_skips_checks :
  forall (self : Reshape) (b : dim) (rest : list dim),
    In None rest ->
    (exists out : list dim,
        Reshape_compute_output_shape self (b :: rest) = Ok (b :: out)
        /\ length out = length (target_shape self)
        /\ (forall (i : nat) (s : Z),
               target_shape self !! i = Some s ->
               out !! i = Some (if s =? -1 then None else Some s)))
    /\ ((1 < negatives (target_shape self))%nat ->
        forall vs : list Z,
          Reshape_compute_output_shape self (b :: map Some vs)
          = Raise ValueError).
Proof.
  intros [t] b rest Hin. cbn [target_shape]. split.
  - exists (map (fun s => if negb (s =? -1) then Some s else None) t).
    split; [|split].
    + unfold Reshape_compute_output_shape. cbn [target_shape].
      change (slice_from 1 (b :: rest)) with rest.
      now rewrite (existsb_is_None_In rest Hin).
    + apply length_map.
    + intros i s Hs. rewrite list_lookup_fmap, Hs. cbn. now destruct (s =? -1).
  - intros Hneg vs.
    unfold Reshape_compute_output_shape. cbn [target_shape].
    change (slice_from 1 (b :: map Some vs)) with (map Some vs).
    rewrite existsb_is_None_known.
    change (item (b :: map Some vs) 0) with (Ok b). cbn [rbind].
    now rewrite (_fix_unknown_dimension_two_negatives _ t Hneg).
Qed.

Lemma reshape_unknown_input_skips_checks_witness :
  (exists out : list dim,
      Reshape_compute_output_shape (MkReshape [-1; -1; 4])
        [None; Some 8; None] = Ok (None :: out)
      /\ length out = 3%nat
      /\ (forall (i : nat) (s : Z),
             ([-1; -1; 4] : list Z) !! i = Some s ->
             out !! i = Some (if s =? -1 then None else Some s)))
  /\ ((1 < negatives [-1; -1; 4]%Z)%nat ->
      forall vs : list Z,
        Reshape_compute_output_shape (MkReshape [-1; -1; 4])
          (None :: map Some vs)
        = Raise ValueError).
Proof.
  apply (reshape_unknown_input_skips_checks (MkReshape [-1; -1; 4]) None
           [Some 8; None]).
  right. left. reflexivity.
Defined.

(** [Reshape((-1,))] flattens. On an input shape whose non-batch entries
    are known and fit a signed 64-bit integer,
    [Reshape((-1,)).compute_output_shape] returns the batch entry and the
    element count, and that is the shape [Flatten.compute_output_shape]
    returns whenever it returns one: the two differ only in that
    [Flatten] refuses a zero entry, where [Reshape((-1,))] still
    answers. On an input with an unknown entry, of whatever size the
    other entries are, [Reshape((-1,))] returns the batch entry and
    [None], where [Flatten] raises [ValueError]. *)
Theorem reshape_minus_one_flattens :
  forall (fl : Flatten) (b : dim) (rest : list dim),
    (forall vs : list Z,
        rest = map Some vs ->
        Forall int64_range vs ->
        Reshape_compute_output_shape (MkReshape [-1]) (b :: rest)
        = Ok [b; Some (element_count vs)]
        /\ (forall out : list dim,
               Flatten_compute_output_shape fl (b :: rest) = Ok out ->
               Reshape_compute_output_shape (MkReshape [-1]) (b :: rest)
               = Ok out)
        /\ (In 0 vs ->
            Flatten_compute_output_shape fl (b :: rest) = Raise ValueError))
    /\ (In None rest ->
        Reshape_compute_output_shape (MkReshape [-1]) (b :: rest)
        = Ok [b; None]
        /\ Flatten_compute_output_shape fl (b :: rest) = Raise ValueError).
Proof.
  intros fl b rest. split.
  - intros vs -> Hvs.
    assert (Hknown : Reshape_compute_output_shape (MkReshape [-1])
                       (b :: map Some vs)
                     = Ok [b; Some (element_count vs)]).
    { unfold Reshape_compute_output_shape. cbn [target_shape].
      change (slice_from 1 (b :: map Some vs)) with (map Some vs).
      rewrite existsb_is_None_known.
      change (item (b :: map Some vs) 0) with (Ok b). cbn [rbind].
      rewrite (_fix_unknown_dimension_spec vs [-1] Hvs eq_refl).
      change (negatives [-1]) with 1%nat. cbv iota.
      change (known_product [-1]) with 1.
      change (1 =? 0) with false. rewrite Z.mod_1_r. cbn [orb negb Z.eqb].
      rewrite Z.div_1_r. reflexivity. }
    split; [exact Hknown|]. split.
    + intros out H. rewrite Hknown.
      unfold Flatten_compute_output_shape in H.
      change (slice_from 1 (b :: map Some vs)) with (map Some vs) in H.
      destruct (forallb truthy (map Some vs)); cbn [negb] in H;
        [|discriminate].
      change (item (b :: map Some vs) 0) with (Ok b) in H.
      cbn [rbind] in H.
      rewrite (np_prod_known vs Hvs) in H. cbn [rbind] in H.
      now injection H as <-.
    + intros Hzero. unfold Flatten_compute_output_shape.
      change (slice_from 1 (b :: map Some vs)) with (map Some vs).
      rewrite forallb_truthy_falsy; [reflexivity|].
      apply Exists_exists. exists (Some 0). split; [|now right].
      apply list_elem_of_In, in_map, Hzero.
  - intros Hin. split.
    + unfold Reshape_compute_output_shape. cbn [target_shape].
      change (slice_from 1 (b :: rest)) with rest.
      now rewrite (existsb_is_None_In rest Hin).
    + unfold Flatten_compute_output_shape.
      change (slice_from 1 (b :: rest)) with rest.
      rewrite forallb_truthy_falsy; [reflexivity|].
      apply Exists_exists. exists None. split; [|now left].
      now apply list_elem_of_In.
Qed.

Lemma reshape_minus_one_flattens_witness :
  Reshape_compute_output_shape (MkReshape [-1]) [None; Some 2; Some 3]
  = Ok [None; Some (element_count [2; 3])]
  /\ Reshape_compute_output_shape (MkReshape [-1]) [None; Some 2; Some 0]
     = Ok [None; Some (element_count [2; 0])]
  /\ Flatten_compute_output_shape (MkFlatten channels_last)
       [None; Some 2; Some 0] = Raise ValueError
  /\ Reshape_compute_output_shape (MkReshape [-1]) [Some 4; Some 2; None]
     = Ok [Some 4; None]
  /\ Flatten_compute_output_shape (MkFlatten channels_last)
       [Some 4; Some 2; None] = Raise ValueError.
Proof.
  destruct (reshape_minus_one_flattens (MkFlatten channels_last) None
              [Some 2; Some 3]) as [H23 _].
  destruct (H23 [2; 3] eq_refl) as (Hflat & _ & _);
    [repeat constructor; unfold int64_range; lia|].
  destruct (reshape_minus_one_flattens (MkFlatten channels_last) None
              [Some 2; Some 0]) as [H20 _].
  destruct (H20 [2; 0] eq_refl) as (Hstill & _ & Hzero);
    [repeat constructor; unfold int64_range; lia|].
  destruct (reshape_minus_one_flattens (MkFlatten channels_last) (Some 4)
              [Some 2; None]) as [_ Hnone].
  destruct Hnone as [Hr Hf]; [right; left; reflexivity|].
  split; [exact Hflat|]. split; [exact Hstill|].
  split; [apply Hzero; right; left; reflexivity|].
  split; [exact Hr | exact Hf].
Defined.

Lemma positive_entries_fit (ds : list Z) :
  Forall (fun d => 0 < d) ds -> product ds < 2 ^ 63 ->
  Forall int64_range ds.
Proof.
  intros Hpos. revert Hpos. induction 1 as [|d ds Hd Hpos IH]; intros Hfit;
    [constructor|].
  destruct (positive_target ds Hpos) as (_ & _ & Hprod).
  change (product (d :: ds)) with (d * product ds) in Hfit.
  constructor.
  - unfold int64_range. nia.
  - apply IH. nia.
Qed.

(** Flattening and reshaping back. For positive dimensions [ds] whose
    product fits 64 bits, [Flatten.compute_output_shape] followed by
    [Reshape(ds).compute_output_shape] returns the shape it started
    from. *)
Theorem flatten_then_reshape_round_trip :
  forall (fl : Flatten) (b : dim) (ds : list Z),
    Forall (fun d => 0 < d) ds ->
    product ds < 2 ^ 63 ->
    (flat <- Flatten_compute_output_shape fl (b :: map Some ds) ;;
     Reshape_compute_output_shape (MkReshape ds) flat)
    = Ok (b :: map Some ds).
Proof.
  intros fl b ds Hpos Hfit.
  destruct (positive_target ds Hpos) as (Hneg & Hknown & Hprod).
  pose proof (positive_entries_fit ds Hpos Hfit) as Hds.
  assert (Hcount : element_count ds = product ds)
    by (apply int64_wrap_small; lia).
  assert (Hflat : Flatten_compute_output_shape fl (b :: map Some ds)
                  = Ok [b; Some (product ds)]).
  { unfold Flatten_compute_output_shape.
    change (slice_from 1 (b :: map Some ds)) with (map Some ds).
    rewrite forallb_truthy_known.
    - change (item (b :: map Some ds) 0) with (Ok b). cbn [negb rbind].
      rewrite (np_prod_known ds Hds). cbn [rbind]. now rewrite Hcount.
    - eapply Forall_impl; [exact Hpos|]. cbn. intros d Hd. lia. }
  rewrite Hflat. cbn [rbind].
  assert (Hone : element_count [product ds] = product ds).
  { unfold element_count. change (product [product ds])
      with (product ds * 1). rewrite Z.mul_1_r. apply int64_wrap_small.
    lia. }
  destruct (Reshape_known_cases (MkReshape ds) b [product ds])
    as [[Herr _] | (_ & Hok & _)].
  { repeat constructor; unfold int64_range; lia. }
  { cbn [target_shape]. now rewrite Hknown. }
  - exfalso. cbn [target_shape] in Herr. unfold reshape_error in Herr.
    rewrite Hone, Hknown in Herr.
    destruct Herr as [H | [[H _] | [_ H]]].
    + rewrite Hneg in H. lia.
    + rewrite Hneg in H. discriminate.
    + now apply H.
  - cbn [target_shape map] in Hok. rewrite Hok.
    now rewrite (replace_negative_none _ ds Hneg).
Qed.

Lemma flatten_then_reshape_round_trip_witness :
  (flat <- Flatten_compute_output_shape (MkFlatten channels_last)
             [None; Some 2; Some 3; Some 4] ;;
   Reshape_compute_output_shape (MkReshape [2; 3; 4]) flat)
  = Ok [None; Some 2; Some 3; Some 4].
Proof.
  apply (flatten_then_reshape_round_trip (MkFlatten channels_last) None
           [2; 3; 4]).
  - repeat constructor.
  - reflexivity.
Defined.

(** ** [autocrop_array_shapes] *)

Lemma column_lookup {A : Type} (i : nat) (M : list (list A)) :
  Forall (fun r => (i < length r)%nat) M ->
  forall k : nat, column i M !! k = M !! k ≫= (fun r => r !! i).
Proof.
  induction 1 as [|r M Hr _ IH]; intros k; [reflexivity|].
  unfold column. cbn [omap list_omap].
  destruct (lookup_lt_is_Some_2 r i Hr) as [x Hx]. rewrite Hx.
  destruct k as [|k]; [cbn; now rewrite Hx|].
  exact (IH k).
Qed.

Lemma column_length {A : Type} (i : nat) (M : list (list A)) :
  Forall (fun r => (i < length r)%nat) M ->
  length (column i M) = length M.
Proof.
  induction 1 as [|r M Hr _ IH]; [reflexivity|].
  unfold column. cbn [omap list_omap].
  destruct (lookup_lt_is_Some_2 r i Hr) as [x Hx]. rewrite Hx.
  cbn [length]. f_equal. exact IH.
Qed.

Lemma rectangular_lt {A : Type} (M : list (list A)) (n i : nat) :
  Forall (fun r => length r = n) M -> (i < n)%nat ->
  Forall (fun r => (i < length r)%nat) M.
Proof.
  intros H Hi. eapply Forall_impl; [exact H|]. cbn. intros r ->. exact Hi.
Qed.

(** [zip( *rows)] of rows of one length [n]: the [n] columns. *)
Lemma zip_star_columns {A : Type} (M : list (list A)) (n : nat) :
  M <> [] -> Forall (fun r => length r = n) M ->
  zip_star M = map (fun i => column i M) (seq 0 n).
Proof.
  induction M as [|r M IH]; intros Hne Hrect; [contradiction|].
  apply Forall_cons in Hrect. destruct Hrect as [Hr Hrect].
  destruct M as [|r' M'].
  - cbn [zip_star]. apply list_eq. intros i.
    rewrite !list_lookup_fmap.
    destruct (Nat.lt_ge_cases i n) as [Hi | Hi].
    + rewrite lookup_seq_lt by exact Hi.
      destruct (lookup_lt_is_Some_2 r i) as [x Hx]; [lia|].
      rewrite Hx. cbn. unfold column. cbn. now rewrite Hx.
    + rewrite lookup_seq_ge by exact Hi.
      rewrite lookup_ge_None_2 by lia. reflexivity.
  - change (zip_star (r :: r' :: M'))
      with (zip_with cons r (zip_star (r' :: M'))).
    rewrite (IH ltac:(discriminate) Hrect).
    apply list_eq. intros i.
    rewrite lookup_zip_with, !list_lookup_fmap.
    destruct (Nat.lt_ge_cases i n) as [Hi | Hi].
    + rewrite lookup_seq_lt by exact Hi.
      destruct (lookup_lt_is_Some_2 r i) as [x Hx]; [lia|].
      rewrite Hx. cbn. unfold column. cbn [omap list_omap].
      now rewrite Hx.
    + rewrite lookup_seq_ge by exact Hi.
      rewrite lookup_ge_None_2 by lia. reflexivity.
Qed.

Lemma min_sh_axis_min (sh : list dim) :
  sh <> [] -> min_sh sh = Ok (axis_min sh).
Proof.
  intros Hne. unfold min_sh, axis_min.
  destruct (existsb is_None sh) eqn:E; [reflexivity|].
  destruct sh as [|[v|] sh]; [contradiction | | discriminate].
  reflexivity.
Qed.

Lemma axis_min_replicate (m : nat) (v : dim) :
  (0 < m)%nat -> axis_min (replicate m v) = v.
Proof.
  intros Hm. destruct m as [|m]; [lia|]. clear Hm.
  unfold axis_min. destruct v as [z|]; [|reflexivity].
  replace (existsb is_None (replicate (S m) (Some z))) with false.
  - cbn [replicate omap list_omap id]. f_equal.
    induction m as [|m IH]; [reflexivity|].
    cbn [replicate omap list_omap id fold_left].
    rewrite Z.min_id. exact IH.
  - symmetry. induction m as [|m IH]; [reflexivity|].
    cbn [replicate existsb is_None orb] in *. exact IH.
Qed.

(** The crop modes after padding, on the axes that exist. *)
Lemma padded_cropping_lookup (cropping : list (option string)) (n i : nat) :
  (i < n)%nat ->
  exists cr : option string,
    (if (length cropping <? n)%nat
     then cropping ++ replicate (n - length cropping) None
     else cropping) !! i = Some cr
    /\ match cr with
       | Some _ => true
       | None => false
       end = is_cropped cropping i
    /\ (forall mode, cr = Some mode -> cropping !! i = Some (Some mode)).
Proof.
  intros Hi. unfold is_cropped.
  destruct (Nat.ltb_spec (length cropping) n) as [Hlt | Hge].
  - destruct (Nat.lt_ge_cases i (length cropping)) as [Hin | Hout].
    + rewrite lookup_app_l by exact Hin.
      destruct (lookup_lt_is_Some_2 cropping i Hin) as [cr Hcr].
      exists cr. rewrite Hcr. split; [reflexivity|].
      split; [now destruct cr | now intros mode ->].
    + rewrite lookup_app_r by exact Hout.
      rewrite lookup_replicate_2 by lia.
      exists None. rewrite lookup_ge_None_2 by exact Hout.
      split; [reflexivity|]. split; [reflexivity | discriminate].
  - destruct (lookup_lt_is_Some_2 cropping i) as [cr Hcr]; [lia|].
    exists cr. rewrite Hcr. split; [reflexivity|].
    split; [now destruct cr | now intros mode ->].
Qed.

Lemma padded_cropping_length (cropping : list (option string)) (n : nat) :
  (n <= length (if (length cropping <? n)%nat
                then cropping ++ replicate (n - length cropping) None
                else cropping))%nat.
Proof.
  destruct (Nat.ltb_spec (length cropping) n).
  - rewrite length_app, length_replicate. lia.
  - lia.
Qed.

(** The shapes after cropping, in closed form. *)
Lemma autocrop_closed_form (shapes : list (list dim))
    (cropping : list (option string)) (n : nat) :
  shapes <> [] -> (0 < n)%nat ->
  Forall (fun sh => length sh = n) shapes ->
  (forall (i : nat) (mode : string),
      (i < n)%nat -> cropping !! i = Some (Some mode) ->
      is_crop_mode mode = true) ->
  autocrop_array_shapes shapes (Some cropping)
  = Ok (map (cropped_shape shapes cropping) shapes).
Proof.
  intros Hne Hn Hrect Hmodes.
  assert (Hm : (0 < length shapes)%nat)
    by (destruct shapes; [contradiction | cbn; lia]).
  destruct (lookup_lt_is_Some_2 shapes 0 Hm) as [first Hfirst0].
  assert (Hfirst : length first = n).
  { rewrite Forall_forall in Hrect. apply Hrect.
    eapply list_elem_of_lookup_2; eauto. }
  unfold autocrop_array_shapes.
  rewrite (item_lookup shapes 0 first Hfirst0). cbn [rbind].
  rewrite Hfirst.
  replace (forallb (fun sh => (length sh =? n)%nat) shapes) with true.
  2:{ symmetry. apply forallb_forall. intros sh Hsh.
      rewrite Forall_forall in Hrect. apply Nat.eqb_eq, Hrect.
      now apply list_elem_of_In. }
  cbn [negb].
  set (cropping' := if (length cropping <? n)%nat
                    then cropping ++ replicate (n - length cropping) None
                    else cropping).
  set (g := fun i : nat =>
              if is_cropped cropping i
              then replicate (length shapes) (axis_min (column i shapes))
              else column i shapes).
  assert (HR : rmap crop_axis (zip (zip_star shapes) cropping')
               = Ok (map g (seq 0 n))).
  { rewrite (zip_star_columns shapes n Hne Hrect).
    apply rmap_pointwise.
    - etransitivity; [apply length_zip_with|].
      rewrite !length_map, length_seq.
      pose proof (padded_cropping_length cropping n) as Hl.
      fold cropping' in Hl. lia.
    - intros i [col cr] Hi.
      apply lookup_zip_with_Some in Hi.
      destruct Hi as (col' & cr' & Heq & Hcol & Hcr).
      injection Heq as <- <-.
      rewrite list_lookup_fmap in Hcol.
      destruct (seq 0 n !! i) as [j|] eqn:Hj; [|discriminate].
      apply lookup_seq in Hj. destruct Hj as [-> Hlt].
      cbn in Hcol. injection Hcol as <-.
      exists (g i). split.
      + rewrite list_lookup_fmap, lookup_seq_lt by exact Hlt. reflexivity.
      + destruct (padded_cropping_lookup cropping n i Hlt)
          as (cr2 & Hcr2 & Hflag & Hsrc).
        fold cropping' in Hcr2. rewrite Hcr in Hcr2. injection Hcr2 as <-.
        unfold crop_axis, g. rewrite <- Hflag.
        destruct cr as [mode|]; [|reflexivity].
        rewrite (Hmodes i mode Hlt (Hsrc mode eq_refl)).
        assert (Hlen : length (column i shapes) = length shapes)
          by (apply column_length; eapply rectangular_lt; eauto).
        rewrite min_sh_axis_min.
        * cbn [rbind]. now rewrite Hlen.
        * intros E. rewrite E in Hlen. cbn in Hlen. lia. }
  rewrite HR. cbn [rbind]. f_equal.
  assert (HgLen : Forall (fun r : list dim => length r = length shapes)
                    (map g (seq 0 n))).
  { apply Forall_forall. intros r Hr. apply list_elem_of_fmap in Hr.
    destruct Hr as (i & -> & Hi). apply elem_of_seq in Hi.
    unfold g. destruct (is_cropped cropping i).
    - apply length_replicate.
    - apply column_length. eapply rectangular_lt; eauto. lia. }
  rewrite (zip_star_columns (map g (seq 0 n)) (length shapes)).
  2:{ destruct n; [lia | discriminate]. }
  2:{ exact HgLen. }
  apply list_eq. intros k. rewrite !list_lookup_fmap.
  destruct (Nat.lt_ge_cases k (length shapes)) as [Hk | Hk].
  - rewrite lookup_seq_lt by exact Hk.
    destruct (lookup_lt_is_Some_2 shapes k Hk) as [sh Hsh].
    rewrite Hsh. cbn. f_equal.
    assert (Hshn : length sh = n).
    { rewrite Forall_forall in Hrect. apply Hrect.
      eapply list_elem_of_lookup_2; eauto. }
    apply list_eq. intros i.
    rewrite column_lookup.
    2:{ eapply Forall_impl; [exact HgLen|]. cbn. intros r ->. exact Hk. }
    unfold cropped_shape. rewrite list_lookup_imap, list_lookup_fmap.
    destruct (Nat.lt_ge_cases i n) as [Hi | Hi].
    + rewrite lookup_seq_lt by exact Hi. cbn.
      destruct (lookup_lt_is_Some_2 sh i) as [d Hd]; [lia|].
      rewrite Hd. cbn. unfold g.
      destruct (is_cropped cropping i).
      * now apply lookup_replicate_2.
      * rewrite column_lookup by (eapply rectangular_lt; eauto).
        rewrite Hsh. cbn. exact Hd.
    + rewrite lookup_seq_ge by exact Hi.
      rewrite lookup_ge_None_2 by lia. reflexivity.
  - rewrite lookup_seq_ge by exact Hk.
    rewrite lookup_ge_None_2 by exact Hk. reflexivity.
Qed.

Lemma rmap_raise_uniform {A B : Type} (f : A -> result B) (err : exn)
    (l : list A) :
  (forall x e, f x = Raise e -> e = err) ->
  Exists (fun x => is_raise (f x)) l ->
  rmap f l = Raise err.
Proof.
  intros Honly. induction 1 as [x l [e He] | x l _ IH].
  - cbn [rmap]. rewrite He. cbn [rbind]. f_equal. exact (Honly x e He).
  - cbn [rmap]. destruct (f x) as [y|e] eqn:E; cbn [rbind].
    + now rewrite IH.
    + f_equal. exact (Honly x e E).
Qed.

Lemma crop_axis_raises_ValueError (e : list dim * option string) (err : exn) :
  crop_axis e = Raise err -> err = ValueError.
Proof.
  destruct e as [sh [mode|]]; unfold crop_axis; [|discriminate].
  destruct (is_crop_mode mode); [|now intros [= <-]].
  unfold min_sh. destruct (existsb is_None sh); [discriminate|].
  destruct (omap id sh); cbn; [now intros [= <-] | discriminate].
Qed.

Lemma fold_min_spec (vs : list Z) :
  forall v : Z,
    In (fold_left Z.min vs v) (v :: vs)
    /\ (forall w, In w (v :: vs) -> fold_left Z.min vs v <= w).
Proof.
  induction vs as [|u vs IH]; intros v.
  - cbn. split; [now left|]. intros w [<- | []]. lia.
  - cbn [fold_left]. destruct (IH (Z.min v u)) as [Hin Hle]. split.
    + destruct Hin as [Hin | Hin].
      * rewrite <- Hin.
        destruct (Z.min_spec v u) as [[_ ->] | [_ ->]];
          [now left | right; now left].
      * right. right. exact Hin.
    + intros w [<- | [<- | Hw]].
      * specialize (Hle (Z.min v u) (or_introl eq_refl)). lia.
      * specialize (Hle (Z.min v u) (or_introl eq_refl)). lia.
      * apply Hle. now right.
Qed.

Lemma existsb_is_None_spec (l : list dim) :
  existsb is_None l = true <-> In None l.
Proof.
  rewrite existsb_exists. split.
  - intros ([v|] & Hin & Hx); [discriminate | exact Hin].
  - intros Hin. exists None. split; [exact Hin | reflexivity].
Qed.

Lemma omap_id_In (l : list dim) (v : Z) :
  In v (omap id l) <-> In (Some v) l.
Proof.
  rewrite <- !list_elem_of_In, list_elem_of_omap. split.
  - intros (x & Hx & E). cbn in E. now subst x.
  - intros H. exists (Some v). split; [exact H | reflexivity].
Qed.

(** The smallest size of an axis: unknown exactly when some size is, and
    otherwise one of the sizes, below all of them. *)
Lemma axis_min_spec (sizes : list dim) :
  sizes <> [] ->
  (axis_min sizes = None <-> In None sizes)
  /\ (forall v : Z,
         axis_min sizes = Some v ->
         In (Some v) sizes
         /\ (forall w : Z, In (Some w) sizes -> v <= w)).
Proof.
  intros Hne. unfold axis_min.
  destruct (existsb is_None sizes) eqn:E.
  - apply existsb_is_None_spec in E. split; [tauto | discriminate].
  - assert (Hno : ~ In None sizes).
    { intros H. apply existsb_is_None_spec in H. congruence. }
    destruct (omap id sizes) as [|u us] eqn:Hvals.
    + exfalso. destruct sizes as [|[v|] sizes]; [contradiction | |].
      * discriminate Hvals.
      * apply Hno. now left.
    + destruct (fold_min_spec us u) as [Hin Hle]. split.
      * split; [discriminate | contradiction].
      * intros v [= <-]. rewrite <- Hvals in Hin, Hle. split.
        -- now apply omap_id_In.
        -- intros w Hw. apply Hle. now apply omap_id_In.
Qed.

Lemma column_In {A : Type} (i : nat) (shapes : list (list A)) (d : A) :
  In d (column i shapes)
  <-> exists sh, In sh shapes /\ sh !! i = Some d.
Proof.
  unfold column. rewrite <- list_elem_of_In, list_elem_of_omap.
  split; intros (sh & H1 & H2); exists sh; split; try exact H2;
    now apply list_elem_of_In.
Qed.

(** [autocrop_array_shapes] with crop modes: what it refuses. No shapes
    at all are an [IndexError]; shapes of different ranks are a
    [ValueError]; so is a crop mode other than ['lower'], ['center'],
    ['upper'] or [None] on one of the axes the shapes have. Shapes
    without any axis are not refused, but the result is the empty list,
    however many shapes were given. *)
Theorem autocrop_refusals :
  forall (shapes : list (list dim)) (cropping : list (option string)),
    (shapes = [] ->
     autocrop_array_shapes shapes (Some cropping) = Raise IndexError)
    /\ (forall (first : list dim) (rest : list (list dim)),
           shapes = first :: rest ->
           Exists (fun sh => length sh <> length first) rest ->
           autocrop_array_shapes shapes (Some cropping) = Raise ValueError)
    /\ (forall (n i : nat) (mode : string),
           shapes <> [] ->
           Forall (fun sh => length sh = n) shapes ->
           (i < n)%nat ->
           cropping !! i = Some (Some mode) ->
           is_crop_mode mode = false ->
           autocrop_array_shapes shapes (Some cropping) = Raise ValueError)
    /\ (shapes <> [] ->
        Forall (fun sh => sh = []) shapes ->
        autocrop_array_shapes shapes (Some cropping) = Ok []).
Proof.
  intros shapes cropping. split; [|split; [|split]].
  - intros ->. reflexivity.
  - intros first rest -> Hex. unfold autocrop_array_shapes.
    change (item (first :: rest) 0) with (Ok first). cbn [rbind].
    replace (forallb (fun sh => (length sh =? length first)%nat)
               (first :: rest)) with false; [reflexivity|].
    symmetry. cbn [forallb]. rewrite Nat.eqb_refl. cbn [andb].
    apply not_true_is_false. intros Hall.
    rewrite forallb_forall in Hall. apply Exists_exists in Hex.
    destruct Hex as (sh & Hin & Hlen). apply Hlen, Nat.eqb_eq, Hall.
    now apply list_elem_of_In.
  - intros n i mode Hne Hrect Hi Hcr Hbad.
    assert (Hm : (0 < length shapes)%nat)
      by (destruct shapes; [contradiction | cbn; lia]).
    destruct (lookup_lt_is_Some_2 shapes 0 Hm) as [first Hfirst0].
    assert (Hfirst : length first = n).
    { rewrite Forall_forall in Hrect. apply Hrect.
      eapply list_elem_of_lookup_2; eauto. }
    unfold autocrop_array_shapes.
    rewrite (item_lookup shapes 0 first Hfirst0). cbn [rbind].
    rewrite Hfirst.
    replace (forallb (fun sh => (length sh =? n)%nat) shapes) with true.
    2:{ symmetry. apply forallb_forall. intros sh Hsh.
        rewrite Forall_forall in Hrect. apply Nat.eqb_eq, Hrect.
        now apply list_elem_of_In. }
    cbn [negb].
    rewrite (rmap_raise_uniform crop_axis ValueError); [reflexivity | |].
    + intros x e. apply crop_axis_raises_ValueError.
    + apply Exists_exists.
      exists (column i shapes, Some mode). split.
      * apply (list_elem_of_lookup_2 _ i).
        apply lookup_zip_with_Some.
        exists (column i shapes), (Some mode).
        split; [reflexivity|]. split.
        -- rewrite (zip_star_columns shapes n Hne Hrect).
           rewrite list_lookup_fmap, lookup_seq_lt by exact Hi.
           reflexivity.
        -- destruct (padded_cropping_lookup cropping n i Hi)
             as (cr & Hcr' & _ & _).
           assert (Hin : (i < length cropping)%nat)
             by (eapply lookup_lt_Some; eauto).
           destruct (length cropping <? n)%nat.
           ++ rewrite lookup_app_l by exact Hin. exact Hcr.
           ++ exact Hcr.
      * exists ValueError. unfold crop_axis. now rewrite Hbad.
  - intros Hne Hempty.
    assert (Hrect : Forall (fun sh : list dim => length sh = 0%nat) shapes).
    { eapply Forall_impl; [exact Hempty|]. cbn. now intros sh ->. }
    destruct shapes as [|first rest]; [contradiction|].
    unfold autocrop_array_shapes.
    change (item (first :: rest) 0) with (Ok first). cbn [rbind].
    assert (Hfirst : first = []) by (now apply Forall_cons in Hempty).
    rewrite Hfirst in *. cbn [length].
    replace (forallb (fun sh => (length sh =? 0)%nat) ([] :: rest))
      with true.
    2:{ symmetry. apply forallb_forall. intros sh Hsh.
        rewrite Forall_forall in Hrect. apply Nat.eqb_eq, Hrect.
        now apply list_elem_of_In. }
    cbn [negb].
    rewrite (zip_star_columns ([] :: rest) 0 Hne Hrect).
    reflexivity.
Qed.

Lemma autocrop_refusals_witness :
  autocrop_array_shapes [] (Some [Some "lower"]) = Raise IndexError
  /\ autocrop_array_shapes [[None; Some 3]; [None]] (Some [Some "lower"])
     = Raise ValueError
  /\ autocrop_array_shapes [[None; Some 3]; [None; Some 2]]
       (Some [None; Some "middle"])
     = Raise ValueError
  /\ autocrop_array_shapes [[]; []] (Some [Some "lower"]) = Ok [].
Proof.
  split; [|split; [|split]].
  - apply (autocrop_refusals [] [Some "lower"]). reflexivity.
  - apply (autocrop_refusals [[None; Some 3]; [None]] [Some "lower"])
      with (first := [None; Some 3]) (rest := [[None]]).
    + reflexivity.
    + left. cbn. lia.
  - apply (autocrop_refusals [[None; Some 3]; [None; Some 2]]
             [None; Some "middle"])
      with (n := 2%nat) (i := 1%nat) (mode := "middle").
    + discriminate.
    + repeat constructor.
    + lia.
    + reflexivity.
    + reflexivity.
  - apply (autocrop_refusals [[]; []] [Some "lower"]).
    + discriminate.
    + repeat constructor.
Defined.

(** [autocrop_array_shapes] on shapes of one rank [n >= 1] with valid
    crop modes returns as many shapes as it was given, each of rank [n].
    On an axis without crop mode every shape keeps its size. On an axis
    with a crop mode all shapes get the same size: [None] exactly when
    some shape is unknown there, and otherwise the smallest of the sizes
    the shapes have there. *)
Theorem autocrop_sizes :
  forall (shapes : list (list dim)) (cropping : list (option string))
         (n : nat),
    shapes <> [] -> (0 < n)%nat ->
    Forall (fun sh => length sh = n) shapes ->
    (forall (i : nat) (mode : string),
        (i < n)%nat -> cropping !! i = Some (Some mode) ->
        is_crop_mode mode = true) ->
    exists out : list (list dim),
      autocrop_array_shapes shapes (Some cropping) = Ok out
      /\ length out = length shapes
      /\ (forall (k i : nat) (sh : list dim) (d : dim),
             shapes !! k = Some sh -> sh !! i = Some d ->
             exists (o : list dim) (c : dim),
               out !! k = Some o /\ length o = n /\ o !! i = Some c
               /\ (is_cropped cropping i = false -> c = d)
               /\ (is_cropped cropping i = true ->
                   (c = None <->
                    exists sh', In sh' shapes /\ sh' !! i = Some None)
                   /\ (forall v : Z,
                          c = Some v ->
                          (exists sh', In sh' shapes
                                       /\ sh' !! i = Some (Some v))
                          /\ (forall sh' w, In sh' shapes ->
                                            sh' !! i = Some (Some w) ->
                                            v <= w)))).
Proof.
  intros shapes cropping n Hne Hn Hrect Hmodes.
  exists (map (cropped_shape shapes cropping) shapes).
  split; [now apply (autocrop_closed_form shapes cropping n)|].
  split; [apply length_map|].
  intros k i sh d Hsh Hd.
  exists (cropped_shape shapes cropping sh).
  exists (if is_cropped cropping i then axis_min (column i shapes) else d).
  assert (Hshn : length sh = n).
  { rewrite Forall_forall in Hrect. apply Hrect.
    eapply list_elem_of_lookup_2; eauto. }
  split; [now rewrite list_lookup_fmap, Hsh|].
  split; [unfold cropped_shape; now rewrite length_imap|].
  split; [unfold cropped_shape; now rewrite list_lookup_imap, Hd|].
  split; [now intros ->|].
  intros ->.
  assert (Hcol : column i shapes <> []).
  { intros E. assert (Hin : In d (column i shapes)).
    { apply column_In. exists sh. split; [|exact Hd].
      apply list_elem_of_In. eapply list_elem_of_lookup_2; eauto. }
    rewrite E in Hin. exact Hin. }
  destruct (axis_min_spec (column i shapes) Hcol) as [Hnone Hsome].
  split.
  - rewrite Hnone. apply column_In.
  - intros v Hv. destruct (Hsome v Hv) as [Hin Hle]. split.
    + now apply column_In.
    + intros sh' w Hsh' Hw. apply Hle. apply column_In. eauto.
Qed.

Lemma autocrop_sizes_witness :
  exists out : list (list dim),
    autocrop_array_shapes [[None; Some 3; Some 7]; [None; Some 2; Some 9]]
      (Some [None; Some "lower"]) = Ok out
    /\ length out = 2%nat.
Proof.
  destruct (autocrop_sizes [[None; Some 3; Some 7]; [None; Some 2; Some 9]]
              [None; Some "lower"] 3) as (out & Hout & Hlen & _).
  - discriminate.
  - lia.
  - repeat constructor.
  - intros i mode Hi H. destruct i as [|[|[|i]]]; try discriminate H.
    injection H as <-. reflexivity.
  - exists out. split; [exact Hout | exact Hlen].
Defined.

(** Cropping is idempotent: applying [autocrop_array_shapes] with the
    same crop modes to its own result changes nothing. *)
Theorem autocrop_idempotent :
  forall (shapes : list (list dim)) (cropping : list (option string))
         (n : nat),
    shapes <> [] -> (0 < n)%nat ->
    Forall (fun sh => length sh = n) shapes ->
    (forall (i : nat) (mode : string),
        (i < n)%nat -> cropping !! i = Some (Some mode) ->
        is_crop_mode mode = true) ->
    (out <- autocrop_array_shapes shapes (Some cropping) ;;
     autocrop_array_shapes out (Some cropping))
    = autocrop_array_shapes shapes (Some cropping).
Proof.
  intros shapes cropping n Hne Hn Hrect Hmodes.
  rewrite (autocrop_closed_form shapes cropping n Hne Hn Hrect Hmodes).
  cbn [rbind].
  set (out := map (cropped_shape shapes cropping) shapes).
  assert (Hout_ne : out <> [])
    by (subst out; destruct shapes; [contradiction | discriminate]).
  assert (Hout_rect : Forall (fun sh : list dim => length sh = n) out).
  { subst out. apply Forall_forall. intros o Ho.
    apply list_elem_of_fmap in Ho. destruct Ho as (sh & -> & Hsh).
    unfold cropped_shape. rewrite length_imap.
    rewrite Forall_forall in Hrect. now apply Hrect. }
  rewrite (autocrop_closed_form out cropping n Hout_ne Hn Hout_rect Hmodes).
  f_equal. apply list_eq. intros k. rewrite list_lookup_fmap.
  destruct (out !! k) as [o|] eqn:Ho; [|reflexivity].
  cbn. f_equal.
  assert (Hon : length o = n).
  { rewrite Forall_forall in Hout_rect. apply Hout_rect.
    eapply list_elem_of_lookup_2; eauto. }
  apply list_eq. intros i. unfold cropped_shape at 1.
  rewrite list_lookup_imap.
  destruct (o !! i) as [c|] eqn:Hc; [|reflexivity].
  cbn. f_equal.
  destruct (is_cropped cropping i) eqn:Hcrop; [|reflexivity].
  assert (Hi : (i < n)%nat) by (rewrite <- Hon; eapply lookup_lt_Some; eauto).
  assert (Hm : (0 < length shapes)%nat)
    by (destruct shapes; [contradiction | cbn; lia]).
  assert (Hentry : forall k' o', out !! k' = Some o' ->
                                 o' !! i = Some (axis_min (column i shapes))).
  { intros k' o' Ho'. subst out. rewrite list_lookup_fmap in Ho'.
    destruct (shapes !! k') as [sh|] eqn:Hsh; [|discriminate].
    cbn in Ho'. injection Ho' as <-.
    unfold cropped_shape. rewrite list_lookup_imap.
    destruct (lookup_lt_is_Some_2 sh i) as [d Hd].
    { rewrite Forall_forall in Hrect.
      rewrite (Hrect sh); [exact Hi|].
      eapply list_elem_of_lookup_2; eauto. }
    rewrite Hd. cbn. now rewrite Hcrop. }
  assert (Hcolumn : column i out
                    = replicate (length shapes)
                        (axis_min (column i shapes))).
  { apply list_eq. intros k'.
    rewrite column_lookup by (eapply rectangular_lt; eauto).
    destruct (out !! k') as [o'|] eqn:Ho'.
    - cbn. rewrite (Hentry k' o' Ho'). symmetry.
      apply lookup_replicate_2.
      apply lookup_lt_Some in Ho'. subst out.
      now rewrite length_map in Ho'.
    - cbn. symmetry. apply lookup_replicate_None.
      apply lookup_ge_None_1 in Ho'. subst out.
      now rewrite length_map in Ho'. }
  rewrite Hcolumn, (axis_min_replicate _ _ Hm).
  rewrite (Hentry k o Ho) in Hc. now injection Hc.
Qed.

Lemma autocrop_idempotent_witness :
  (out <- autocrop_array_shapes
            [[None; Some 3; Some 7]; [None; Some 2; Some 9]]
            (Some [None; Some "lower"]) ;;
   autocrop_array_shapes out (Some [None; Some "lower"]))
  = autocrop_array_shapes [[None; Some 3; Some 7]; [None; Some 2; Some 9]]
      (Some [None; Some "lower"]).
Proof.
  apply (autocrop_idempotent
           [[None; Some 3; Some 7]; [None; Some 2; Some 9]]
           [None; Some "lower"] 3).
  - discriminate.
  - lia.
  - repeat constructor.
  - intros i mode Hi H. destruct i as [|[|[|i]]]; try discriminate H.
    injection H as <-. reflexivity.
Defined.

(** ** [Concat] *)

Lemma enumerate_lookup {A : Type} (l : list A) (i : nat) :
  enumerate l !! i = (fun x => (i, x)) <$> l !! i.
Proof.
  unfold enumerate.
  etransitivity; [apply lookup_zip_with|].
  destruct (l !! i) as [x|] eqn:Hx.
  - rewrite lookup_seq_lt by (eapply lookup_lt_Some; eauto). reflexivity.
  - destruct (seq 0 (length l) !! i); reflexivity.
Qed.

Lemma first_known_replicate (m : nat) (x : dim) :
  (0 < m)%nat -> first_known (replicate m x) = x.
Proof.
  intros Hm. destruct m as [|m]; [lia|]. clear Hm. unfold first_known.
  destruct x as [v|]; [reflexivity|].
  induction m as [|m IH]; [reflexivity | exact IH].
Qed.

Lemma first_known_exists (sizes : list dim) (v : Z) :
  In (Some v) sizes ->
  exists w : Z, first_known sizes = Some w /\ In (Some w) sizes.
Proof.
  unfold first_known.
  induction sizes as [|[u|] sizes IH]; intros Hin; [contradiction | |].
  - exists u. split; [reflexivity | now left].
  - destruct Hin as [Hin | Hin]; [discriminate|].
    destruct (IH Hin) as (w & Hw & Hin'). exists w.
    split; [exact Hw | now right].
Qed.

Lemma omap_id_known (vs : list Z) : omap id (map Some vs) = vs.
Proof.
  induction vs as [|v vs IH]; [reflexivity|]. cbn. now rewrite IH.
Qed.

(** The position an axis number denotes in a sequence of [n] entries. *)
Lemma axis_position (ax : Z) (a n : nat) :
  (a < n)%nat ->
  ax = Z.of_nat a \/ ax = Z.of_nat a - Z.of_nat n ->
  (if 0 <=? ax then ax else Z.of_nat n + ax) = Z.of_nat a
  /\ (if ax <? 0 then Z.of_nat n + ax else ax) = Z.of_nat a.
Proof.
  intros Ha [-> | ->].
  - destruct (Z.leb_spec 0 (Z.of_nat a)); [|exfalso; lia].
    destruct (Z.ltb_spec (Z.of_nat a) 0); [exfalso; lia|]. now split.
  - destruct (Z.leb_spec 0 (Z.of_nat a - Z.of_nat n)); [exfalso; lia|].
    destruct (Z.ltb_spec (Z.of_nat a - Z.of_nat n) 0); [|exfalso; lia].
    split; lia.
Qed.

Lemma py_index_axis {A : Type} (l : list A) (ax : Z) (a : nat) (x : A) :
  l !! a = Some x ->
  ax = Z.of_nat a \/ ax = Z.of_nat a - Z.of_nat (length l) ->
  py_index l ax = Ok x.
Proof.
  intros Hx Hax.
  assert (Ha : (a < length l)%nat) by (eapply lookup_lt_Some; eauto).
  destruct (axis_position ax a (length l) Ha Hax) as [_ E].
  unfold py_index. rewrite E.
  destruct (Z.leb_spec 0 (Z.of_nat a)); [|exfalso; lia].
  destruct (Z.ltb_spec (Z.of_nat a) (Z.of_nat (length l))); [|exfalso; lia].
  cbn [andb]. rewrite Nat2Z.id. now apply item_lookup.
Qed.

Lemma py_setitem_axis {A : Type} (l : list A) (ax : Z) (a : nat) (x : A) :
  (a < length l)%nat ->
  ax = Z.of_nat a \/ ax = Z.of_nat a - Z.of_nat (length l) ->
  py_setitem l ax x = Ok (<[a := x]> l).
Proof.
  intros Ha Hax.
  destruct (axis_position ax a (length l) Ha Hax) as [_ E].
  unfold py_setitem. rewrite E.
  destruct (Z.leb_spec 0 (Z.of_nat a)); [|exfalso; lia].
  destruct (Z.ltb_spec (Z.of_nat a) (Z.of_nat (length l))); [|exfalso; lia].
  cbn [andb]. now rewrite Nat2Z.id.
Qed.

(** The sizes on one axis of shapes that differ from [t] at most at
    position [a]. *)
Lemma column_template (t ds : list dim) (a i : nat) :
  (i < length t)%nat ->
  column i (map (fun d => <[a := d]> t) ds)
  = if (i =? a)%nat then ds
    else replicate (length ds) (default None (t !! i)).
Proof.
  intros Hi. unfold column.
  induction ds as [|d ds IH]; [now destruct (i =? a)%nat|].
  cbn [map omap list_omap]. rewrite IH.
  destruct (Nat.eqb_spec i a) as [-> | Hne].
  - now rewrite list_lookup_insert_eq by exact Hi.
  - rewrite list_lookup_insert_ne by (intros E; now apply Hne).
    destruct (lookup_lt_is_Some_2 t i Hi) as [x Hx].
    cbn [length replicate]. unfold dim in *. now rewrite !Hx.
Qed.

(** [Concat.compute_output_shape] without cropping, on shapes that all
    agree with a shape [t] except for their size on the concatenation
    axis: the result is [t] with, on that axis, the sum of the sizes, or
    [None] as soon as one of the sizes is unknown. The axis may be given
    from the front or, as a negative number, from the end. *)
Theorem concat_sums_along_axis :
  forall (ax : Z) (a : nat) (t ds : list dim),
    ds <> [] -> (a < length t)%nat ->
    ax = Z.of_nat a \/ ax = Z.of_nat a - Z.of_nat (length t) ->
    (In None ds ->
     Concat_compute_output_shape (MkConcat ax None)
       (map (fun d => <[a := d]> t) ds)
     = Ok (<[a := None]> t))
    /\ (forall vs : list Z,
           ds = map Some vs ->
           Concat_compute_output_shape (MkConcat ax None)
             (map (fun d => <[a := d]> t) ds)
           = Ok (<[a := Some (py_sum vs)]> t)).
Proof.
  intros ax a t ds Hds Ha Hax.
  set (shapes := map (fun d : dim => <[a := d]> t) ds).
  assert (Hm : (0 < length ds)%nat)
    by (destruct ds; [contradiction | cbn; lia]).
  assert (Hne : shapes <> [])
    by (subst shapes; destruct ds; [contradiction | discriminate]).
  assert (Hrect : Forall (fun sh : list dim => length sh = length t) shapes).
  { subst shapes. apply Forall_forall. intros sh Hsh.
    apply list_elem_of_fmap in Hsh. destruct Hsh as (d & -> & _).
    apply length_insert. }
  assert (Hout : map first_known (zip_star shapes)
                 = <[a := first_known ds]> t).
  { rewrite (zip_star_columns shapes (length t) Hne Hrect).
    apply list_eq. intros i. rewrite !list_lookup_fmap.
    destruct (Nat.lt_ge_cases i (length t)) as [Hi | Hi].
    - rewrite lookup_seq_lt by exact Hi. cbn.
      subst shapes. rewrite (column_template t ds a i Hi).
      destruct (Nat.eqb_spec i a) as [-> | Hia].
      + now rewrite list_lookup_insert_eq by exact Hi.
      + rewrite list_lookup_insert_ne by (intros E; now apply Hia).
        rewrite first_known_replicate by exact Hm.
        destruct (lookup_lt_is_Some_2 t i Hi) as [x Hx].
        unfold dim in *. now rewrite !Hx.
    - rewrite lookup_seq_ge by exact Hi. cbn. symmetry.
      apply lookup_ge_None_2. now rewrite length_insert. }
  assert (Hgeneral :
            Concat_compute_output_shape (MkConcat ax None) shapes
            = Ok (<[a := if existsb is_None ds then None
                         else Some (py_sum (omap id ds))]> t)).
  { unfold Concat_compute_output_shape.
    cbn [concat_cropping autocrop_array_shapes rbind axis].
    rewrite Hout.
    replace (forallb
               (fun shape =>
                  shapes_match (MkConcat ax None) shape
                    (<[a := first_known ds]> t))
               shapes) with true.
    2:{ symmetry. apply forallb_forall. intros sh Hsh.
        apply list_elem_of_In in Hsh. subst shapes.
        apply list_elem_of_fmap in Hsh. destruct Hsh as (d & -> & _).
        unfold shapes_match. cbn [axis].
        rewrite !length_insert, Nat.eqb_refl. cbn [andb].
        destruct (axis_position ax a (length t) Ha Hax) as [-> _].
        apply forallb_forall. intros [i [s1 s2]] Hin.
        apply list_elem_of_In, list_elem_of_lookup_1 in Hin.
        destruct Hin as [j Hj]. rewrite enumerate_lookup in Hj.
        destruct (zip (<[a := d]> t) (<[a := first_known ds]> t) !! j)
          as [[s1' s2']|] eqn:Hz; [|discriminate].
        cbn in Hj. injection Hj as <- <- <-.
        apply lookup_zip_with_Some in Hz.
        destruct Hz as (x & y & Hxy & Hx & Hy). injection Hxy as -> ->.
        destruct (Nat.eqb_spec j a) as [-> | Hja].
        - now rewrite Z.eqb_refl.
        - rewrite list_lookup_insert_ne in Hx by (intros E; now apply Hja).
          rewrite list_lookup_insert_ne in Hy by (intros E; now apply Hja).
          rewrite Hx in Hy. injection Hy as <-.
          destruct x as [v|]; [|now rewrite orb_true_r].
          rewrite Z.eqb_refl. now rewrite orb_true_r. }
    cbn [negb].
    rewrite (rmap_pointwise _ shapes ds).
    - cbn [rbind]. rewrite py_setitem_axis with (a := a).
      + now rewrite list_insert_insert_eq.
      + now rewrite length_insert.
      + now rewrite length_insert.
    - subst shapes. apply length_map.
    - intros k sh Hsh. subst shapes. rewrite list_lookup_fmap in Hsh.
      destruct (ds !! k) as [d|] eqn:Hd; [|discriminate].
      cbn in Hsh. injection Hsh as <-.
      exists d. split; [reflexivity|].
      apply py_index_axis with (a := a).
      + now apply list_lookup_insert_eq.
      + now rewrite length_insert. }
  split.
  - intros Hin. rewrite Hgeneral.
    now rewrite (existsb_is_None_In ds Hin).
  - intros vs ->. rewrite Hgeneral.
    now rewrite existsb_is_None_known, omap_id_known.
Qed.

Lemma concat_sums_along_axis_witness :
  Concat_compute_output_shape (MkConcat (-1) None)
    (map (fun d => <[2%nat := d]> [None; Some 4; Some 0])
       [None; Some 5])
  = Ok (<[2%nat := None]> [None; Some 4; Some 0])
  /\ Concat_compute_output_shape (MkConcat 2 None)
       (map (fun d => <[2%nat := d]> [None; Some 4; Some 0])
          (map Some [3; 5]))
     = Ok (<[2%nat := Some (py_sum [3; 5])]> [None; Some 4; Some 0]).
Proof.
  split.
  - apply (concat_sums_along_axis (-1) 2 [None; Some 4; Some 0]
             [None; Some 5]).
    + discriminate.
    + cbn. lia.
    + right. reflexivity.
    + left. reflexivity.
  - apply (concat_sums_along_axis 2 2 [None; Some 4; Some 0]
             (map Some [3; 5])).
    + discriminate.
    + cbn. lia.
    + left. reflexivity.
    + reflexivity.
Defined.

(** What [Concat.compute_output_shape] refuses without cropping: no input
    shapes at all end in an [IndexError]; shapes of one rank of which two
    have different known sizes on an axis other than the concatenation
    axis are a [ValueError]. *)
Theorem concat_refusals :
  forall (ax : Z) (shapes : list (list dim)),
    (shapes = [] ->
     Concat_compute_output_shape (MkConcat ax None) shapes
     = Raise IndexError)
    /\ (forall (n i : nat) (sh1 sh2 : list dim) (v1 v2 : Z),
           Forall (fun sh => length sh = n) shapes ->
           In sh1 shapes -> In sh2 shapes ->
           sh1 !! i = Some (Some v1) -> sh2 !! i = Some (Some v2) ->
           v1 <> v2 ->
           ax <> Z.of_nat i -> ax <> Z.of_nat i - Z.of_nat n ->
           Concat_compute_output_shape (MkConcat ax None) shapes
           = Raise ValueError).
Proof.
  intros ax shapes. split.
  - intros ->. unfold Concat_compute_output_shape.
    cbn [concat_cropping autocrop_array_shapes rbind zip_star map forallb
         negb rmap existsb omap list_omap axis].
    unfold py_setitem. cbn [length].
    destruct (ax <? 0); destruct ((0 <=? _) && _) eqn:E; try reflexivity;
      exfalso; apply andb_prop in E; destruct E as [E1 E2];
      apply Z.leb_le in E1; apply Z.ltb_lt in E2; lia.
  - intros n i sh1 sh2 v1 v2 Hrect Hin1 Hin2 H1 H2 Hv Hax1 Hax2.
    assert (Hne : shapes <> []) by (intros ->; contradiction).
    assert (Hi : (i < n)%nat).
    { rewrite Forall_forall in Hrect.
      rewrite <- (Hrect sh1) by (now apply list_elem_of_In).
      eapply lookup_lt_Some; eauto. }
    unfold Concat_compute_output_shape.
    cbn [concat_cropping autocrop_array_shapes rbind axis].
    set (output_shape := map first_known (zip_star shapes)).
    assert (Hout_len : length output_shape = n).
    { subst output_shape.
      rewrite (zip_star_columns shapes n Hne Hrect).
      now rewrite !length_map, length_seq. }
    destruct (first_known_exists (column i shapes) v1) as (w & Hw & _).
    { apply column_In. eauto. }
    assert (Hout_i : output_shape !! i = Some (Some w)).
    { subst output_shape.
      rewrite (zip_star_columns shapes n Hne Hrect).
      rewrite !list_lookup_fmap, lookup_seq_lt by exact Hi.
      cbn. now rewrite Hw. }
    assert (Hbad : forall (sh : list dim) (v : Z),
               In sh shapes -> sh !! i = Some (Some v) -> v <> w ->
               shapes_match (MkConcat ax None) sh output_shape = false).
    { intros sh v Hin Hsh Hvw.
      assert (Hlen : length sh = n).
      { rewrite Forall_forall in Hrect. apply Hrect.
        now apply list_elem_of_In. }
      unfold shapes_match. cbn [axis]. rewrite Hlen, Hout_len.
      rewrite Nat.eqb_refl. cbn [andb].
      apply not_true_is_false. intros Hall.
      rewrite forallb_forall in Hall.
      specialize (Hall (i, (Some v, Some w))).
      assert (Hmem : In (i, (Some v, Some w))
                       (enumerate (zip sh output_shape))).
      { apply list_elem_of_In, (list_elem_of_lookup_2 _ i).
        rewrite enumerate_lookup.
        replace (zip sh output_shape !! i) with (Some (Some v, Some w));
          [reflexivity|].
        symmetry. apply lookup_zip_with_Some. eauto. }
      specialize (Hall Hmem). cbn in Hall.
      apply orb_prop in Hall. destruct Hall as [Hall | Hall].
      - apply Z.eqb_eq in Hall.
        destruct (0 <=? ax) eqn:E; [now apply Hax1|].
        apply Hax2. lia.
      - apply Z.eqb_eq in Hall. now apply Hvw. }
    replace (forallb (fun shape =>
                        shapes_match (MkConcat ax None) shape output_shape)
               shapes) with false; [reflexivity|].
    symmetry. apply not_true_is_false. intros Hall.
    rewrite forallb_forall in Hall.
    destruct (Z.eq_dec v1 w) as [E1 | N1].
    + assert (N2 : v2 <> w) by congruence.
      specialize (Hall sh2 Hin2). cbn beta in Hall.
      rewrite (Hbad sh2 v2 Hin2 H2 N2) in Hall. discriminate.
    + specialize (Hall sh1 Hin1). cbn beta in Hall.
      rewrite (Hbad sh1 v1 Hin1 H1 N1) in Hall. discriminate.
Qed.

Lemma concat_refusals_witness :
  Concat_compute_output_shape (MkConcat 1 None) [] = Raise IndexError
  /\ Concat_compute_output_shape (MkConcat 1 None)
       [[None; Some 3; Some 7]; [None; Some 2; Some 9]]
     = Raise ValueError.
Proof.
  split.
  - apply (concat_refusals 1 []). reflexivity.
  - apply (concat_refusals 1
             [[None; Some 3; Some 7]; [None; Some 2; Some 9]])
      with (n := 3%nat) (i := 2%nat) (sh1 := [None; Some 3; Some 7])
           (sh2 := [None; Some 2; Some 9]) (v1 := 7) (v2 := 9).
    + repeat constructor.
    + left. reflexivity.
    + right. left. reflexivity.
    + reflexivity.
    + reflexivity.
    + lia.
    + lia.
    + lia.
Defined.
